(** * go-fcm: payload translation, response normalisation, retry classification

    A shallow embedding of the two client files of the repository:
    [src/fcm.go] (the client with the legacy [sendOnce] and a separate
    [sendViaV1]) and [src/unnamed/part_000] (the client whose [sendOnce]
    serves both the legacy and the v1 protocol).  The two files declare the
    same package with the same identifiers, so each gets its own module:
    [FcmGo] for [src/fcm.go] and [FcmV1] for [src/unnamed/part_000].  What is
    textually identical in both files is declared once, before the modules.

    Go values are modelled as follows.
    - [int], [int64]: [Z] (no arithmetic is done on them, only comparisons).
    - [string], [[]byte]: [string].
    - [error]: [string]; a Go result pair [(x, err)] keeps its shape where the
      source returns both, and is a sum ([inl err] / [inr x]) for the library
      calls whose value is unused on error.
    - [map[string]string]: [gmap string string] where only lookups and stores
      are done on it; an association list in iteration order where the code
      ranges over the map and the order can be observed.
    - [interface{}]: the inductive [value] below.
    - an argument of pointer type [*T]: [option T], [None] for nil; a call
      that dereferences it has a [completion] for result. *)

From Stdlib Require Import ZArith String Ascii List DecimalString.
From Stdlib Require DecimalPos.
From stdpp Require Import gmap strings list fin_maps.

Set Warnings "-register-all".

Open Scope Z_scope.
Open Scope string_scope.

(** ** Library primitives

    Three leaf encoders of the Go standard library are outside the
    repository and are taken as an interface: how [fmt] prints a [float64]
    under [%v], and how [encoding/json] writes a [float64] (it refuses NaN
    and the infinities) and a [string] (its escape table has changed between
    Go releases).  Everything that composes them is written out below. *)

Class GoLib := {
  float64 : Type;
  fmt_float64 : float64 -> string;
  json_float64 : float64 -> option string;
  json_string : string -> string;
}.

Definition error := string.

(** A call that dereferences an argument of pointer type: it returns, or
    it panics because the pointer is nil.  A pointer [*T] is an [option T],
    with [None] for nil. *)
Inductive completion (A : Type) : Type :=
| Completes (x : A)
| Panics.

Arguments Completes {A} x.
Arguments Panics {A}.

(** [strconv.Itoa] / the [%d] verb. *)
Definition itoa (z : Z) : string := NilZero.string_of_int (Z.to_int z).

(** [strings.Join]. *)
Fixpoint join (sep : string) (l : list string) : string :=
  match l with
  | [] => ""
  | [x] => x
  | x :: rest => x +:+ sep +:+ join sep rest
  end.

(** Insertion of an entry into a list of entries ordered by key, and the
    sort built from it: [fmt] and [encoding/json] both write the entries of
    a map in increasing key order (byte-wise). *)
Fixpoint insert_by_key (e : string * string) (l : list (string * string))
  : list (string * string) :=
  match l with
  | [] => [e]
  | e' :: rest =>
      if String.leb (fst e) (fst e') then e :: l
      else e' :: insert_by_key e rest
  end.

Definition sort_by_key (l : list (string * string)) : list (string * string) :=
  fold_right insert_by_key [] l.

Section Values.
Context `{GoLib}.

(** ** The dynamic values held by an [interface{}]

    The dynamic types that the code tests for ([string], [float64],
    [[]interface{}], [map[string]interface{}]), the ones JSON decoding adds
    ([nil], [bool]), the [map[string]string] that [NewFcmTopicMsg] stores,
    the nil slice and the nil maps, and [VOther]: a value of any other dynamic
    type (an [int], a struct, ...), given by what [%v] prints for it and by
    what [json.Marshal] returns for it.  The entries of a map are listed in
    the order in which a [range] loop visits them. *)
Inductive value :=
| VNil
| VBool (b : bool)
| VString (s : string)
| VFloat (f : float64)
| VSlice (l : list value)
| VNilSlice
| VMap (m : list (string * value))
| VNilMap
| VStrMap (m : list (string * string))
| VNilStrMap
| VOther (printed : string) (marshalled : option string).

(** [fmt.Sprintf("%v", v)]. *)
Fixpoint Sprint (v : value) : string :=
  match v with
  | VNil => "<nil>"
  | VBool b => if b then "true" else "false"
  | VString s => s
  | VFloat f => fmt_float64 f
  | VSlice l => "[" +:+ join " " (map Sprint l) +:+ "]"
  | VNilSlice => "[]"
  | VMap m =>
      let printed := map (fun kv => match kv with (k, x) => (k, Sprint x) end) m in
      "map[" +:+ join " " (map (fun kv => fst kv +:+ ":" +:+ snd kv) (sort_by_key printed)) +:+ "]"
  | VNilMap => "map[]"
  | VStrMap m =>
      "map[" +:+ join " " (map (fun kv => fst kv +:+ ":" +:+ snd kv) (sort_by_key m)) +:+ "]"
  | VNilStrMap => "map[]"
  | VOther printed _ => printed
  end.

(** All results, or nothing when one of them is missing. *)
Fixpoint sequence {A} (l : list (option A)) : option (list A) :=
  match l with
  | [] => Some []
  | None :: _ => None
  | Some x :: rest =>
      match sequence rest with
      | Some xs => Some (x :: xs)
      | None => None
      end
  end.

Definition json_object (fields : list (string * string)) : string :=
  "{" +:+ join "," (map (fun kv => json_string (fst kv) +:+ ":" +:+ snd kv)
                        (sort_by_key fields)) +:+ "}".

(** [json.Marshal(v)]: [Some] of the compact text, [None] for an error. *)
Fixpoint Marshal (v : value) : option string :=
  match v with
  | VNil => Some "null"
  | VBool b => Some (if b then "true" else "false")
  | VString s => Some (json_string s)
  | VFloat f => json_float64 f
  | VSlice l =>
      match sequence (map Marshal l) with
      | Some elems => Some ("[" +:+ join "," elems +:+ "]")
      | None => None
      end
  | VNilSlice => Some "null"
  | VMap m =>
      let fields :=
        map (fun kv => match kv with
                       | (k, x) => match Marshal x with
                                   | Some s => Some (k, s)
                                   | None => None
                                   end
                       end) m in
      match sequence fields with
      | Some fs => Some (json_object fs)
      | None => None
      end
  | VNilMap => Some "null"
  | VStrMap m => Some (json_object (map (fun kv => (fst kv, json_string (snd kv))) m))
  | VNilStrMap => Some "null"
  | VOther _ marshalled => marshalled
  end.

(** ** [flattenMap] (src/unnamed/part_000, lines 385-406) *)

(** [fullKey := key; if prefix != "" { fullKey = prefix + "." + key }] *)
Definition fullKey_of (prefix key : string) : string :=
  if String.eqb prefix "" then key else prefix +:+ "." +:+ key.

(** The loop of the [[]interface{}] case, from index [i] on:
    [output[fmt.Sprintf("%s.%d", fullKey, i)] = fmt.Sprintf("%v", elem)]. *)
Fixpoint rangeSlice (fullKey : string) (i : Z) (v : list value)
    (output : gmap string string) : gmap string string :=
  match v with
  | [] => output
  | elem :: rest =>
      rangeSlice fullKey (i + 1) rest
        (<[fullKey +:+ "." +:+ itoa i := Sprint elem]> output)
  end.

(** The type switch of the loop body, on the value stored under [fullKey].
    The recursive call of [flattenMap] on a nested map is the inner loop. *)
Fixpoint flattenValue (fullKey : string) (v : value)
    (output : gmap string string) : gmap string string :=
  match v with
  | VString s => <[fullKey := s]> output
  | VFloat f => <[fullKey := fmt_float64 f]> output
  | VSlice l => rangeSlice fullKey 0 l output
  | VNilSlice => output
  | VMap m =>
      (fix range (input : list (string * value)) (output : gmap string string) :=
         match input with
         | [] => output
         | (key, x) :: rest =>
             range rest (flattenValue (fullKey_of fullKey key) x output)
         end) m output
  | VNilMap => output
  | _ => <[fullKey := Sprint v]> output
  end.

(** [flattenMap(prefix, input, output)]; the result is the [output] map
    after the call. *)
Fixpoint flattenMap (prefix : string) (input : list (string * value))
    (output : gmap string string) : gmap string string :=
  match input with
  | [] => output
  | (key, x) :: rest =>
      flattenMap prefix rest (flattenValue (fullKey_of prefix key) x output)
  end.

(** ** The flattening, as the specification words it

    [reaches m path v]: following the keys of [path] from the map [m] through
    nested [map[string]interface{}] values leads to the value [v]. *)
Inductive reaches : list (string * value) -> list string -> value -> Prop :=
| reaches_here m k v :
    In (k, v) m -> reaches m [k] v
| reaches_down m k m' path v :
    In (k, VMap m') m -> reaches m' path v -> reaches m (k :: path) v.

(** The dotted key of a path: its keys joined with ".". *)
Definition dotted (path : list string) : string := join "." path.

(** The key that the code builds along a path, starting from [prefix]. *)
Definition dotted_from (prefix : string) (path : list string) : string :=
  fold_left fullKey_of path prefix.

(** What the value [v] stored under [key] contributes to the flat map: a
    list gives one entry per element, at [key.<index>], holding the element
    as [%v] prints it; a string gives itself at [key]; every other value
    that is not a [map[string]interface{}] gives, at [key], what [%v] prints
    for it. *)
Definition rendered (key : string) (v : value) (k s : string) : Prop :=
  match v with
  | VMap _ | VNilMap | VNilSlice => False
  | VSlice l =>
      exists (i : nat) (elem : value),
        l !! i = Some elem /\ k = key +:+ "." +:+ itoa (Z.of_nat i) /\
        s = Sprint elem
  | VString str => k = key /\ s = str
  | _ => k = key /\ s = Sprint v
  end.

(** [k] is bound to [s] by some path of [m]. *)
Definition flat_entry (prefix : string) (m : list (string * value))
    (k s : string) : Prop :=
  exists (path : list string) (v : value),
    reaches m path v /\ rendered (dotted_from prefix path) v k s.

(** ** The message under construction

    [NotificationPayload] and [FcmMsg] are declared with the same text in
    both files. *)

Record NotificationPayload := {
  Title : string;
  Body : string;
  Icon : string;
  Sound : string;
  Badge : string;
  Tag : string;
  Color : string;
  ClickAction : string;
  BodyLocKey : string;
  BodyLocArgs : string;
  TitleLocKey : string;
  TitleLocArgs : string;
  AndroidChannelID : string;
}.

Record FcmMsg := {
  Data : value;
  To : string;
  RegistrationIds : list string;
  CollapseKey : string;
  Priority : string;
  Notification : NotificationPayload;
  ContentAvailable : bool;
  DelayWhileIdle : bool;
  TimeToLive : Z;
  RestrictedPackageName : string;
  DryRun : bool;
  Condition : string;
}.

(** The zero values of the two structs. *)
Definition zero_NotificationPayload : NotificationPayload :=
  {| Title := ""; Body := ""; Icon := ""; Sound := ""; Badge := ""; Tag := "";
     Color := ""; ClickAction := ""; BodyLocKey := ""; BodyLocArgs := "";
     TitleLocKey := ""; TitleLocArgs := ""; AndroidChannelID := "" |}.

Definition zero_FcmMsg : FcmMsg :=
  {| Data := VNil; To := ""; RegistrationIds := []; CollapseKey := "";
     Priority := ""; Notification := zero_NotificationPayload;
     ContentAvailable := false; DelayWhileIdle := false; TimeToLive := 0;
     RestrictedPackageName := ""; DryRun := false; Condition := "" |}.

(** Assignments [this.Message.<field> = x], one per field. *)
Definition set_Data (x : value) (m : FcmMsg) : FcmMsg :=
  {| Data := x; To := To m; RegistrationIds := RegistrationIds m;
     CollapseKey := CollapseKey m; Priority := Priority m;
     Notification := Notification m; ContentAvailable := ContentAvailable m;
     DelayWhileIdle := DelayWhileIdle m; TimeToLive := TimeToLive m;
     RestrictedPackageName := RestrictedPackageName m; DryRun := DryRun m;
     Condition := Condition m |}.
Definition set_To (x : string) (m : FcmMsg) : FcmMsg :=
  {| Data := Data m; To := x; RegistrationIds := RegistrationIds m;
     CollapseKey := CollapseKey m; Priority := Priority m;
     Notification := Notification m; ContentAvailable := ContentAvailable m;
     DelayWhileIdle := DelayWhileIdle m; TimeToLive := TimeToLive m;
     RestrictedPackageName := RestrictedPackageName m; DryRun := DryRun m;
     Condition := Condition m |}.
Definition set_RegistrationIds (x : list string) (m : FcmMsg) : FcmMsg :=
  {| Data := Data m; To := To m; RegistrationIds := x;
     CollapseKey := CollapseKey m; Priority := Priority m;
     Notification := Notification m; ContentAvailable := ContentAvailable m;
     DelayWhileIdle := DelayWhileIdle m; TimeToLive := TimeToLive m;
     RestrictedPackageName := RestrictedPackageName m; DryRun := DryRun m;
     Condition := Condition m |}.
Definition set_CollapseKey (x : string) (m : FcmMsg) : FcmMsg :=
  {| Data := Data m; To := To m; RegistrationIds := RegistrationIds m;
     CollapseKey := x; Priority := Priority m;
     Notification := Notification m; ContentAvailable := ContentAvailable m;
     DelayWhileIdle := DelayWhileIdle m; TimeToLive := TimeToLive m;
     RestrictedPackageName := RestrictedPackageName m; DryRun := DryRun m;
     Condition := Condition m |}.
Definition set_Priority (x : string) (m : FcmMsg) : FcmMsg :=
  {| Data := Data m; To := To m; RegistrationIds := RegistrationIds m;
     CollapseKey := CollapseKey m; Priority := x;
     Notification := Notification m; ContentAvailable := ContentAvailable m;
     DelayWhileIdle := DelayWhileIdle m; TimeToLive := TimeToLive m;
     RestrictedPackageName := RestrictedPackageName m; DryRun := DryRun m;
     Condition := Condition m |}.
Definition set_Notification (x : NotificationPayload) (m : FcmMsg) : FcmMsg :=
  {| Data := Data m; To := To m; RegistrationIds := RegistrationIds m;
     CollapseKey := CollapseKey m; Priority := Priority m;
     Notification := x; ContentAvailable := ContentAvailable m;
     DelayWhileIdle := DelayWhileIdle m; TimeToLive := TimeToLive m;
     RestrictedPackageName := RestrictedPackageName m; DryRun := DryRun m;
     Condition := Condition m |}.
Definition set_ContentAvailable (x : bool) (m : FcmMsg) : FcmMsg :=
  {| Data := Data m; To := To m; RegistrationIds := RegistrationIds m;
     CollapseKey := CollapseKey m; Priority := Priority m;
     Notification := Notification m; ContentAvailable := x;
     DelayWhileIdle := DelayWhileIdle m; TimeToLive := TimeToLive m;
     RestrictedPackageName := RestrictedPackageName m; DryRun := DryRun m;
     Condition := Condition m |}.
Definition set_DelayWhileIdle (x : bool) (m : FcmMsg) : FcmMsg :=
  {| Data := Data m; To := To m; RegistrationIds := RegistrationIds m;
     CollapseKey := CollapseKey m; Priority := Priority m;
     Notification := Notification m; ContentAvailable := ContentAvailable m;
     DelayWhileIdle := x; TimeToLive := TimeToLive m;
     RestrictedPackageName := RestrictedPackageName m; DryRun := DryRun m;
     Condition := Condition m |}.
Definition set_TimeToLive (x : Z) (m : FcmMsg) : FcmMsg :=
  {| Data := Data m; To := To m; RegistrationIds := RegistrationIds m;
     CollapseKey := CollapseKey m; Priority := Priority m;
     Notification := Notification m; ContentAvailable := ContentAvailable m;
     DelayWhileIdle := DelayWhileIdle m; TimeToLive := x;
     RestrictedPackageName := RestrictedPackageName m; DryRun := DryRun m;
     Condition := Condition m |}.
Definition set_RestrictedPackageName (x : string) (m : FcmMsg) : FcmMsg :=
  {| Data := Data m; To := To m; RegistrationIds := RegistrationIds m;
     CollapseKey := CollapseKey m; Priority := Priority m;
     Notification := Notification m; ContentAvailable := ContentAvailable m;
     DelayWhileIdle := DelayWhileIdle m; TimeToLive := TimeToLive m;
     RestrictedPackageName := x; DryRun := DryRun m;
     Condition := Condition m |}.
Definition set_DryRun (x : bool) (m : FcmMsg) : FcmMsg :=
  {| Data := Data m; To := To m; RegistrationIds := RegistrationIds m;
     CollapseKey := CollapseKey m; Priority := Priority m;
     Notification := Notification m; ContentAvailable := ContentAvailable m;
     DelayWhileIdle := DelayWhileIdle m; TimeToLive := TimeToLive m;
     RestrictedPackageName := RestrictedPackageName m; DryRun := x;
     Condition := Condition m |}.
Definition set_Condition (x : string) (m : FcmMsg) : FcmMsg :=
  {| Data := Data m; To := To m; RegistrationIds := RegistrationIds m;
     CollapseKey := CollapseKey m; Priority := Priority m;
     Notification := Notification m; ContentAvailable := ContentAvailable m;
     DelayWhileIdle := DelayWhileIdle m; TimeToLive := TimeToLive m;
     RestrictedPackageName := RestrictedPackageName m; DryRun := DryRun m;
     Condition := x |}.

(** The fields of [FcmMsg], and what it means for two messages to agree on
    every field but one. *)
Inductive field :=
| fData | fTo | fRegistrationIds | fCollapseKey | fPriority | fNotification
| fContentAvailable | fDelayWhileIdle | fTimeToLive | fRestrictedPackageName
| fDryRun | fCondition.

Definition same_but (f : field) (m m' : FcmMsg) : Prop :=
  (f <> fData -> Data m' = Data m) /\
  (f <> fTo -> To m' = To m) /\
  (f <> fRegistrationIds -> RegistrationIds m' = RegistrationIds m) /\
  (f <> fCollapseKey -> CollapseKey m' = CollapseKey m) /\
  (f <> fPriority -> Priority m' = Priority m) /\
  (f <> fNotification -> Notification m' = Notification m) /\
  (f <> fContentAvailable -> ContentAvailable m' = ContentAvailable m) /\
  (f <> fDelayWhileIdle -> DelayWhileIdle m' = DelayWhileIdle m) /\
  (f <> fTimeToLive -> TimeToLive m' = TimeToLive m) /\
  (f <> fRestrictedPackageName ->
     RestrictedPackageName m' = RestrictedPackageName m) /\
  (f <> fDryRun -> DryRun m' = DryRun m) /\
  (f <> fCondition -> Condition m' = Condition m).

(** ** [toJsonByte] (the same in both files): [json.Marshal] on the message

    [encoding/json] writes the fields of a struct in the order of their
    declaration, under the names of their tags.  With [omitempty] a field
    is left out when it is the empty string, [false], 0, a slice of length
    0 or the nil interface; on a field of struct type the option has no
    effect.  The fields are listed as pairs of a name and an encoded
    value. *)
Definition opt_string (name v : string) : list (string * string) :=
  if String.eqb v "" then [] else [(name, json_string v)].

Definition opt_bool (name : string) (b : bool) : list (string * string) :=
  if b then [(name, "true")] else [].

Definition opt_int (name : string) (z : Z) : list (string * string) :=
  if (z =? 0)%Z then [] else [(name, itoa z)].

Definition opt_strings (name : string) (l : list string)
  : list (string * string) :=
  match l with
  | [] => []
  | _ => [(name, "[" +:+ join "," (map json_string l) +:+ "]")]
  end.

Definition json_struct (fields : list (string * string)) : string :=
  "{" +:+ join "," (map (fun kv => json_string (fst kv) +:+ ":" +:+ snd kv)
                        fields) +:+ "}".

Definition NotificationPayload_fields (n : NotificationPayload)
  : list (string * string) :=
  opt_string "title" (Title n) ++ opt_string "body" (Body n) ++
  opt_string "icon" (Icon n) ++ opt_string "sound" (Sound n) ++
  opt_string "badge" (Badge n) ++ opt_string "tag" (Tag n) ++
  opt_string "color" (Color n) ++
  opt_string "click_action" (ClickAction n) ++
  opt_string "body_loc_key" (BodyLocKey n) ++
  opt_string "body_loc_args" (BodyLocArgs n) ++
  opt_string "title_loc_key" (TitleLocKey n) ++
  opt_string "title_loc_args" (TitleLocArgs n) ++
  opt_string "android_channel_id" (AndroidChannelID n).

(** The [data] field: left out for the nil interface, an error when the
    value cannot be encoded. *)
Definition opt_data (d : value) : option (list (string * string)) :=
  match d with
  | VNil => Some []
  | _ =>
      match Marshal d with
      | Some text => Some [("data", text)]
      | None => None
      end
  end.

Definition FcmMsg_fields (m : FcmMsg) : option (list (string * string)) :=
  match opt_data (Data m) with
  | None => None
  | Some data =>
      Some (data ++ opt_string "to" (To m) ++
            opt_strings "registration_ids" (RegistrationIds m) ++
            opt_string "collapse_key" (CollapseKey m) ++
            opt_string "priority" (Priority m) ++
            [("notification",
              json_struct (NotificationPayload_fields (Notification m)))] ++
            opt_bool "content_available" (ContentAvailable m) ++
            opt_bool "delay_while_idle" (DelayWhileIdle m) ++
            opt_int "time_to_live" (TimeToLive m) ++
            opt_string "restricted_package_name" (RestrictedPackageName m) ++
            opt_bool "dry_run" (DryRun m) ++
            opt_string "condition" (Condition m))%list
  end.

Definition toJsonByte (m : FcmMsg) : option string :=
  match FcmMsg_fields m with
  | Some fields => Some (json_struct fields)
  | None => None
  end.

(** ** The calls of the builder interface

    The exported methods that build the message (the same in both files),
    with their arguments, and the fields of the message that each one
    assigns.  These are the calls that return a client:
    [SetNotificationPayload] is listed with the payload that its argument
    points to, since with a nil argument it panics and returns nothing. *)
Inductive call :=
| Call_NewFcmTopicMsg (to : string) (body : list (string * string))
| Call_NewFcmMsgTo (to : string) (body : value)
| Call_SetMsgData (body : value)
| Call_NewFcmRegIdsMsg (list : list string) (body : value)
| Call_AppendDevices (list : list string)
| Call_SetPriority (p : string)
| Call_SetCollapseKey (val : string)
| Call_SetNotificationPayload (payload : NotificationPayload)
| Call_SetContentAvailable (isContentAvailable : bool)
| Call_SetDelayWhileIdle (isDelayWhileIdle : bool)
| Call_SetTimeToLive (ttl : Z)
| Call_SetRestrictedPackageName (pkg : string)
| Call_SetDryRun (drun : bool)
| Call_SetCondition (condition : string).

Definition writes (c : call) : list field :=
  match c with
  | Call_NewFcmTopicMsg _ _ => [fTo; fData]
  | Call_NewFcmMsgTo _ _ => [fTo; fData]
  | Call_SetMsgData _ => [fData]
  | Call_NewFcmRegIdsMsg _ _ => [fRegistrationIds; fData]
  | Call_AppendDevices _ => [fRegistrationIds]
  | Call_SetPriority _ => [fPriority]
  | Call_SetCollapseKey _ => [fCollapseKey]
  | Call_SetNotificationPayload _ => [fNotification]
  | Call_SetContentAvailable _ => [fContentAvailable]
  | Call_SetDelayWhileIdle _ => [fDelayWhileIdle]
  | Call_SetTimeToLive _ => [fTimeToLive]
  | Call_SetRestrictedPackageName _ => [fRestrictedPackageName]
  | Call_SetDryRun _ => [fDryRun]
  | Call_SetCondition _ => [fCondition]
  end.

(** [AppendDevices] is the one call whose assignment reads the field it
    assigns. *)
Definition appends (c : call) : bool :=
  match c with
  | Call_AppendDevices _ => true
  | _ => false
  end.

(** Two listings of one [map[string]interface{}]: the same entries visited
    in another order, at any depth of nesting. *)
Inductive reorder : list (string * value) -> list (string * value) -> Prop :=
| reorder_perm m m' :
    Permutation m m' -> reorder m m'
| reorder_nested k a b rest :
    reorder a b -> reorder ((k, VMap a) :: rest) ((k, VMap b) :: rest)
| reorder_trans m1 m2 m3 :
    reorder m1 m2 -> reorder m2 m3 -> reorder m1 m3.

End Values.

(** ** Constants (the same in both files) *)

Definition MAX_TTL : Z := 2419200.
Definition Priority_HIGH : string := "high".
Definition Priority_NORMAL : string := "normal".
Definition retry_after_header : string := "Retry-After".
Definition error_key : string := "error".
Definition fcm_server_url : string := "https://fcm.googleapis.com/fcm/send".

Definition retreyableErrors : gmap string bool :=
  {[ "Unavailable" := true; "InternalServerError" := true ]}.

(** Reading a [map[string]bool] at a key: [false] when the key is absent. *)
Definition index_bool (m : gmap string bool) (k : string) : bool :=
  default false (m !! k).

(** The loop of [IsTimeout] over the list of result maps (the same in both
    files): some entry has the key [error_key] and a retryable value.  The
    order in which a map is ranged over cannot change the answer, so the
    entries are taken in the order of [map_to_list]. *)
Definition anyRetryable (results : list (gmap string string)) : bool :=
  existsb (fun val : gmap string string =>
             existsb (fun kv : string * string =>
                        String.eqb (fst kv) error_key
                        && Bool.eqb (index_bool retreyableErrors (snd kv)) true)
                     (map_to_list val))
          results.

(** The condition of the retry classifier on the result list, in the words
    of the specification: some result map has the key ["error"] with one of
    the two transient error names as its value. *)
Definition transient_result (results : list (gmap string string)) : Prop :=
  exists (val : gmap string string) (v : string),
    val ∈ results /\ val !! "error" = Some v /\
    (v = "Unavailable" \/ v = "InternalServerError").

(** [strconv.Atoi] on a platform with 64-bit [int]: an optional sign, then
    one or more decimal digits, the number within the range of [int]. *)
Definition digit_of (a : ascii) : option Z :=
  let n := Z.of_N (N_of_ascii a) in
  if ((48 <=? n) && (n <=? 57))%Z then Some (n - 48) else None.

Fixpoint digits (s : string) (acc : Z) : option Z :=
  match s with
  | EmptyString => Some acc
  | String a rest =>
      match digit_of a with
      | Some d => digits rest (acc * 10 + d)
      | None => None
      end
  end.

Definition Atoi (s : string) : error + Z :=
  let syntax := inl "strconv.Atoi: invalid syntax" in
  let range := inl "strconv.Atoi: value out of range" in
  let unsigned (neg : bool) (s' : string) : error + Z :=
    match s' with
    | EmptyString => syntax
    | _ =>
        match digits s' 0 with
        | None => syntax
        | Some n =>
            let z := if neg then - n else n in
            if ((- 2 ^ 63 <=? z) && (z <=? 2 ^ 63 - 1))%Z then inr z else range
        end
    end in
  match s with
  | EmptyString => syntax
  | String a rest =>
      if Ascii.eqb a "-" then unsigned true rest
      else if Ascii.eqb a "+" then unsigned false rest
      else unsigned false s
  end.

(** ** HTTP *)

(** The HTTP exchange, as far as the client looks at it. *)
Module Request.
Record t := {
  Method : string;
  URL : string;
  Header : gmap string string;
  Body : string;
}.
End Request.

Module Response.
(** [Body] is what [ioutil.ReadAll(response.Body)] returns. *)
Record t := {
  StatusCode : Z;
  Header : gmap string string;
  Body : error + string;
}.
End Response.

(** [Header.Get]: the empty string when the header is absent. *)
Definition Header_Get (h : gmap string string) (k : string) : string :=
  default "" (h !! k).

(** * src/unnamed/part_000: the client of both protocols *)

Module FcmV1.

Definition fcm_v1_server_url (project : string) : string :=
  "https://fcm.googleapis.com/v1/projects/" +:+ project +:+ "/messages:send".

Record GcmCredentialsV2 := {
  Type_ : string;
  ProjectID : string;
  PrivateKeyID : string;
  PrivateKey : string;
  ClientEmail : string;
  ClientID : string;
  AuthURI : string;
  TokenURI : string;
  AuthProviderX509CertURL : string;
  ClientX509CertURL : string;
}.

Record FcmV1ErrorDetail := {
  Type__ : string;
  ErrorCode : string;
}.

Module FcmV1Error.
Record t := {
  Code : Z;
  Message : string;
  Status : string;
  Details : list FcmV1ErrorDetail;
}.
End FcmV1Error.

Record FcmV1Response := {
  Name : string;
  Error : FcmV1Error.t;
}.

Record FcmResponseStatus := {
  Ok : bool;
  StatusCode : Z;
  MulticastId : Z;
  Success : Z;
  Fail : Z;
  Canonical_ids : Z;
  Results : list (gmap string string);
  MsgId : Z;
  Err : string;
  RetryAfter : string;
}.

(** [new(FcmResponseStatus)]. *)
Definition new_FcmResponseStatus : FcmResponseStatus :=
  {| Ok := false; StatusCode := 0; MulticastId := 0; Success := 0; Fail := 0;
     Canonical_ids := 0; Results := []; MsgId := 0; Err := "";
     RetryAfter := "" |}.

(** The map literal that [convertToV1Message] returns, one record per level
    of nesting, the fields named by the keys of the literal. *)
Module V1Notification.
Record t := { title : string; body : string }.
End V1Notification.

Module V1AndroidNotification.
Record t := {
  title : string;
  body : string;
  icon : string;
  color : string;
  sound : string;
  notification_count : Z;
  tag : string;
  click_action : string;
  body_loc_key : string;
  body_loc_args : string;
  title_loc_key : string;
  title_loc_args : string;
  channel_id : string;
}.
End V1AndroidNotification.

Module V1Android.
Record t := {
  collapse_key : string;
  priority : string;
  ttl : string;
  restricted_package_name : string;
  data : gmap string string;
  notification : V1AndroidNotification.t;
}.
End V1Android.

Module V1Message.
Record t := {
  token : string;
  notification : V1Notification.t;
  data : gmap string string;
  android : V1Android.t;
}.
End V1Message.

Record V1Payload := { message : V1Message.t }.

(** What a call of [sendOnce] does: it returns its pair, or it panics. *)
Inductive outcome :=
| Return (st : FcmResponseStatus) (err : option error)
| Panic.

Section Client.
Context `{GoLib}.

Record FcmClient := {
  ApiKey : string;
  Message : FcmMsg;
  UseV1Api : bool;
  V1ProjectID : string;
  gcmCredentialsV2 : GcmCredentialsV2;
}.

Definition with_Message (f : FcmMsg -> FcmMsg) (this : FcmClient) : FcmClient :=
  {| ApiKey := ApiKey this; Message := f (Message this);
     UseV1Api := UseV1Api this; V1ProjectID := V1ProjectID this;
     gcmCredentialsV2 := gcmCredentialsV2 this |}.

(** The client [this'] differs from [this] in the field [f] of the message
    at most. *)
Definition only_field (f : field) (this this' : FcmClient) : Prop :=
  ApiKey this' = ApiKey this /\ UseV1Api this' = UseV1Api this /\
  V1ProjectID this' = V1ProjectID this /\
  gcmCredentialsV2 this' = gcmCredentialsV2 this /\
  same_but f (Message this) (Message this').

(** ** Collaborators

    The calls that leave the repository: the JSON encoder on the two
    request shapes, the JSON decoder on the two response shapes, the OAuth2
    exchange behind [getToken], the URL check of [http.NewRequest], and the
    HTTP round trip.  [json_Unmarshal_status body st] is
    [json.Unmarshal(body, &this)] on the struct [st]: it gives the struct as
    the decoder leaves it, and its error. *)
Record World := {
  json_Marshal_FcmMsg : FcmMsg -> error + string;
  json_Marshal_V1 : V1Payload -> error + string;
  token_of : GcmCredentialsV2 -> error + string;
  url_ok : string -> bool;
  client_Do : Request.t -> error + Response.t;
  json_Unmarshal_V1 : string -> error + FcmV1Response;
  json_Unmarshal_status :
    string -> FcmResponseStatus -> FcmResponseStatus * option error;
}.

(** ** Builders and setters (lines 236-273 and 558-677) *)

Definition NewFcmMsgTo (to : string) (body : value) (this : FcmClient) : FcmClient :=
  with_Message (fun m => set_Data body (set_To to m)) this.

Definition NewFcmTopicMsg (to : string) (body : list (string * string))
    (this : FcmClient) : FcmClient :=
  NewFcmMsgTo to (VStrMap body) this.

Definition SetMsgData (body : value) (this : FcmClient) : FcmClient :=
  with_Message (set_Data body) this.

Definition newDevicesList (list : list string) (this : FcmClient) : FcmClient :=
  with_Message (set_RegistrationIds list) this.

Definition NewFcmRegIdsMsg (list : list string) (body : value)
    (this : FcmClient) : FcmClient :=
  with_Message (set_Data body) (newDevicesList list this).

Definition AppendDevices (list : list string) (this : FcmClient) : FcmClient :=
  with_Message (fun m => set_RegistrationIds (RegistrationIds m ++ list) m) this.

Definition apiKeyHeader (this : FcmClient) : string := "key=" +:+ ApiKey this.

Definition SetPriority (p : string) (this : FcmClient) : FcmClient :=
  if String.eqb p Priority_HIGH
  then with_Message (set_Priority Priority_HIGH) this
  else with_Message (set_Priority Priority_NORMAL) this.

Definition SetCollapseKey (val : string) (this : FcmClient) : FcmClient :=
  with_Message (set_CollapseKey val) this.

(** [this.Message.Notification = *payload]: the dereference of a nil
    [payload] panics. *)
Definition SetNotificationPayload (payload : option NotificationPayload)
    (this : FcmClient) : completion FcmClient :=
  match payload with
  | Some notification => Completes (with_Message (set_Notification notification) this)
  | None => Panics
  end.

Definition SetContentAvailable (isContentAvailable : bool)
    (this : FcmClient) : FcmClient :=
  with_Message (set_ContentAvailable isContentAvailable) this.

Definition SetDelayWhileIdle (isDelayWhileIdle : bool)
    (this : FcmClient) : FcmClient :=
  with_Message (set_DelayWhileIdle isDelayWhileIdle) this.

Definition SetTimeToLive (ttl : Z) (this : FcmClient) : FcmClient :=
  if ttl >? MAX_TTL
  then with_Message (set_TimeToLive MAX_TTL) this
  else with_Message (set_TimeToLive ttl) this.

Definition SetRestrictedPackageName (pkg : string) (this : FcmClient) : FcmClient :=
  with_Message (set_RestrictedPackageName pkg) this.

Definition SetDryRun (drun : bool) (this : FcmClient) : FcmClient :=
  with_Message (set_DryRun drun) this.

Definition SetCondition (condition : string) (this : FcmClient) : FcmClient :=
  with_Message (set_Condition condition) this.

(** ** [convertToV1Message] (lines 408-505) *)

(** [value.(string)] with the empty string for every other dynamic type. *)
Definition safeString (v : value) : string :=
  match v with
  | VString str => str
  | _ => ""
  end.

(** [m[k]] on a [map[string]interface{}]: the nil interface when the key is
    absent (and on the nil map). *)
Fixpoint index (m : list (string * value)) (k : string) : value :=
  match m with
  | [] => VNil
  | (k', x) :: rest => if String.eqb k' k then x else index rest k
  end.

(** The entries of a [map[string]interface{}] value; the nil map has none. *)
Definition entries (data : value) : list (string * value) :=
  match data with
  | VMap m => m
  | _ => []
  end.

(** Whether the dynamic type of a value is [map[string]interface{}]. *)
Definition is_map (d : value) : bool :=
  match d with
  | VMap _ | VNilMap => true
  | _ => false
  end.

(** [data, ok := this.Message.Data.(map[string]interface{})], with the fresh
    empty map when the assertion fails. *)
Definition asserted_data (d : value) : value :=
  match d with
  | VMap m => VMap m
  | VNilMap => VNilMap
  | _ => VMap []
  end.

Definition v1Data_of (data : value) : gmap string string :=
  let v1Data := flattenMap "" (entries data) ∅ in
  let stringifiedData :=
    match Marshal data with
    | Some bytes => bytes
    | None => "{}"
    end in
  <["data" := stringifiedData]> v1Data.

Definition convertToV1Message (this : FcmClient) : V1Payload :=
  let data := asserted_data (Data (Message this)) in
  let v1Data := v1Data_of data in
  let notification := Notification (Message this) in
  let title := safeString (VString (Title notification)) in
  let body := safeString (VString (Body notification)) in
  let title :=
    match index (entries data) "alert" with
    | VString alert => if negb (String.eqb alert "") then alert else title
    | _ => title
    end in
  let notification_badge := safeString (VString (Badge notification)) in
  let notification_count :=
    if negb (String.eqb notification_badge "") then
      match Atoi notification_badge with
      | inr n => n
      | inl _ => 0
      end
    else 0 in
  {| message :=
       {| V1Message.token := To (Message this);
          V1Message.notification :=
            {| V1Notification.title := title; V1Notification.body := body |};
          V1Message.data := v1Data;
          V1Message.android :=
            {| V1Android.collapse_key :=
                 safeString (VString (CollapseKey (Message this)));
               V1Android.priority :=
                 safeString (VString (Priority (Message this)));
               V1Android.ttl := itoa (TimeToLive (Message this)) +:+ "s";
               V1Android.restricted_package_name :=
                 safeString (VString (RestrictedPackageName (Message this)));
               V1Android.data := v1Data;
               V1Android.notification :=
                 {| V1AndroidNotification.title := title;
                    V1AndroidNotification.body := body;
                    V1AndroidNotification.icon :=
                      safeString (VString (Icon notification));
                    V1AndroidNotification.color :=
                      safeString (VString (Color notification));
                    V1AndroidNotification.sound :=
                      safeString (VString (Sound notification));
                    V1AndroidNotification.notification_count :=
                      notification_count;
                    V1AndroidNotification.tag :=
                      safeString (VString (Tag notification));
                    V1AndroidNotification.click_action :=
                      safeString (VString (ClickAction notification));
                    V1AndroidNotification.body_loc_key :=
                      safeString (VString (BodyLocKey notification));
                    V1AndroidNotification.body_loc_args :=
                      safeString (VString (BodyLocArgs notification));
                    V1AndroidNotification.title_loc_key :=
                      safeString (VString (TitleLocKey notification));
                    V1AndroidNotification.title_loc_args :=
                      safeString (VString (TitleLocArgs notification));
                    V1AndroidNotification.channel_id :=
                      safeString (VString (AndroidChannelID notification)) |} |} |} |}.

(** ** Response parsing (lines 512-556) *)

Definition set_StatusCode (x : Z) (st : FcmResponseStatus) : FcmResponseStatus :=
  {| Ok := Ok st; StatusCode := x; MulticastId := MulticastId st;
     Success := Success st; Fail := Fail st;
     Canonical_ids := Canonical_ids st; Results := Results st;
     MsgId := MsgId st; Err := Err st; RetryAfter := RetryAfter st |}.

Definition set_RetryAfter (x : string) (st : FcmResponseStatus) : FcmResponseStatus :=
  {| Ok := Ok st; StatusCode := StatusCode st; MulticastId := MulticastId st;
     Success := Success st; Fail := Fail st;
     Canonical_ids := Canonical_ids st; Results := Results st;
     MsgId := MsgId st; Err := Err st; RetryAfter := x |}.

Definition set_Ok (x : bool) (st : FcmResponseStatus) : FcmResponseStatus :=
  {| Ok := x; StatusCode := StatusCode st; MulticastId := MulticastId st;
     Success := Success st; Fail := Fail st;
     Canonical_ids := Canonical_ids st; Results := Results st;
     MsgId := MsgId st; Err := Err st; RetryAfter := RetryAfter st |}.

Definition parseStatusBody (w : World) (this : FcmResponseStatus)
    (body : string) : FcmResponseStatus * option error :=
  json_Unmarshal_status w body this.

(** The struct after the call, and the error returned.  The five
    assignments of lines 529-533 come first, then the branch on
    [v1Resp.Error.Message != ""]; [append] to the nil [Results] gives the
    one-element slice. *)
Definition parseStatusBodyV1 (w : World) (this : FcmResponseStatus)
    (body : string) : FcmResponseStatus * option error :=
  match json_Unmarshal_V1 w body with
  | inl err => (this, Some err)
  | inr v1Resp =>
      if negb (String.eqb (FcmV1Error.Message (Error v1Resp)) "") then
        ({| Ok := false;
            StatusCode := FcmV1Error.Code (Error v1Resp);
            MulticastId := 0;
            Success := 0;
            Fail := 1;
            Canonical_ids := 0;
            Results := [] ++ [ {[ "error" := FcmV1Error.Status (Error v1Resp) ]} ];
            MsgId := MsgId this;
            Err := FcmV1Error.Message (Error v1Resp);
            RetryAfter := RetryAfter this |}, None)
      else
        ({| Ok := true;
            StatusCode := 200;
            MulticastId := 0;
            Success := 1;
            Fail := 0;
            Canonical_ids := 0;
            Results := [] ++ [ {[ "message_id" := Name v1Resp ]} ];
            MsgId := 1;
            Err := Err this;
            RetryAfter := RetryAfter this |}, None)
  end.

(** ** [sendOnce] (lines 280-377)

    The debugging output ([fmt.Println], [log.Printf]) is left out. *)

Definition getToken (w : World) (this : FcmClient) : error + string :=
  token_of w (gcmCredentialsV2 this).

(** Lines 288-320: the request, or the early outcome.  [http.NewRequest]
    returns a nil request for a URL it cannot parse, its error is ignored,
    and the next statement sets a header on the request. *)
Definition buildRequest (w : World) (this : FcmClient) : outcome + Request.t :=
  let fcmRespStatus := new_FcmResponseStatus in
  if UseV1Api this then
    let v1Message := convertToV1Message this in
    match json_Marshal_V1 w v1Message with
    | inl err => inl (Return fcmRespStatus (Some err))
    | inr jsonByte =>
        match getToken w this with
        | inl err => inl (Return fcmRespStatus (Some err))
        | inr token =>
            let url := fcm_v1_server_url (V1ProjectID this) in
            if url_ok w url then
              inr {| Request.Method := "POST"; Request.URL := url;
                     Request.Header :=
                       <["Content-Type" := "application/json"]>
                         (<["Authorization" := "Bearer " +:+ token]> ∅);
                     Request.Body := jsonByte |}
            else inl Panic
        end
    end
  else
    match json_Marshal_FcmMsg w (Message this) with
    | inl err => inl (Return fcmRespStatus (Some err))
    | inr jsonByte =>
        if url_ok w fcm_server_url then
          inr {| Request.Method := "POST"; Request.URL := fcm_server_url;
                 Request.Header :=
                   <["Content-Type" := "application/json"]>
                     (<["Authorization" := apiKeyHeader this]> ∅);
                 Request.Body := jsonByte |}
        else inl Panic
    end.

(** Lines 322-337: the round trip and the reading of the body. *)
Definition exchange (w : World) (this : FcmClient)
  : outcome + (Response.t * string) :=
  let fcmRespStatus := new_FcmResponseStatus in
  match buildRequest w this with
  | inl early => inl early
  | inr request =>
      match client_Do w request with
      | inl err => inl (Return fcmRespStatus (Some err))
      | inr response =>
          match Response.Body response with
          | inl err => inl (Return fcmRespStatus (Some err))
          | inr body => inr (response, body)
          end
      end
  end.

(** Lines 341-376: the normalisation of a response that was read. *)
Definition normalise (w : World) (this : FcmClient)
    (response : Response.t) (body : string) : outcome :=
  let fcmRespStatus :=
    set_RetryAfter (Header_Get (Response.Header response) retry_after_header)
      (set_StatusCode (Response.StatusCode response) new_FcmResponseStatus) in
  if negb (Response.StatusCode response =? 200)%Z then
    if UseV1Api this then
      let (fcmRespStatus, err) := parseStatusBodyV1 w fcmRespStatus body in
      let fcmRespStatus := set_StatusCode 200 fcmRespStatus in
      Return fcmRespStatus err
    else Return fcmRespStatus None
  else
    let (fcmRespStatus, err) :=
      if UseV1Api this then parseStatusBodyV1 w fcmRespStatus body
      else parseStatusBody w fcmRespStatus body in
    match err with
    | Some e => Return fcmRespStatus (Some e)
    | None => Return (set_Ok true fcmRespStatus) None
    end.

Definition sendOnce (w : World) (this : FcmClient) : outcome :=
  match exchange w this with
  | inl early => early
  | inr (response, body) => normalise w this response body
  end.

Definition Send (w : World) (this : FcmClient) : outcome := sendOnce w this.

(** ** [IsTimeout] (lines 651-664) *)
Definition IsTimeout (this : FcmResponseStatus) : bool :=
  if (StatusCode this >=? 500)%Z then true
  else if (StatusCode this =? 200)%Z then anyRetryable (Results this)
  else false.

(** ** [NewFcmClient] (lines 218-234) and sequences of builder calls *)

Definition NewFcmClient (apiKey : string) (gcmCredentials : GcmCredentialsV2)
  : FcmClient :=
  {| ApiKey := apiKey;
     Message := zero_FcmMsg;
     UseV1Api := negb (String.eqb (ProjectID gcmCredentials) "");
     V1ProjectID :=
       if negb (String.eqb (ProjectID gcmCredentials) "")
       then ProjectID gcmCredentials else "";
     gcmCredentialsV2 := gcmCredentials |}.

Definition apply_call (c : call) (this : FcmClient) : FcmClient :=
  match c with
  | Call_NewFcmTopicMsg to body => NewFcmTopicMsg to body this
  | Call_NewFcmMsgTo to body => NewFcmMsgTo to body this
  | Call_SetMsgData body => SetMsgData body this
  | Call_NewFcmRegIdsMsg list body => NewFcmRegIdsMsg list body this
  | Call_AppendDevices list => AppendDevices list this
  | Call_SetPriority p => SetPriority p this
  | Call_SetCollapseKey val => SetCollapseKey val this
  | Call_SetNotificationPayload payload =>
      match SetNotificationPayload (Some payload) this with
      | Completes that => that
      | Panics => this
      end
  | Call_SetContentAvailable b => SetContentAvailable b this
  | Call_SetDelayWhileIdle b => SetDelayWhileIdle b this
  | Call_SetTimeToLive ttl => SetTimeToLive ttl this
  | Call_SetRestrictedPackageName pkg => SetRestrictedPackageName pkg this
  | Call_SetDryRun drun => SetDryRun drun this
  | Call_SetCondition condition => SetCondition condition this
  end.

(** A chain [this.A(...).B(...)...], the calls in the order they are made. *)
Definition chain (calls : list call) (this : FcmClient) : FcmClient :=
  fold_left (fun this c => apply_call c this) calls this.

End Client.
End FcmV1.

(** * src/fcm.go: the client with the legacy [sendOnce]

    [Send] of this file calls [sendViaV1] when [UseV1API] is set and
    [sendOnce] otherwise; the model has [sendOnce], the setters and
    [IsTimeout]. *)

Module FcmGo.
Section Client.
Context `{GoLib}.

Record FcmClient := {
  ApiKey : string;
  Message : FcmMsg;
  UseV1API : bool;
  CredentialsJSON : string;
}.

Definition with_Message (f : FcmMsg -> FcmMsg) (this : FcmClient) : FcmClient :=
  {| ApiKey := ApiKey this; Message := f (Message this);
     UseV1API := UseV1API this; CredentialsJSON := CredentialsJSON this |}.

(** The client [this'] differs from [this] in the field [f] of the message
    at most. *)
Definition only_field (f : field) (this this' : FcmClient) : Prop :=
  ApiKey this' = ApiKey this /\ UseV1API this' = UseV1API this /\
  CredentialsJSON this' = CredentialsJSON this /\
  same_but f (Message this) (Message this').

(** [Err] is an [interface{}] in this file. *)
Record FcmResponseStatus := {
  Ok : bool;
  StatusCode : Z;
  MulticastId : Z;
  Success : Z;
  Fail : Z;
  Canonical_ids : Z;
  Results : list (gmap string string);
  MsgId : Z;
  Err : value;
  RetryAfter : string;
}.

Definition new_FcmResponseStatus : FcmResponseStatus :=
  {| Ok := false; StatusCode := 0; MulticastId := 0; Success := 0; Fail := 0;
     Canonical_ids := 0; Results := []; MsgId := 0; Err := VNil;
     RetryAfter := "" |}.

Definition set_StatusCode (x : Z) (st : FcmResponseStatus) : FcmResponseStatus :=
  {| Ok := Ok st; StatusCode := x; MulticastId := MulticastId st;
     Success := Success st; Fail := Fail st;
     Canonical_ids := Canonical_ids st; Results := Results st;
     MsgId := MsgId st; Err := Err st; RetryAfter := RetryAfter st |}.

Definition set_RetryAfter (x : string) (st : FcmResponseStatus) : FcmResponseStatus :=
  {| Ok := Ok st; StatusCode := StatusCode st; MulticastId := MulticastId st;
     Success := Success st; Fail := Fail st;
     Canonical_ids := Canonical_ids st; Results := Results st;
     MsgId := MsgId st; Err := Err st; RetryAfter := x |}.

Definition set_Ok (x : bool) (st : FcmResponseStatus) : FcmResponseStatus :=
  {| Ok := x; StatusCode := StatusCode st; MulticastId := MulticastId st;
     Success := Success st; Fail := Fail st;
     Canonical_ids := Canonical_ids st; Results := Results st;
     MsgId := MsgId st; Err := Err st; RetryAfter := RetryAfter st |}.

Inductive outcome :=
| Return (st : FcmResponseStatus) (err : option error)
| Panic.

(** The collaborators of the legacy [sendOnce]. *)
Record World := {
  json_Marshal_FcmMsg : FcmMsg -> error + string;
  url_ok : string -> bool;
  client_Do : Request.t -> error + Response.t;
  json_Unmarshal_status :
    string -> FcmResponseStatus -> FcmResponseStatus * option error;
}.

(** ** Builders and setters (lines 110-159 and 389-528) *)

Definition NewFcmMsgTo (to : string) (body : value) (this : FcmClient) : FcmClient :=
  with_Message (fun m => set_Data body (set_To to m)) this.

Definition NewFcmTopicMsg (to : string) (body : list (string * string))
    (this : FcmClient) : FcmClient :=
  NewFcmMsgTo to (VStrMap body) this.

Definition SetMsgData (body : value) (this : FcmClient) : FcmClient :=
  with_Message (set_Data body) this.

Definition newDevicesList (list : list string) (this : FcmClient) : FcmClient :=
  with_Message (set_RegistrationIds list) this.

Definition NewFcmRegIdsMsg (list : list string) (body : value)
    (this : FcmClient) : FcmClient :=
  with_Message (set_Data body) (newDevicesList list this).

Definition AppendDevices (list : list string) (this : FcmClient) : FcmClient :=
  with_Message (fun m => set_RegistrationIds (RegistrationIds m ++ list) m) this.

Definition apiKeyHeader (this : FcmClient) : string := "key=" +:+ ApiKey this.

Definition SetPriority (p : string) (this : FcmClient) : FcmClient :=
  if String.eqb p Priority_HIGH
  then with_Message (set_Priority Priority_HIGH) this
  else with_Message (set_Priority Priority_NORMAL) this.

Definition SetCollapseKey (val : string) (this : FcmClient) : FcmClient :=
  with_Message (set_CollapseKey val) this.

(** [this.Message.Notification = *payload]: the dereference of a nil
    [payload] panics. *)
Definition SetNotificationPayload (payload : option NotificationPayload)
    (this : FcmClient) : completion FcmClient :=
  match payload with
  | Some notification => Completes (with_Message (set_Notification notification) this)
  | None => Panics
  end.

Definition SetContentAvailable (isContentAvailable : bool)
    (this : FcmClient) : FcmClient :=
  with_Message (set_ContentAvailable isContentAvailable) this.

Definition SetDelayWhileIdle (isDelayWhileIdle : bool)
    (this : FcmClient) : FcmClient :=
  with_Message (set_DelayWhileIdle isDelayWhileIdle) this.

Definition SetTimeToLive (ttl : Z) (this : FcmClient) : FcmClient :=
  if ttl >? MAX_TTL
  then with_Message (set_TimeToLive MAX_TTL) this
  else with_Message (set_TimeToLive ttl) this.

Definition SetRestrictedPackageName (pkg : string) (this : FcmClient) : FcmClient :=
  with_Message (set_RestrictedPackageName pkg) this.

Definition SetDryRun (drun : bool) (this : FcmClient) : FcmClient :=
  with_Message (set_DryRun drun) this.

Definition SetCondition (condition : string) (this : FcmClient) : FcmClient :=
  with_Message (set_Condition condition) this.

(** ** [sendOnce] (lines 166-208) and [parseStatusBody] (lines 379-387) *)

Definition parseStatusBody (w : World) (this : FcmResponseStatus)
    (body : string) : FcmResponseStatus * option error :=
  json_Unmarshal_status w body this.

(** Lines 169-191: the request, the round trip, the reading of the body. *)
Definition exchange (w : World) (this : FcmClient)
  : outcome + (Response.t * string) :=
  let fcmRespStatus := new_FcmResponseStatus in
  match json_Marshal_FcmMsg w (Message this) with
  | inl err => inl (Return fcmRespStatus (Some err))
  | inr jsonByte =>
      if url_ok w fcm_server_url then
        let request :=
          {| Request.Method := "POST"; Request.URL := fcm_server_url;
             Request.Header :=
               <["Content-Type" := "application/json"]>
                 (<["Authorization" := apiKeyHeader this]> ∅);
             Request.Body := jsonByte |} in
        match client_Do w request with
        | inl err => inl (Return fcmRespStatus (Some err))
        | inr response =>
            match Response.Body response with
            | inl err => inl (Return fcmRespStatus (Some err))
            | inr body => inr (response, body)
            end
        end
      else inl Panic
  end.

(** Lines 193-207. *)
Definition normalise (w : World) (response : Response.t) (body : string)
  : outcome :=
  let fcmRespStatus :=
    set_RetryAfter (Header_Get (Response.Header response) retry_after_header)
      (set_StatusCode (Response.StatusCode response) new_FcmResponseStatus) in
  if negb (Response.StatusCode response =? 200)%Z then
    Return fcmRespStatus None
  else
    let (fcmRespStatus, err) := parseStatusBody w fcmRespStatus body in
    match err with
    | Some e => Return fcmRespStatus (Some e)
    | None => Return (set_Ok true fcmRespStatus) None
    end.

Definition sendOnce (w : World) (this : FcmClient) : outcome :=
  match exchange w this with
  | inl early => early
  | inr (response, body) => normalise w response body
  end.

(** ** [IsTimeout] (lines 501-515) *)
Definition IsTimeout (this : FcmResponseStatus) : bool :=
  if (StatusCode this >=? 500)%Z then true
  else if (StatusCode this =? 200)%Z then anyRetryable (Results this)
  else false.

(** ** [NewFcmClient] (lines 102-108) and sequences of builder calls *)

Definition NewFcmClient (apiKey : string) : FcmClient :=
  {| ApiKey := apiKey; Message := zero_FcmMsg; UseV1API := false;
     CredentialsJSON := "" |}.

Definition apply_call (c : call) (this : FcmClient) : FcmClient :=
  match c with
  | Call_NewFcmTopicMsg to body => NewFcmTopicMsg to body this
  | Call_NewFcmMsgTo to body => NewFcmMsgTo to body this
  | Call_SetMsgData body => SetMsgData body this
  | Call_NewFcmRegIdsMsg list body => NewFcmRegIdsMsg list body this
  | Call_AppendDevices list => AppendDevices list this
  | Call_SetPriority p => SetPriority p this
  | Call_SetCollapseKey val => SetCollapseKey val this
  | Call_SetNotificationPayload payload =>
      match SetNotificationPayload (Some payload) this with
      | Completes that => that
      | Panics => this
      end
  | Call_SetContentAvailable b => SetContentAvailable b this
  | Call_SetDelayWhileIdle b => SetDelayWhileIdle b this
  | Call_SetTimeToLive ttl => SetTimeToLive ttl this
  | Call_SetRestrictedPackageName pkg => SetRestrictedPackageName pkg this
  | Call_SetDryRun drun => SetDryRun drun this
  | Call_SetCondition condition => SetCondition condition this
  end.

Definition chain (calls : list call) (this : FcmClient) : FcmClient :=
  fold_left (fun this c => apply_call c this) calls this.

(** ** The v1 path of this file: [getToken] (lines 210-222),
    [getProjectID] (lines 233-241), [sendViaV1] (lines 243-364) and [Send]
    (lines 224-231) *)

(** What a call with a result pair does: it returns the pair, or it
    panics. *)
Inductive result (A : Type) :=
| Returned (x : A) (err : option error)
| Panicked.
Arguments Returned {A} x err.
Arguments Panicked {A}.

(** The anonymous struct that [sendViaV1] fills and encodes, by the paths
    of its fields. *)
Record V1Payload := {
  Message_Token : string;
  Message_Notification : NotificationPayload;
  Message_Android_Notification : NotificationPayload;
  Message_Data : value;
}.

(** The collaborators of the v1 path.  [jwt_config] is the error of
    [google.JWTConfigFromJSON] on the credentials; [token_source] is what
    [tokenSource.Token()] returns: the token pointer ([None] for nil, else
    the access token it holds) and the error; [json_Unmarshal_project] is the
    decoding of the credentials into the struct with the one field
    [project_id]; [http_NewRequest_error] is the error of [http.NewRequest]
    for a URL.  The round trip and the decoder of the response are those of
    [legacy]. *)
Record V1World := {
  jwt_config : string -> option error;
  token_source : string -> option string * option error;
  json_Marshal_payload : V1Payload -> error + string;
  json_Unmarshal_project : string -> error + string;
  http_NewRequest_error : string -> option error;
  legacy : World;
}.

(** [fmt.Println(token.AccessToken)] comes before the test of the error:
    a nil token pointer is dereferenced. *)
Definition getToken (w : V1World) (f : FcmClient) : result string :=
  match jwt_config w (CredentialsJSON f) with
  | Some err => Returned "" (Some err)
  | None =>
      match token_source w (CredentialsJSON f) with
      | (None, _) => Panicked
      | (Some _, Some err) => Returned "" (Some err)
      | (Some accessToken, None) => Returned accessToken None
      end
  end.

Definition getProjectID (w : V1World) (f : FcmClient) : error + string :=
  json_Unmarshal_project w (CredentialsJSON f).

(** The thirteen assignments of lines 294-306, and again of lines 310-322. *)
Definition copy_notification (n : NotificationPayload) : NotificationPayload :=
  {| Title := Title n; Body := Body n; Icon := Icon n; Sound := Sound n;
     Badge := Badge n; Tag := Tag n; Color := Color n;
     ClickAction := ClickAction n; BodyLocKey := BodyLocKey n;
     BodyLocArgs := BodyLocArgs n; TitleLocKey := TitleLocKey n;
     TitleLocArgs := TitleLocArgs n;
     AndroidChannelID := AndroidChannelID n |}.

Definition v1_url (projectID : string) : string :=
  "https://fcm.googleapis.com/v1/projects/" +:+ projectID +:+ "/messages:send".

Definition sendViaV1 (w : V1World) (f : FcmClient)
  : result (option FcmResponseStatus) :=
  match getToken w f with
  | Panicked => Panicked
  | Returned _ (Some err) => Returned None (Some err)
  | Returned token None =>
      let payload :=
        {| Message_Token := To (Message f);
           Message_Notification := copy_notification (Notification (Message f));
           Message_Android_Notification :=
             copy_notification (Notification (Message f));
           Message_Data := Data (Message f) |} in
      match json_Marshal_payload w payload with
      | inl err => Returned None (Some err)
      | inr jsonByte =>
          match getProjectID w f with
          | inl err => Returned None (Some err)
          | inr projectID =>
              match http_NewRequest_error w (v1_url projectID) with
              | Some err => Returned None (Some err)
              | None =>
                  let request :=
                    {| Request.Method := "POST";
                       Request.URL := v1_url projectID;
                       Request.Header :=
                         <["Content-Type" := "application/json"]>
                           (<["Authorization" := "Bearer " +:+ token]> ∅);
                       Request.Body := jsonByte |} in
                  match client_Do (legacy w) request with
                  | inl err => Returned None (Some err)
                  | inr response =>
                      match Response.Body response with
                      | inl err => Returned None (Some err)
                      | inr body =>
                          let (fcmRespStatus, err) :=
                            json_Unmarshal_status (legacy w) body
                              new_FcmResponseStatus in
                          match err with
                          | Some e => Returned None (Some e)
                          | None => Returned (Some fcmRespStatus) None
                          end
                      end
                  end
              end
          end
      end
  end.

Definition Send (w : V1World) (f : FcmClient)
  : result (option FcmResponseStatus) :=
  if UseV1API f then sendViaV1 w f
  else
    match sendOnce (legacy w) f with
    | Return st err => Returned (Some st) err
    | Panic => Panicked
    end.

(** What the body of a round trip is, whatever its status and headers. *)
Definition body_read (r : error + Response.t) : error + (error + string) :=
  match r with
  | inl err => inl err
  | inr response => inr (Response.Body response)
  end.

End Client.

Arguments Returned {A} x err.
Arguments Panicked {A}.

End FcmGo.


(** * The two legacy paths side by side

    The status of [src/fcm.go] and the status of [src/unnamed/part_000]
    differ in the type of [Err]; [same_status] compares the other fields. *)

Section SideBySide.
Context `{GoLib}.

Definition same_status (a : FcmV1.FcmResponseStatus)
    (b : FcmGo.FcmResponseStatus) : Prop :=
  FcmV1.Ok a = FcmGo.Ok b /\
  FcmV1.StatusCode a = FcmGo.StatusCode b /\
  FcmV1.MulticastId a = FcmGo.MulticastId b /\
  FcmV1.Success a = FcmGo.Success b /\
  FcmV1.Fail a = FcmGo.Fail b /\
  FcmV1.Canonical_ids a = FcmGo.Canonical_ids b /\
  FcmV1.Results a = FcmGo.Results b /\
  FcmV1.MsgId a = FcmGo.MsgId b /\
  FcmV1.RetryAfter a = FcmGo.RetryAfter b.

Definition same_outcome (a : FcmV1.outcome) (b : FcmGo.outcome) : Prop :=
  match a, b with
  | FcmV1.Panic, FcmGo.Panic => True
  | FcmV1.Return sa ea, FcmGo.Return sb eb => same_status sa sb /\ ea = eb
  | _, _ => False
  end.

(** The collaborators of the two files do the same: the same encoder, URL
    check and round trip, and decoders that take statuses equal up to [Err]
    to statuses equal up to [Err], with the same error. *)
Definition same_world (a : FcmV1.World) (b : FcmGo.World) : Prop :=
  (forall m, FcmV1.json_Marshal_FcmMsg a m = FcmGo.json_Marshal_FcmMsg b m) /\
  (forall u, FcmV1.url_ok a u = FcmGo.url_ok b u) /\
  (forall r, FcmV1.client_Do a r = FcmGo.client_Do b r) /\
  (forall body sa sb,
     same_status sa sb ->
     same_status (fst (FcmV1.json_Unmarshal_status a body sa))
                 (fst (FcmGo.json_Unmarshal_status b body sb)) /\
     snd (FcmV1.json_Unmarshal_status a body sa)
     = snd (FcmGo.json_Unmarshal_status b body sb)).

Definition same_client (a : FcmV1.FcmClient) (b : FcmGo.FcmClient) : Prop :=
  FcmV1.ApiKey a = FcmGo.ApiKey b /\ FcmV1.Message a = FcmGo.Message b.

End SideBySide.

(** * A concrete library and concrete exchanges

    The inputs at which the statements below are evaluated. *)

Module Examples.

(** The [float64] values that are integers of magnitude below [10^6].  On
    them [%v] and [encoding/json] both write the decimal digits of the
    integer (the exponent form of [%v] starts at [1e+06]). *)
Record small := {
  int_of : Z;
  int_small : (Z.abs int_of <? 1000000)%Z = true;
}.

(** [encoding/json] on a string, one byte at a time, for the bytes below
    [0x80] (Go 1.22): the quote and the backslash get a backslash, the
    control characters their short or [\u00XX] form, and [<], [>], [&] the
    [\u00XX] form too.  A byte from [0x80] up is copied, which is what the
    encoder does inside well-formed UTF-8 other than U+2028 and U+2029. *)
Definition hex (n : N) : string :=
  match String.get (N.to_nat n) "0123456789abcdef" with
  | Some a => String a EmptyString
  | None => EmptyString
  end.

Definition json_byte (a : ascii) : string :=
  let n := N_of_ascii a in
  let u00 := "\u00" +:+ hex (N.div n 16) +:+ hex (N.modulo n 16) in
  if (n =? 34)%N then String "\" (String a EmptyString)
  else if (n =? 92)%N then "\\"
  else if (n =? 8)%N then "\b"
  else if (n =? 12)%N then "\f"
  else if (n =? 10)%N then "\n"
  else if (n =? 13)%N then "\r"
  else if (n =? 9)%N then "\t"
  else if (n <? 32)%N then u00
  else if ((n =? 60) || (n =? 62) || (n =? 38))%N then u00
  else String a EmptyString.

Fixpoint json_bytes (s : string) : string :=
  match s with
  | EmptyString => EmptyString
  | String a rest => json_byte a +:+ json_bytes rest
  end.

Definition quote : string := String (ascii_of_nat 34) EmptyString.

#[export] Instance lib : GoLib := {|
  float64 := small;
  fmt_float64 f := itoa (int_of f);
  json_float64 f := Some (itoa (int_of f));
  json_string s := quote +:+ json_bytes s +:+ quote;
|}.

Definition F1 : small := {| int_of := 1; int_small := eq_refl |}.
Definition F10 : small := {| int_of := 10; int_small := eq_refl |}.
Definition F20 : small := {| int_of := 20; int_small := eq_refl |}.

(** JSON texts are written with apostrophes for the double quotes. *)
Fixpoint dq (s : string) : string :=
  match s with
  | EmptyString => EmptyString
  | String a rest =>
      String (if Ascii.eqb a "'" then ascii_of_nat 34 else a) (dq rest)
  end.

(** The tree [{"a": {"b": 1, "c": [10, 20]}}], with the inner entries in
    either order of iteration. *)
Definition tree_bc : list (string * value) :=
  [("a", VMap [("b", VFloat F1); ("c", VSlice [VFloat F10; VFloat F20])])].
Definition tree_cb : list (string * value) :=
  [("a", VMap [("c", VSlice [VFloat F10; VFloat F20]); ("b", VFloat F1)])].

Definition credentials : FcmV1.GcmCredentialsV2 :=
  {| FcmV1.Type_ := "service_account"; FcmV1.ProjectID := "p";
     FcmV1.PrivateKeyID := ""; FcmV1.PrivateKey := "";
     FcmV1.ClientEmail := ""; FcmV1.ClientID := ""; FcmV1.AuthURI := "";
     FcmV1.TokenURI := ""; FcmV1.AuthProviderX509CertURL := "";
     FcmV1.ClientX509CertURL := "" |}.

(** A client of the v1 protocol and one of the legacy protocol, each with
    an empty message. *)
Definition v1_client : FcmV1.FcmClient :=
  {| FcmV1.ApiKey := ""; FcmV1.Message := zero_FcmMsg; FcmV1.UseV1Api := true;
     FcmV1.V1ProjectID := "p"; FcmV1.gcmCredentialsV2 := credentials |}.

Definition legacy_client : FcmV1.FcmClient :=
  {| FcmV1.ApiKey := "k"; FcmV1.Message := zero_FcmMsg;
     FcmV1.UseV1Api := false; FcmV1.V1ProjectID := "";
     FcmV1.gcmCredentialsV2 := credentials |}.

Definition go_client : FcmGo.FcmClient :=
  {| FcmGo.ApiKey := "k"; FcmGo.Message := zero_FcmMsg;
     FcmGo.UseV1API := false; FcmGo.CredentialsJSON := "" |}.

(** The response bodies of the examples. *)
Definition body_not_found : string :=
  dq "{'error':{'code':404,'message':'Requested entity was not found.','status':'NOT_FOUND'}}".
Definition body_sent : string := dq "{'name':'projects/p/messages/123'}".
Definition body_failure : string :=
  dq "{'multicast_id':7,'success':0,'failure':1,'canonical_ids':0,'results':[{'error':'InvalidRegistration'}]}".

(** [json.Unmarshal] into a [FcmV1Response], on the bodies above; any other
    body is rejected. *)
Definition unmarshal_V1 (body : string) : error + FcmV1.FcmV1Response :=
  if String.eqb body body_not_found then
    inr {| FcmV1.Name := "";
           FcmV1.Error :=
             {| FcmV1.FcmV1Error.Code := 404;
                FcmV1.FcmV1Error.Message := "Requested entity was not found.";
                FcmV1.FcmV1Error.Status := "NOT_FOUND";
                FcmV1.FcmV1Error.Details := [] |} |}
  else if String.eqb body body_sent then
    inr {| FcmV1.Name := "projects/p/messages/123";
           FcmV1.Error :=
             {| FcmV1.FcmV1Error.Code := 0; FcmV1.FcmV1Error.Message := "";
                FcmV1.FcmV1Error.Status := ""; FcmV1.FcmV1Error.Details := [] |} |}
  else inl "unexpected end of JSON input".

(** [json.Unmarshal] into the [FcmResponseStatus] of either file, on
    [body_failure]; any other body is rejected and leaves the struct as it
    was. *)
Definition unmarshal_status (body : string) (st : FcmV1.FcmResponseStatus)
  : FcmV1.FcmResponseStatus * option error :=
  if String.eqb body body_failure then
    ({| FcmV1.Ok := FcmV1.Ok st; FcmV1.StatusCode := FcmV1.StatusCode st;
        FcmV1.MulticastId := 7; FcmV1.Success := 0; FcmV1.Fail := 1;
        FcmV1.Canonical_ids := 0;
        FcmV1.Results := [ {[ "error" := "InvalidRegistration" ]} ];
        FcmV1.MsgId := FcmV1.MsgId st; FcmV1.Err := FcmV1.Err st;
        FcmV1.RetryAfter := FcmV1.RetryAfter st |}, None)
  else (st, Some "unexpected end of JSON input").

Definition go_unmarshal_status (body : string) (st : FcmGo.FcmResponseStatus)
  : FcmGo.FcmResponseStatus * option error :=
  if String.eqb body body_failure then
    ({| FcmGo.Ok := FcmGo.Ok st; FcmGo.StatusCode := FcmGo.StatusCode st;
        FcmGo.MulticastId := 7; FcmGo.Success := 0; FcmGo.Fail := 1;
        FcmGo.Canonical_ids := 0;
        FcmGo.Results := [ {[ "error" := "InvalidRegistration" ]} ];
        FcmGo.MsgId := FcmGo.MsgId st; FcmGo.Err := FcmGo.Err st;
        FcmGo.RetryAfter := FcmGo.RetryAfter st |}, None)
  else (st, Some "unexpected end of JSON input").

(** An exchange in which every step before the response succeeds and the
    server answers [response] to any request; the text of the request plays
    no part in it, so the two encoders give a fixed text. *)
Definition world (response : Response.t) : FcmV1.World :=
  {| FcmV1.json_Marshal_FcmMsg := fun _ => inr "{}";
     FcmV1.json_Marshal_V1 := fun _ => inr "{}";
     FcmV1.token_of := fun _ => inr "token";
     FcmV1.url_ok := fun _ => true;
     FcmV1.client_Do := fun _ => inr response;
     FcmV1.json_Unmarshal_V1 := unmarshal_V1;
     FcmV1.json_Unmarshal_status := unmarshal_status |}.

Definition go_world (response : Response.t) : FcmGo.World :=
  {| FcmGo.json_Marshal_FcmMsg := fun _ => inr "{}";
     FcmGo.url_ok := fun _ => true;
     FcmGo.client_Do := fun _ => inr response;
     FcmGo.json_Unmarshal_status := go_unmarshal_status |}.

Definition answer (status : Z) (body : string) : Response.t :=
  {| Response.StatusCode := status; Response.Header := ∅;
     Response.Body := inr body |}.

(** Messages for the payload translator. *)
Definition hello : NotificationPayload :=
  {| Title := "Hello"; Body := "World"; Icon := "ic"; Sound := "default";
     Badge := "3"; Tag := "t"; Color := "#fff"; ClickAction := "OPEN";
     BodyLocKey := "bk"; BodyLocArgs := "ba"; TitleLocKey := "tk";
     TitleLocArgs := "ta"; AndroidChannelID := "ch" |}.

Definition notified (data : value) : FcmV1.FcmClient :=
  FcmV1.chain [Call_SetMsgData data; Call_SetNotificationPayload hello]
    v1_client.

Definition topic_client (body : list (string * string)) : FcmV1.FcmClient :=
  FcmV1.chain [Call_NewFcmTopicMsg "news" body; Call_SetNotificationPayload hello]
    v1_client.

(** The tree [{"": {"b": 1}}]. *)
Definition tree_empty_key : list (string * value) :=
  [("", VMap [("b", VFloat F1)])].

(** A v1 exchange of [src/fcm.go] in which every step succeeds and the
    server answers [response]. *)
Definition go_v1_world (response : Response.t) : FcmGo.V1World :=
  {| FcmGo.jwt_config := fun _ => None;
     FcmGo.token_source := fun _ => (Some "token", None);
     FcmGo.json_Marshal_payload := fun _ => inr "{}";
     FcmGo.json_Unmarshal_project := fun _ => inr "p";
     FcmGo.http_NewRequest_error := fun _ => None;
     FcmGo.legacy := go_world response |}.

(** The same, with a token source that fails as the one of
    [golang.org/x/oauth2] does: a nil token and an error. *)
Definition go_v1_world_no_token (response : Response.t) : FcmGo.V1World :=
  {| FcmGo.jwt_config := fun _ => None;
     FcmGo.token_source := fun _ => (None, Some "oauth2: cannot fetch token");
     FcmGo.json_Marshal_payload := fun _ => inr "{}";
     FcmGo.json_Unmarshal_project := fun _ => inr "p";
     FcmGo.http_NewRequest_error := fun _ => None;
     FcmGo.legacy := go_world response |}.

Definition go_v1_client : FcmGo.FcmClient :=
  {| FcmGo.ApiKey := ""; FcmGo.Message := zero_FcmMsg;
     FcmGo.UseV1API := true; FcmGo.CredentialsJSON := "{}" |}.

Definition answer_with (status : Z) (retryAfter : string) (body : string)
  : Response.t :=
  {| Response.StatusCode := status;
     Response.Header := {[ "Retry-After" := retryAfter ]};
     Response.Body := inr body |}.

(** An exchange in which the encoder refuses the v1 payload. *)
Definition world_no_payload : FcmV1.World :=
  {| FcmV1.json_Marshal_FcmMsg := fun _ => inr "{}";
     FcmV1.json_Marshal_V1 := fun _ => inl "json: unsupported value";
     FcmV1.token_of := fun _ => inr "token";
     FcmV1.url_ok := fun _ => true;
     FcmV1.client_Do := fun _ => inl "unreachable";
     FcmV1.json_Unmarshal_V1 := unmarshal_V1;
     FcmV1.json_Unmarshal_status := unmarshal_status |}.

End Examples.

(** * Properties *)

(** ** The retry classifier *)

Lemma index_bool_retreyableErrors v :
  index_bool retreyableErrors v = true <->
  v = "Unavailable" \/ v = "InternalServerError".
Proof.
  unfold index_bool, retreyableErrors.
  destruct (decide (v = "Unavailable")) as [->|Hu]; [by intuition|].
  destruct (decide (v = "InternalServerError")) as [->|Hi]; [by intuition|].
  rewrite lookup_insert_ne, lookup_singleton_ne by done.
  simpl. intuition discriminate.
Qed.

Lemma anyRetryable_true results :
  anyRetryable results = true <-> transient_result results.
Proof.
  unfold anyRetryable, transient_result. rewrite existsb_exists. split.
  - intros (val & Hin & Hex). apply existsb_exists in Hex as ([k v] & Hkv & Hb).
    apply andb_true_iff in Hb as [Hk Hv]. simpl in Hk, Hv.
    apply String.eqb_eq in Hk. subst k.
    apply Bool.eqb_prop in Hv. apply index_bool_retreyableErrors in Hv.
    exists val, v. split; [by apply list_elem_of_In|].
    split; [|done]. apply elem_of_map_to_list. by apply list_elem_of_In.
  - intros (val & v & Hin & Hlook & Hv). exists val.
    split; [by apply list_elem_of_In|].
    apply existsb_exists. exists ("error", v). split.
    + apply list_elem_of_In. by apply elem_of_map_to_list.
    + simpl. apply index_bool_retreyableErrors in Hv. by rewrite Hv.
Qed.

Lemma transient_result_singleton k v :
  transient_result [ {[ k := v ]} ] <->
  k = "error" /\ (v = "Unavailable" \/ v = "InternalServerError").
Proof.
  unfold transient_result. split.
  - intros (val & v' & Hin & Hlook & Hv).
    apply list_elem_of_singleton in Hin. subst val.
    apply lookup_singleton_Some in Hlook as [-> ->]. done.
  - intros [-> Hv]. exists {[ "error" := v ]}, v.
    split; [by apply list_elem_of_singleton|].
    split; [by apply lookup_singleton_eq|done].
Qed.

Section Retry.
Context `{GoLib}.

(** C4.  In both files [IsTimeout] answers true exactly when the status
    code is at least 500, or the status code is 200 and some entry of the
    result list has the key "error" with the value "Unavailable" or
    "InternalServerError".  So it answers true for status 503, true for
    status 200 with results [{"error":"Unavailable"}], and false for status
    200 with results [{"error":"InvalidRegistration"}]. *)
Theorem IsTimeout_classifies :
  (forall st : FcmV1.FcmResponseStatus,
     (FcmV1.IsTimeout st = true <->
      500 <= FcmV1.StatusCode st \/
      (FcmV1.StatusCode st = 200 /\ transient_result (FcmV1.Results st))) /\
     (FcmV1.StatusCode st = 503 -> FcmV1.IsTimeout st = true) /\
     (FcmV1.StatusCode st = 200 ->
      FcmV1.Results st = [ {[ "error" := "Unavailable" ]} ] ->
      FcmV1.IsTimeout st = true) /\
     (FcmV1.StatusCode st = 200 ->
      FcmV1.Results st = [ {[ "error" := "InvalidRegistration" ]} ] ->
      FcmV1.IsTimeout st = false)) /\
  (forall st : FcmGo.FcmResponseStatus,
     (FcmGo.IsTimeout st = true <->
      500 <= FcmGo.StatusCode st \/
      (FcmGo.StatusCode st = 200 /\ transient_result (FcmGo.Results st))) /\
     (FcmGo.StatusCode st = 503 -> FcmGo.IsTimeout st = true) /\
     (FcmGo.StatusCode st = 200 ->
      FcmGo.Results st = [ {[ "error" := "Unavailable" ]} ] ->
      FcmGo.IsTimeout st = true) /\
     (FcmGo.StatusCode st = 200 ->
      FcmGo.Results st = [ {[ "error" := "InvalidRegistration" ]} ] ->
      FcmGo.IsTimeout st = false)).
Proof.
  assert (Hiff : forall (code : Z) results,
            (if (code >=? 500)%Z then true
             else if (code =? 200)%Z then anyRetryable results else false) = true
            <-> 500 <= code \/ (code = 200 /\ transient_result results)).
  { intros code results.
    destruct (Z.geb_spec code 500) as [Hge|Hlt]; [intuition lia|].
    destruct (Z.eqb_spec code 200) as [->|Hne].
    - rewrite anyRetryable_true. intuition lia.
    - intuition (try lia; try discriminate). }
  assert (Hex : forall (code : Z) results,
            (code = 503 ->
             (if (code >=? 500)%Z then true
              else if (code =? 200)%Z then anyRetryable results else false) = true) /\
            (code = 200 -> results = [ {[ "error" := "Unavailable" ]} ] ->
             (if (code >=? 500)%Z then true
              else if (code =? 200)%Z then anyRetryable results else false) = true) /\
            (code = 200 -> results = [ {[ "error" := "InvalidRegistration" ]} ] ->
             (if (code >=? 500)%Z then true
              else if (code =? 200)%Z then anyRetryable results else false) = false)).
  { intros code results. repeat split.
    - intros ->. done.
    - intros -> ->. apply Hiff. right. split; [done|].
      apply transient_result_singleton. auto.
    - intros -> ->. apply not_true_is_false. intros Ht.
      apply Hiff in Ht as [Ht|[_ Ht]]; [lia|].
      apply transient_result_singleton in Ht as [_ [Ht|Ht]]; discriminate. }
  split; intros st.
  - split; [apply Hiff|apply Hex].
  - split; [apply Hiff|apply Hex].
Qed.

End Retry.

Lemma IsTimeout_classifies_witness :
  FcmV1.IsTimeout
    (FcmV1.set_StatusCode 503 FcmV1.new_FcmResponseStatus) = true.
Proof.
  apply (proj1 (proj2 (proj1 (@IsTimeout_classifies Examples.lib) _))).
  reflexivity.
Defined.

(** ** The setters *)

Ltac frame :=
  repeat match goal with
         | |- _ /\ _ => split
         | |- _ -> _ => intro
         end;
  try reflexivity; try congruence.

Section Setters.
Context `{GoLib}.

(** C5.  In both files [SetTimeToLive] stores [MAX_TTL] = 2419200 when
    [ttl > MAX_TTL] and stores [ttl] unchanged when [ttl <= MAX_TTL],
    negative values included.  Sending does not clamp: the v1 payload
    carries the stored value, whatever it is, as ["<seconds>s"], and the
    legacy request body is the encoding of the stored message itself. *)
Theorem SetTimeToLive_clamps_at_set_time :
  (forall (this : FcmV1.FcmClient) (ttl : Z),
     (MAX_TTL < ttl ->
      TimeToLive (FcmV1.Message (FcmV1.SetTimeToLive ttl this)) = 2419200) /\
     (ttl <= MAX_TTL ->
      TimeToLive (FcmV1.Message (FcmV1.SetTimeToLive ttl this)) = ttl)) /\
  (forall (this : FcmGo.FcmClient) (ttl : Z),
     (MAX_TTL < ttl ->
      TimeToLive (FcmGo.Message (FcmGo.SetTimeToLive ttl this)) = 2419200) /\
     (ttl <= MAX_TTL ->
      TimeToLive (FcmGo.Message (FcmGo.SetTimeToLive ttl this)) = ttl)) /\
  (forall this : FcmV1.FcmClient,
     FcmV1.V1Android.ttl
       (FcmV1.V1Message.android (FcmV1.message (FcmV1.convertToV1Message this)))
     = itoa (TimeToLive (FcmV1.Message this)) +:+ "s") /\
  (forall (w : FcmV1.World) (this : FcmV1.FcmClient) (request : Request.t),
     FcmV1.UseV1Api this = false ->
     FcmV1.buildRequest w this = inr request ->
     FcmV1.json_Marshal_FcmMsg w (FcmV1.Message this)
     = inr (Request.Body request)) /\
  (forall (w : FcmGo.World) (this : FcmGo.FcmClient) response body,
     FcmGo.exchange w this = inr (response, body) ->
     exists request,
       FcmGo.json_Marshal_FcmMsg w (FcmGo.Message this)
       = inr (Request.Body request) /\
       FcmGo.client_Do w request = inr response).
Proof.
  split; [|split; [|split; [|split]]].
  - intros this ttl. unfold FcmV1.SetTimeToLive, MAX_TTL.
    destruct (Z.gtb_spec ttl 2419200); simpl; split; intros; lia.
  - intros this ttl. unfold FcmGo.SetTimeToLive, MAX_TTL.
    destruct (Z.gtb_spec ttl 2419200); simpl; split; intros; lia.
  - intros this. reflexivity.
  - intros w this request Hlegacy. unfold FcmV1.buildRequest.
    rewrite Hlegacy.
    destruct (FcmV1.json_Marshal_FcmMsg w (FcmV1.Message this)); [done|].
    destruct (FcmV1.url_ok w fcm_server_url); [|done].
    intros [= <-]. reflexivity.
  - intros w this response body. unfold FcmGo.exchange.
    destruct (FcmGo.json_Marshal_FcmMsg w (FcmGo.Message this)) as [|jsonByte];
      [done|].
    destruct (FcmGo.url_ok w fcm_server_url); [|done].
    match goal with
    | |- context [FcmGo.client_Do w ?r] => set (request := r)
    end.
    destruct (FcmGo.client_Do w request) as [|response'] eqn:Hdo; [done|].
    destruct (Response.Body response'); [done|].
    intros [= <- <-]. exists request. split; [reflexivity|exact Hdo].
Qed.

(** C7, as amended.  In both files each [Set...] method changes one field of
    the message and nothing else of the client, and returns the client.  The
    field receives the argument as it is, with three exceptions:
    [SetTimeToLive] stores the smaller of [ttl] and [MAX_TTL];
    [SetPriority] stores "high" when its argument is "high" and "normal" for
    every other argument; and [SetNotificationPayload], whose argument is a
    pointer, stores the payload pointed to, and panics without returning a
    client when the pointer is nil. *)
Theorem setters_change_one_field :
  (forall this : FcmV1.FcmClient,
     (forall body,
        FcmV1.only_field fData this (FcmV1.SetMsgData body this) /\
        Data (FcmV1.Message (FcmV1.SetMsgData body this)) = body) /\
     (forall p,
        FcmV1.only_field fPriority this (FcmV1.SetPriority p this) /\
        (p = "high" ->
         Priority (FcmV1.Message (FcmV1.SetPriority p this)) = "high") /\
        (p <> "high" ->
         Priority (FcmV1.Message (FcmV1.SetPriority p this)) = "normal")) /\
     (forall val,
        FcmV1.only_field fCollapseKey this (FcmV1.SetCollapseKey val this) /\
        CollapseKey (FcmV1.Message (FcmV1.SetCollapseKey val this)) = val) /\
     (forall payload,
        exists that,
          FcmV1.SetNotificationPayload (Some payload) this = Completes that /\
          FcmV1.only_field fNotification this that /\
          Notification (FcmV1.Message that) = payload) /\
     FcmV1.SetNotificationPayload None this = Panics /\
     (forall b,
        FcmV1.only_field fContentAvailable this
          (FcmV1.SetContentAvailable b this) /\
        ContentAvailable (FcmV1.Message (FcmV1.SetContentAvailable b this)) = b) /\
     (forall b,
        FcmV1.only_field fDelayWhileIdle this (FcmV1.SetDelayWhileIdle b this) /\
        DelayWhileIdle (FcmV1.Message (FcmV1.SetDelayWhileIdle b this)) = b) /\
     (forall ttl,
        FcmV1.only_field fTimeToLive this (FcmV1.SetTimeToLive ttl this) /\
        TimeToLive (FcmV1.Message (FcmV1.SetTimeToLive ttl this))
        = Z.min ttl MAX_TTL) /\
     (forall pkg,
        FcmV1.only_field fRestrictedPackageName this
          (FcmV1.SetRestrictedPackageName pkg this) /\
        RestrictedPackageName
          (FcmV1.Message (FcmV1.SetRestrictedPackageName pkg this)) = pkg) /\
     (forall drun,
        FcmV1.only_field fDryRun this (FcmV1.SetDryRun drun this) /\
        DryRun (FcmV1.Message (FcmV1.SetDryRun drun this)) = drun) /\
     (forall condition,
        FcmV1.only_field fCondition this (FcmV1.SetCondition condition this) /\
        Condition (FcmV1.Message (FcmV1.SetCondition condition this))
        = condition)) /\
  (forall this : FcmGo.FcmClient,
     (forall body,
        FcmGo.only_field fData this (FcmGo.SetMsgData body this) /\
        Data (FcmGo.Message (FcmGo.SetMsgData body this)) = body) /\
     (forall p,
        FcmGo.only_field fPriority this (FcmGo.SetPriority p this) /\
        (p = "high" ->
         Priority (FcmGo.Message (FcmGo.SetPriority p this)) = "high") /\
        (p <> "high" ->
         Priority (FcmGo.Message (FcmGo.SetPriority p this)) = "normal")) /\
     (forall val,
        FcmGo.only_field fCollapseKey this (FcmGo.SetCollapseKey val this) /\
        CollapseKey (FcmGo.Message (FcmGo.SetCollapseKey val this)) = val) /\
     (forall payload,
        exists that,
          FcmGo.SetNotificationPayload (Some payload) this = Completes that /\
          FcmGo.only_field fNotification this that /\
          Notification (FcmGo.Message that) = payload) /\
     FcmGo.SetNotificationPayload None this = Panics /\
     (forall b,
        FcmGo.only_field fContentAvailable this
          (FcmGo.SetContentAvailable b this) /\
        ContentAvailable (FcmGo.Message (FcmGo.SetContentAvailable b this)) = b) /\
     (forall b,
        FcmGo.only_field fDelayWhileIdle this (FcmGo.SetDelayWhileIdle b this) /\
        DelayWhileIdle (FcmGo.Message (FcmGo.SetDelayWhileIdle b this)) = b) /\
     (forall ttl,
        FcmGo.only_field fTimeToLive this (FcmGo.SetTimeToLive ttl this) /\
        TimeToLive (FcmGo.Message (FcmGo.SetTimeToLive ttl this))
        = Z.min ttl MAX_TTL) /\
     (forall pkg,
        FcmGo.only_field fRestrictedPackageName this
          (FcmGo.SetRestrictedPackageName pkg this) /\
        RestrictedPackageName
          (FcmGo.Message (FcmGo.SetRestrictedPackageName pkg this)) = pkg) /\
     (forall drun,
        FcmGo.only_field fDryRun this (FcmGo.SetDryRun drun this) /\
        DryRun (FcmGo.Message (FcmGo.SetDryRun drun this)) = drun) /\
     (forall condition,
        FcmGo.only_field fCondition this (FcmGo.SetCondition condition this) /\
        Condition (FcmGo.Message (FcmGo.SetCondition condition this))
        = condition)).
Proof.
  split; intros this.
  - repeat apply conj; try reflexivity; intros x;
      try (eexists; split; [reflexivity|]);
      unfold FcmV1.only_field, same_but, FcmV1.SetPriority, FcmV1.SetTimeToLive,
        MAX_TTL, Priority_HIGH.
    all: try (destruct (String.eqb_spec x "high")).
    all: try (destruct (Z.gtb_spec x 2419200)).
    all: simpl; frame; try lia.
  - repeat apply conj; try reflexivity; intros x;
      try (eexists; split; [reflexivity|]);
      unfold FcmGo.only_field, same_but, FcmGo.SetPriority, FcmGo.SetTimeToLive,
        MAX_TTL, Priority_HIGH.
    all: try (destruct (String.eqb_spec x "high")).
    all: try (destruct (Z.gtb_spec x 2419200)).
    all: simpl; frame; try lia.
Qed.

End Setters.

Lemma SetTimeToLive_clamps_at_set_time_witness :
  TimeToLive (FcmV1.Message (FcmV1.SetTimeToLive 3000000 Examples.v1_client))
  = 2419200.
Proof.
  apply (proj1 (proj1 (@SetTimeToLive_clamps_at_set_time Examples.lib)
                  Examples.v1_client 3000000)).
  unfold MAX_TTL. lia.
Defined.

(** C7, as stated, fails: [SetPriority] does not store the string "urgent";
    it stores "normal".  And [SetNotificationPayload] called with nil
    returns no client, in either file. *)
Lemma SetPriority_counterexample :
  Priority (FcmV1.Message (FcmV1.SetPriority "urgent" Examples.v1_client))
  = "normal" /\
  Priority (FcmV1.Message (FcmV1.SetPriority "urgent" Examples.v1_client))
  <> "urgent" /\
  Priority (FcmGo.Message (FcmGo.SetPriority "urgent" Examples.go_client))
  <> "urgent" /\
  FcmV1.SetNotificationPayload None Examples.v1_client = Panics /\
  FcmGo.SetNotificationPayload None Examples.go_client = Panics.
Proof. repeat split; try discriminate; reflexivity. Qed.

Lemma setters_change_one_field_witness :
  Priority (FcmV1.Message (FcmV1.SetPriority "urgent" Examples.v1_client))
  = "normal".
Proof.
  apply (proj2 (proj2 (proj1 (proj2 (proj1 (@setters_change_one_field Examples.lib)
                                       Examples.v1_client)) "urgent"))).
  discriminate.
Defined.

(** ** Response normalisation *)

Section Normalisation.
Context `{GoLib}.

Lemma sendOnce_normalise (w : FcmV1.World) this response body :
  FcmV1.exchange w this = inr (response, body) ->
  FcmV1.sendOnce w this = FcmV1.normalise w this response body.
Proof. intros Hex. unfold FcmV1.sendOnce. by rewrite Hex. Qed.

Lemma exchange_early (w : FcmV1.World) this early :
  FcmV1.exchange w this = inl early ->
  early = FcmV1.Panic \/
  exists err, early = FcmV1.Return FcmV1.new_FcmResponseStatus (Some err).
Proof.
  unfold FcmV1.exchange, FcmV1.buildRequest, FcmV1.getToken.
  destruct (FcmV1.UseV1Api this).
  - destruct (FcmV1.json_Marshal_V1 w _); [intros [= <-]; eauto|].
    destruct (FcmV1.token_of w _); [intros [= <-]; eauto|].
    destruct (FcmV1.url_ok w _); [|intros [= <-]; eauto].
    destruct (FcmV1.client_Do w _) as [|response]; [intros [= <-]; eauto|].
    destruct (Response.Body response); [intros [= <-]; eauto|done].
  - destruct (FcmV1.json_Marshal_FcmMsg w _); [intros [= <-]; eauto|].
    destruct (FcmV1.url_ok w _); [|intros [= <-]; eauto].
    destruct (FcmV1.client_Do w _) as [|response]; [intros [= <-]; eauto|].
    destruct (Response.Body response); [intros [= <-]; eauto|done].
Qed.

Lemma go_sendOnce_normalise (w : FcmGo.World) this response body :
  FcmGo.exchange w this = inr (response, body) ->
  FcmGo.sendOnce w this = FcmGo.normalise w response body.
Proof. intros Hex. unfold FcmGo.sendOnce. by rewrite Hex. Qed.

Lemma go_exchange_early (w : FcmGo.World) this early :
  FcmGo.exchange w this = inl early ->
  early = FcmGo.Panic \/
  exists err, early = FcmGo.Return FcmGo.new_FcmResponseStatus (Some err).
Proof.
  unfold FcmGo.exchange.
  destruct (FcmGo.json_Marshal_FcmMsg w _); [intros [= <-]; eauto|].
  destruct (FcmGo.url_ok w _); [|intros [= <-]; eauto].
  destruct (FcmGo.client_Do w _) as [|response]; [intros [= <-]; eauto|].
  destruct (Response.Body response); [intros [= <-]; eauto|done].
Qed.

(** C8.  When the legacy protocol is in use and the response that was read
    has a status other than 200, [sendOnce] of either file returns, with a
    nil error, the status in which [StatusCode] is the status of the
    response, [RetryAfter] is its Retry-After header, and every other field
    has its zero value, [Ok] = false included.  The body and the JSON
    decoder play no part in the result, whatever the body is. *)
Theorem legacy_non_200_is_not_parsed :
  (forall (w : FcmV1.World) (this : FcmV1.FcmClient) response body,
     FcmV1.UseV1Api this = false ->
     FcmV1.exchange w this = inr (response, body) ->
     Response.StatusCode response <> 200 ->
     FcmV1.sendOnce w this =
     FcmV1.Return
       {| FcmV1.Ok := false;
          FcmV1.StatusCode := Response.StatusCode response;
          FcmV1.MulticastId := 0; FcmV1.Success := 0; FcmV1.Fail := 0;
          FcmV1.Canonical_ids := 0; FcmV1.Results := []; FcmV1.MsgId := 0;
          FcmV1.Err := "";
          FcmV1.RetryAfter := Header_Get (Response.Header response) "Retry-After" |}
       None) /\
  (forall (w : FcmGo.World) (this : FcmGo.FcmClient) response body,
     FcmGo.exchange w this = inr (response, body) ->
     Response.StatusCode response <> 200 ->
     FcmGo.sendOnce w this =
     FcmGo.Return
       {| FcmGo.Ok := false;
          FcmGo.StatusCode := Response.StatusCode response;
          FcmGo.MulticastId := 0; FcmGo.Success := 0; FcmGo.Fail := 0;
          FcmGo.Canonical_ids := 0; FcmGo.Results := []; FcmGo.MsgId := 0;
          FcmGo.Err := VNil;
          FcmGo.RetryAfter := Header_Get (Response.Header response) "Retry-After" |}
       None).
Proof.
  split.
  - intros w this response body Hlegacy Hex Hstatus.
    rewrite (sendOnce_normalise _ _ _ _ Hex). unfold FcmV1.normalise.
    destruct (Z.eqb_spec (Response.StatusCode response) 200); [done|].
    simpl. rewrite Hlegacy. reflexivity.
  - intros w this response body Hex Hstatus.
    rewrite (go_sendOnce_normalise _ _ _ _ Hex). unfold FcmGo.normalise.
    destruct (Z.eqb_spec (Response.StatusCode response) 200); [done|].
    reflexivity.
Qed.

(** C3.  When the v1 protocol is in use, the response was read, its body
    decodes, and the decoded [error.message] is empty, [sendOnce] returns
    with a nil error the status that has [Success] = 1, [Results] equal to
    the one-element list [{"message_id": name}], [MsgId] = 1, [Ok] = true
    and [StatusCode] = 200, whatever the status of the response was. *)
Theorem v1_success_is_normalised
    (w : FcmV1.World) (this : FcmV1.FcmClient) response body v1Resp :
  FcmV1.UseV1Api this = true ->
  FcmV1.exchange w this = inr (response, body) ->
  FcmV1.json_Unmarshal_V1 w body = inr v1Resp ->
  FcmV1.FcmV1Error.Message (FcmV1.Error v1Resp) = "" ->
  FcmV1.sendOnce w this =
  FcmV1.Return
    {| FcmV1.Ok := true;
       FcmV1.StatusCode := 200;
       FcmV1.MulticastId := 0; FcmV1.Success := 1; FcmV1.Fail := 0;
       FcmV1.Canonical_ids := 0;
       FcmV1.Results := [ {[ "message_id" := FcmV1.Name v1Resp ]} ];
       FcmV1.MsgId := 1;
       FcmV1.Err := "";
       FcmV1.RetryAfter := Header_Get (Response.Header response) "Retry-After" |}
    None.
Proof.
  intros Hv1 Hex Hdec Hmsg.
  rewrite (sendOnce_normalise _ _ _ _ Hex).
  unfold FcmV1.normalise, FcmV1.parseStatusBodyV1.
  rewrite Hv1, Hdec, Hmsg.
  destruct (Z.eqb_spec (Response.StatusCode response) 200); reflexivity.
Qed.

(** C6, as amended.  For the legacy protocol, in both files: when the
    response has status 200 and its body decodes without error, [sendOnce]
    returns the decoded status with [Ok] set to true, whatever failure count
    and result entries the body reports; and a status returned with a nil
    error has [Ok] = true only if a response with status 200 was read and its
    body decoded without error.  For the v1 protocol and a response whose
    status is not 200, the returned status has [Ok] = true only if the body
    decoded and its [error.message] is empty. *)
Theorem ok_means_read_and_decoded :
  (forall (w : FcmV1.World) (this : FcmV1.FcmClient),
     FcmV1.UseV1Api this = false ->
     (forall response body st,
        FcmV1.exchange w this = inr (response, body) ->
        Response.StatusCode response = 200 ->
        FcmV1.json_Unmarshal_status w body
          (FcmV1.set_RetryAfter
             (Header_Get (Response.Header response) "Retry-After")
             (FcmV1.set_StatusCode 200 FcmV1.new_FcmResponseStatus))
        = (st, None) ->
        FcmV1.sendOnce w this = FcmV1.Return (FcmV1.set_Ok true st) None) /\
     (forall st,
        FcmV1.sendOnce w this = FcmV1.Return st None ->
        FcmV1.Ok st = true ->
        exists response body st',
          FcmV1.exchange w this = inr (response, body) /\
          Response.StatusCode response = 200 /\
          FcmV1.json_Unmarshal_status w body
            (FcmV1.set_RetryAfter
               (Header_Get (Response.Header response) "Retry-After")
               (FcmV1.set_StatusCode 200 FcmV1.new_FcmResponseStatus))
          = (st', None))) /\
  (forall (w : FcmV1.World) (this : FcmV1.FcmClient) response body st err,
     FcmV1.UseV1Api this = true ->
     FcmV1.exchange w this = inr (response, body) ->
     Response.StatusCode response <> 200 ->
     FcmV1.sendOnce w this = FcmV1.Return st err ->
     FcmV1.Ok st = true ->
     exists v1Resp,
       FcmV1.json_Unmarshal_V1 w body = inr v1Resp /\
       FcmV1.FcmV1Error.Message (FcmV1.Error v1Resp) = "") /\
  (forall (w : FcmGo.World) (this : FcmGo.FcmClient),
     (forall response body st,
        FcmGo.exchange w this = inr (response, body) ->
        Response.StatusCode response = 200 ->
        FcmGo.json_Unmarshal_status w body
          (FcmGo.set_RetryAfter
             (Header_Get (Response.Header response) "Retry-After")
             (FcmGo.set_StatusCode 200 FcmGo.new_FcmResponseStatus))
        = (st, None) ->
        FcmGo.sendOnce w this = FcmGo.Return (FcmGo.set_Ok true st) None) /\
     (forall st,
        FcmGo.sendOnce w this = FcmGo.Return st None ->
        FcmGo.Ok st = true ->
        exists response body st',
          FcmGo.exchange w this = inr (response, body) /\
          Response.StatusCode response = 200 /\
          FcmGo.json_Unmarshal_status w body
            (FcmGo.set_RetryAfter
               (Header_Get (Response.Header response) "Retry-After")
               (FcmGo.set_StatusCode 200 FcmGo.new_FcmResponseStatus))
          = (st', None))).
Proof.
  split; [|split].
  - intros w this Hlegacy. split.
    + intros response body st Hex Hstatus Hdec.
      rewrite (sendOnce_normalise _ _ _ _ Hex).
      unfold FcmV1.normalise, FcmV1.parseStatusBody.
      rewrite Hlegacy, Hstatus. simpl. unfold retry_after_header.
      by rewrite Hdec.
    + intros st Hsend Hok. unfold FcmV1.sendOnce in Hsend.
      destruct (FcmV1.exchange w this) as [early|[response body]] eqn:Hex.
      { apply exchange_early in Hex as [->|[err ->]]; discriminate. }
      unfold FcmV1.normalise, FcmV1.parseStatusBody in Hsend.
      rewrite Hlegacy in Hsend.
      destruct (Z.eqb_spec (Response.StatusCode response) 200) as [Hs|Hs];
        simpl in Hsend.
      * rewrite Hs in *. unfold retry_after_header in Hsend.
        destruct (FcmV1.json_Unmarshal_status w body _) as [st' [e|]] eqn:Hdec;
          [discriminate|].
        exists response, body, st'. by rewrite Hs.
      * injection Hsend as <-. discriminate.
  - intros w this response body st err Hv1 Hex Hstatus Hsend Hok.
    rewrite (sendOnce_normalise _ _ _ _ Hex) in Hsend.
    unfold FcmV1.normalise, FcmV1.parseStatusBodyV1 in Hsend.
    rewrite Hv1 in Hsend.
    destruct (Z.eqb_spec (Response.StatusCode response) 200); [done|].
    simpl in Hsend.
    destruct (FcmV1.json_Unmarshal_V1 w body) as [e|v1Resp].
    { injection Hsend as <- _. discriminate. }
    exists v1Resp. split; [done|].
    destruct (String.eqb_spec (FcmV1.FcmV1Error.Message (FcmV1.Error v1Resp)) "");
      [done|].
    simpl in Hsend. injection Hsend as <- _. discriminate.
  - intros w this. split.
    + intros response body st Hex Hstatus Hdec.
      rewrite (go_sendOnce_normalise _ _ _ _ Hex).
      unfold FcmGo.normalise, FcmGo.parseStatusBody.
      rewrite Hstatus. simpl. unfold retry_after_header.
      by rewrite Hdec.
    + intros st Hsend Hok. unfold FcmGo.sendOnce in Hsend.
      destruct (FcmGo.exchange w this) as [early|[response body]] eqn:Hex.
      { apply go_exchange_early in Hex as [->|[err ->]]; discriminate. }
      unfold FcmGo.normalise, FcmGo.parseStatusBody in Hsend.
      destruct (Z.eqb_spec (Response.StatusCode response) 200) as [Hs|Hs];
        simpl in Hsend.
      * rewrite Hs in *. unfold retry_after_header in Hsend.
        destruct (FcmGo.json_Unmarshal_status w body _) as [st' [e|]] eqn:Hdec;
          [discriminate|].
        exists response, body, st'. by rewrite Hs.
      * injection Hsend as <-. discriminate.
Qed.

End Normalisation.

Lemma legacy_non_200_is_not_parsed_witness :
  FcmV1.sendOnce (Examples.world (Examples.answer 503 "")) Examples.legacy_client
  = FcmV1.Return
      {| FcmV1.Ok := false; FcmV1.StatusCode := 503;
         FcmV1.MulticastId := 0; FcmV1.Success := 0; FcmV1.Fail := 0;
         FcmV1.Canonical_ids := 0; FcmV1.Results := []; FcmV1.MsgId := 0;
         FcmV1.Err := ""; FcmV1.RetryAfter := "" |}
      None.
Proof.
  apply (proj1 (@legacy_non_200_is_not_parsed Examples.lib)
           (Examples.world (Examples.answer 503 "")) Examples.legacy_client
           (Examples.answer 503 "") "").
  - reflexivity.
  - reflexivity.
  - simpl. lia.
Defined.

Lemma v1_success_is_normalised_witness :
  FcmV1.sendOnce (Examples.world (Examples.answer 200 Examples.body_sent))
    Examples.v1_client
  = FcmV1.Return
      {| FcmV1.Ok := true; FcmV1.StatusCode := 200;
         FcmV1.MulticastId := 0; FcmV1.Success := 1; FcmV1.Fail := 0;
         FcmV1.Canonical_ids := 0;
         FcmV1.Results := [ {[ "message_id" := "projects/p/messages/123" ]} ];
         FcmV1.MsgId := 1; FcmV1.Err := ""; FcmV1.RetryAfter := "" |}
      None.
Proof.
  apply (@v1_success_is_normalised Examples.lib
           (Examples.world (Examples.answer 200 Examples.body_sent))
           Examples.v1_client
           (Examples.answer 200 Examples.body_sent) Examples.body_sent
           {| FcmV1.Name := "projects/p/messages/123";
              FcmV1.Error :=
                {| FcmV1.FcmV1Error.Code := 0; FcmV1.FcmV1Error.Message := "";
                   FcmV1.FcmV1Error.Status := "";
                   FcmV1.FcmV1Error.Details := [] |} |}).
  - reflexivity.
  - reflexivity.
  - reflexivity.
  - reflexivity.
Defined.

(** C1.  The claim is what [parseStatusBodyV1] does and what [sendOnce]
    returns when the status of the response is not 200; [sendOnce] breaks
    it when the status is 200.  For the body
    [{"error":{"code":404,"message":"Requested entity was not found.",
    "status":"NOT_FOUND"}}], [parseStatusBodyV1] leaves [Ok] = false; when
    the body comes with status 404, [sendOnce] returns [Ok] = false and
    [StatusCode] = 200, as the claim says; when it comes with status 200,
    [sendOnce] sets [Ok] to true after the parse and leaves in [StatusCode]
    the 404 of the body, where the claim says [Ok] = false and
    [StatusCode] = 200. *)
Theorem v1_error_with_status_200_is_marked_ok :
  FcmV1.UseV1Api Examples.v1_client = true /\
  FcmV1.exchange (Examples.world (Examples.answer 200 Examples.body_not_found))
    Examples.v1_client
  = inr (Examples.answer 200 Examples.body_not_found, Examples.body_not_found) /\
  (exists v1Resp,
     Examples.unmarshal_V1 Examples.body_not_found = inr v1Resp /\
     FcmV1.FcmV1Error.Message (FcmV1.Error v1Resp)
     = "Requested entity was not found.") /\
  (exists st,
     FcmV1.parseStatusBodyV1
       (Examples.world (Examples.answer 200 Examples.body_not_found))
       (FcmV1.set_StatusCode 200 FcmV1.new_FcmResponseStatus)
       Examples.body_not_found
     = (st, None) /\
     FcmV1.Ok st = false /\ FcmV1.StatusCode st = 404) /\
  (exists st,
     FcmV1.sendOnce (Examples.world (Examples.answer 404 Examples.body_not_found))
       Examples.v1_client
     = FcmV1.Return st None /\
     FcmV1.Ok st = false /\ FcmV1.StatusCode st = 200) /\
  exists st,
    FcmV1.sendOnce (Examples.world (Examples.answer 200 Examples.body_not_found))
      Examples.v1_client
    = FcmV1.Return st None /\
    FcmV1.Fail st = 1 /\
    FcmV1.Results st = [ {[ "error" := "NOT_FOUND" ]} ] /\
    FcmV1.Err st = "Requested entity was not found." /\
    FcmV1.Ok st = true /\ FcmV1.Ok st <> false /\
    FcmV1.StatusCode st = 404 /\ FcmV1.StatusCode st <> 200.
Proof.
  split; [reflexivity|]. split; [reflexivity|]. split; [|split; [|split]].
  - eexists. split; reflexivity.
  - eexists. split; [reflexivity|]. split; reflexivity.
  - eexists. split; [reflexivity|]. split; reflexivity.
  - eexists. split; [reflexivity|]. simpl.
    repeat split; try discriminate; reflexivity.
Qed.

(** C6, as stated, fails: for the legacy body
    [{"multicast_id":7,"success":0,"failure":1,"canonical_ids":0,
    "results":[{"error":"InvalidRegistration"}]}] received with status 200,
    [sendOnce] of either file returns [Ok] = true together with [Fail] = 1 and
    the result entry with the key "error". *)
Lemma legacy_failure_is_ok_counterexample :
  (exists st,
     FcmV1.sendOnce (Examples.world (Examples.answer 200 Examples.body_failure))
       Examples.legacy_client
     = FcmV1.Return st None /\
     FcmV1.Ok st = true /\ FcmV1.Fail st = 1 /\
     FcmV1.Results st = [ {[ "error" := "InvalidRegistration" ]} ]) /\
  (exists st,
     FcmGo.sendOnce (Examples.go_world (Examples.answer 200 Examples.body_failure))
       Examples.go_client
     = FcmGo.Return st None /\
     FcmGo.Ok st = true /\ FcmGo.Fail st = 1 /\
     FcmGo.Results st = [ {[ "error" := "InvalidRegistration" ]} ]).
Proof. split; eexists; (split; [reflexivity|]); simpl; repeat split. Qed.

Lemma ok_means_read_and_decoded_witness :
  exists st,
    FcmV1.sendOnce (Examples.world (Examples.answer 200 Examples.body_failure))
      Examples.legacy_client
    = FcmV1.Return (FcmV1.set_Ok true st) None /\ FcmV1.Fail st = 1.
Proof.
  eexists. split.
  - apply (proj1 (proj1 (@ok_means_read_and_decoded Examples.lib)
                    (Examples.world (Examples.answer 200 Examples.body_failure))
                    Examples.legacy_client eq_refl)
             (Examples.answer 200 Examples.body_failure) Examples.body_failure).
    + reflexivity.
    + reflexivity.
    + reflexivity.
  - reflexivity.
Defined.

(** ** The payload translator *)

Section Translator.
Context `{GoLib}.

(** C10.  When the dynamic type of [Data] is not [map[string]interface{}],
    the map attached as [message.data] and as [message.android.data] has
    exactly one entry, the key "data" bound to the string "{}": the payload
    is not looked at.  [convertToV1Message] has no error result. *)
Theorem non_map_data_is_dropped (this : FcmV1.FcmClient) :
  FcmV1.is_map (Data (FcmV1.Message this)) = false ->
  FcmV1.V1Message.data (FcmV1.message (FcmV1.convertToV1Message this))
  = {[ "data" := "{}" ]} /\
  FcmV1.V1Android.data
    (FcmV1.V1Message.android (FcmV1.message (FcmV1.convertToV1Message this)))
  = {[ "data" := "{}" ]}.
Proof.
  intros Hnot. unfold FcmV1.convertToV1Message. simpl.
  destruct (Data (FcmV1.Message this)); try discriminate Hnot;
    split; reflexivity.
Qed.

(** The dynamic types named by the claim: the nil interface, the
    [map[string]string] that [NewFcmTopicMsg] stores, and a list. *)
Lemma non_map_data_examples (this : FcmV1.FcmClient) to body l :
  FcmV1.is_map (Data (FcmV1.Message (FcmV1.SetMsgData VNil this))) = false /\
  FcmV1.is_map (Data (FcmV1.Message (FcmV1.NewFcmTopicMsg to body this))) = false /\
  FcmV1.is_map (Data (FcmV1.Message (FcmV1.SetMsgData (VSlice l) this))) = false.
Proof. repeat split. Qed.

(** C9, as amended.  When [Data] is a [map[string]interface{}] that holds a
    non-empty string under the key "alert", the title of
    [message.notification] and the title of [message.android.notification]
    are that string.  The body of both, and the icon, color, sound, tag,
    click action, the four localisation fields and the channel id of the
    android notification, are the fields of the notification payload,
    unchanged; [notification_count] is the badge read as a decimal integer,
    and 0 when it cannot be read. *)
Theorem alert_overrides_title (this : FcmV1.FcmClient) m alert :
  Data (FcmV1.Message this) = VMap m ->
  FcmV1.index m "alert" = VString alert ->
  alert <> "" ->
  let n := Notification (FcmV1.Message this) in
  let msg := FcmV1.message (FcmV1.convertToV1Message this) in
  let an := FcmV1.V1Android.notification (FcmV1.V1Message.android msg) in
  FcmV1.V1Notification.title (FcmV1.V1Message.notification msg) = alert /\
  FcmV1.V1AndroidNotification.title an = alert /\
  FcmV1.V1Notification.body (FcmV1.V1Message.notification msg) = Body n /\
  FcmV1.V1AndroidNotification.body an = Body n /\
  FcmV1.V1AndroidNotification.icon an = Icon n /\
  FcmV1.V1AndroidNotification.color an = Color n /\
  FcmV1.V1AndroidNotification.sound an = Sound n /\
  FcmV1.V1AndroidNotification.tag an = Tag n /\
  FcmV1.V1AndroidNotification.click_action an = ClickAction n /\
  FcmV1.V1AndroidNotification.body_loc_key an = BodyLocKey n /\
  FcmV1.V1AndroidNotification.body_loc_args an = BodyLocArgs n /\
  FcmV1.V1AndroidNotification.title_loc_key an = TitleLocKey n /\
  FcmV1.V1AndroidNotification.title_loc_args an = TitleLocArgs n /\
  FcmV1.V1AndroidNotification.channel_id an = AndroidChannelID n /\
  FcmV1.V1AndroidNotification.notification_count an
  = match Atoi (Badge n) with inr count => count | inl _ => 0 end.
Proof.
  intros Hdata Halert Hne n msg an.
  subst n msg an. unfold FcmV1.convertToV1Message. simpl.
  rewrite Hdata. simpl. rewrite Halert.
  apply String.eqb_neq in Hne. rewrite Hne. simpl.
  repeat split.
  destruct (String.eqb_spec (Badge (Notification (FcmV1.Message this))) "")
    as [->|]; reflexivity.
Qed.

(** Without such an entry the title is the one of the notification
    payload. *)
Lemma title_without_alert (this : FcmV1.FcmClient) :
  (forall alert,
     FcmV1.index (FcmV1.entries (FcmV1.asserted_data (Data (FcmV1.Message this))))
       "alert" = VString alert -> alert = "") ->
  FcmV1.V1Notification.title
    (FcmV1.V1Message.notification (FcmV1.message (FcmV1.convertToV1Message this)))
  = Title (Notification (FcmV1.Message this)).
Proof.
  intros Hno. unfold FcmV1.convertToV1Message. simpl.
  destruct (FcmV1.index _ "alert") as [| | alert | | | | | | | |] eqn:Hidx;
    try reflexivity.
  by rewrite (Hno alert eq_refl).
Qed.

End Translator.

Lemma non_map_data_is_dropped_witness :
  FcmV1.V1Message.data
    (FcmV1.message (FcmV1.convertToV1Message (Examples.topic_client [("k", "v")])))
  = {[ "data" := "{}" ]} /\
  FcmV1.V1Android.data
    (FcmV1.V1Message.android
       (FcmV1.message (FcmV1.convertToV1Message (Examples.topic_client [("k", "v")]))))
  = {[ "data" := "{}" ]}.
Proof.
  apply (@non_map_data_is_dropped Examples.lib
           (Examples.topic_client [("k", "v")])).
  reflexivity.
Defined.

(** C9, as stated, fails: an "alert" entry that is the empty string does
    not replace the title, and neither does an "alert" entry of the
    [map[string]string] that [NewFcmTopicMsg] stores. *)
Lemma alert_counterexample :
  @FcmV1.index Examples.lib [("alert", VString "")] "alert" = VString "" /\
  FcmV1.V1Notification.title
    (FcmV1.V1Message.notification
       (FcmV1.message
          (FcmV1.convertToV1Message
             (Examples.notified (VMap [("alert", VString "")])))))
  = "Hello" /\
  FcmV1.V1AndroidNotification.title
    (FcmV1.V1Android.notification
       (FcmV1.V1Message.android
          (FcmV1.message
             (FcmV1.convertToV1Message
                (Examples.notified (VMap [("alert", VString "")]))))))
  = "Hello" /\
  "Hello" <> "" /\
  FcmV1.V1Notification.title
    (FcmV1.V1Message.notification
       (FcmV1.message
          (FcmV1.convertToV1Message (Examples.topic_client [("alert", "Sale")]))))
  = "Hello" /\
  "Hello" <> "Sale".
Proof. repeat split; discriminate. Qed.

Lemma alert_overrides_title_witness :
  FcmV1.V1Notification.title
    (FcmV1.V1Message.notification
       (FcmV1.message
          (FcmV1.convertToV1Message
             (Examples.notified (VMap [("alert", VString "Sale")])))))
  = "Sale".
Proof.
  apply (@alert_overrides_title Examples.lib
           (Examples.notified (VMap [("alert", VString "Sale")]))
           [("alert", VString "Sale")] "Sale").
  - reflexivity.
  - reflexivity.
  - discriminate.
Defined.

(** ** The flattened data map *)

Section Flatten.
Context `{GoLib}.

Lemma flattenValue_VMap fullKey m output :
  flattenValue fullKey (VMap m) output = flattenMap fullKey m output.
Proof.
  simpl. revert output.
  induction m as [|[key x] rest IH]; intros output; simpl; [done|].
  by rewrite IH.
Qed.

(** Induction on values, with the property available for the values held by a
    nested map. *)
Lemma value_map_ind (P : value -> Prop) :
  (forall v, (forall m, v <> VMap m) -> P v) ->
  (forall m, Forall (fun kv => P (snd kv)) m -> P (VMap m)) ->
  forall v, P v.
Proof.
  intros Hleaf Hmap. fix IH 1. intros v.
  destruct v as [| | | | | | m | | | |]; try (apply Hleaf; discriminate).
  apply Hmap. induction m as [|[k x] rest IHrest]; constructor.
  - apply IH.
  - exact IHrest.
Qed.

Lemma append_assoc (a b c : string) : (a +:+ b) +:+ c = a +:+ b +:+ c.
Proof.
  induction a as [|x a IH]; [done|].
  change (String x ((a +:+ b) +:+ c) = String x (a +:+ b +:+ c)).
  by rewrite IH.
Qed.

Lemma fullKey_of_nonempty prefix key :
  prefix <> "" -> fullKey_of prefix key = prefix +:+ "." +:+ key /\
                  fullKey_of prefix key <> "".
Proof.
  intros Hne. unfold fullKey_of. apply String.eqb_neq in Hne. rewrite Hne.
  split; [done|]. destruct prefix; [done|discriminate].
Qed.

Lemma dotted_from_nonempty path : forall prefix,
  prefix <> "" -> dotted_from prefix path = dotted (prefix :: path).
Proof.
  induction path as [|k rest IH]; intros prefix Hne; [done|].
  unfold dotted_from in *. simpl.
  destruct (fullKey_of_nonempty prefix k Hne) as [Heq Hne'].
  rewrite (IH _ Hne'). rewrite Heq. unfold dotted. simpl.
  destruct rest; [done|]. by rewrite !append_assoc.
Qed.

Lemma dotted_from_root k path :
  k <> "" -> dotted_from "" (k :: path) = dotted (k :: path).
Proof.
  intros Hne. change (dotted_from k path = dotted (k :: path)).
  by apply dotted_from_nonempty.
Qed.

(** *** The loop over a list *)

Lemma rangeSlice_lookup key l : forall i output k s,
  rangeSlice key i l output !! k = Some s ->
  output !! k = Some s \/
  exists (j : nat) elem,
    l !! j = Some elem /\ k = key +:+ "." +:+ itoa (i + Z.of_nat j) /\
    s = Sprint elem.
Proof.
  induction l as [|elem rest IH]; intros i output k s; simpl; [auto|].
  intros Hlook. apply IH in Hlook as [Hlook|(j & e & Hj & -> & ->)].
  - rewrite lookup_insert in Hlook. case_decide as Hk.
    + injection Hlook as <-. right. exists 0%nat, elem.
      rewrite Z.add_0_r. done.
    + by left.
  - right. exists (S j), e. split; [done|]. split; [|done].
    do 3 f_equal. lia.
Qed.

Lemma rangeSlice_mono key l : forall i output k,
  is_Some (output !! k) -> is_Some (rangeSlice key i l output !! k).
Proof.
  induction l as [|elem rest IH]; intros i output k Hk; simpl; [done|].
  apply IH. rewrite lookup_insert_is_Some. destruct (decide (key +:+ "." +:+ itoa i = k)); auto.
Qed.

Lemma rangeSlice_bound key l : forall i output (j : nat) elem,
  l !! j = Some elem ->
  is_Some (rangeSlice key i l output !! (key +:+ "." +:+ itoa (i + Z.of_nat j))).
Proof.
  induction l as [|e rest IH]; intros i output j elem Hj; [done|].
  destruct j as [|j]; simpl.
  - apply rangeSlice_mono. rewrite Z.add_0_r, lookup_insert_eq. eauto.
  - replace (i + Z.of_nat (S j)) with ((i + 1) + Z.of_nat j) by lia.
    by eapply IH.
Qed.

(** *** Entries are never removed *)

Definition keeps (v : value) : Prop :=
  forall key output k,
    is_Some (output !! k) -> is_Some (flattenValue key v output !! k).

Lemma flattenMap_keeps m :
  Forall (fun kv => keeps (snd kv)) m ->
  forall prefix output k,
    is_Some (output !! k) -> is_Some (flattenMap prefix m output !! k).
Proof.
  induction 1 as [|[key x] rest Hx _ IH]; intros prefix output k Hk; simpl;
    [done|].
  apply IH. by apply Hx.
Qed.

Lemma insert_keeps (output : gmap string string) key s k :
  is_Some (output !! k) -> is_Some (<[key := s]> output !! k).
Proof.
  intros Hk. rewrite lookup_insert_is_Some.
  destruct (decide (key = k)); auto.
Qed.

Lemma flattenValue_keeps v : keeps v.
Proof.
  induction v as [v Hleaf|m IH] using value_map_ind; intros key output k Hk.
  - destruct v; simpl; auto using insert_keeps, rangeSlice_mono.
    by destruct (Hleaf m).
  - rewrite flattenValue_VMap. by apply flattenMap_keeps.
Qed.

Lemma flattenMap_mono m prefix output k :
  is_Some (output !! k) -> is_Some (flattenMap prefix m output !! k).
Proof.
  apply flattenMap_keeps. apply Forall_forall. intros kv _.
  apply flattenValue_keeps.
Qed.

(** *** Paths of a map with one more entry *)

Lemma reaches_cons key x rest path v :
  reaches ((key, x) :: rest) path v <->
  (path = [key] /\ v = x) \/
  (exists m' path', x = VMap m' /\ path = key :: path' /\ reaches m' path' v) \/
  reaches rest path v.
Proof.
  split.
  - intros Hr. inversion Hr as [m k v' Hin|m k m' path' v' Hin Hsub]; subst.
    + destruct Hin as [[= <- <-]|Hin]; [auto|].
      right. right. by constructor.
    + destruct Hin as [[= ? ?]|Hin]; [subst; eauto 10|].
      right. right. by econstructor.
  - intros [[-> ->]|[(m' & path' & -> & -> & Hsub)|Hr]].
    + constructor. by left.
    + econstructor; [by left|done].
    + inversion Hr; subst; [constructor|econstructor]; try by right.
      done.
Qed.

(** *** Every entry of the result comes from the input or from a path *)

Definition sound (v : value) : Prop :=
  forall key output k s,
    flattenValue key v output !! k = Some s ->
    output !! k = Some s \/ rendered key v k s \/
    exists m, v = VMap m /\ flat_entry key m k s.

Lemma flattenMap_sound m :
  Forall (fun kv => sound (snd kv)) m ->
  forall prefix output k s,
    flattenMap prefix m output !! k = Some s ->
    output !! k = Some s \/ flat_entry prefix m k s.
Proof.
  induction 1 as [|[key x] rest Hx _ IH]; intros prefix output k s; simpl;
    [auto|].
  simpl in Hx. intros Hlook. apply IH in Hlook as [Hlook|(path & v & Hr & Hv)].
  - apply Hx in Hlook as [Hlook|[Hv|(m' & -> & path & v & Hr & Hv)]]; simpl in *.
    + by left.
    + right. exists [key], x. split; [|done]. constructor. by left.
    + right. exists (key :: path), v. split; [|done].
      econstructor; [by left|done].
  - right. exists path, v. split; [|done].
    apply reaches_cons. auto.
Qed.

Lemma flattenValue_sound v : sound v.
Proof.
  induction v as [v Hleaf|m IH] using value_map_ind; intros key output k s Hlook.
  - destruct v; simpl in *;
      try (rewrite lookup_insert in Hlook; case_decide;
           [injection Hlook as <-; subst; right; left; done|by left]).
    + apply rangeSlice_lookup in Hlook as [?|(j & e & ? & ? & ?)]; [by left|].
      right. left. exists j, e. done.
    + by left.
    + by destruct (Hleaf m).
    + by left.
  - rewrite flattenValue_VMap in Hlook.
    apply flattenMap_sound in Hlook as [?|?]; [by left|by eauto|done].
Qed.

Lemma flattenMap_lookup m prefix output k s :
  flattenMap prefix m output !! k = Some s ->
  output !! k = Some s \/ flat_entry prefix m k s.
Proof.
  apply flattenMap_sound. apply Forall_forall. intros kv _.
  apply flattenValue_sound.
Qed.

(** *** Every path's key is bound in the result *)

Definition bound (v : value) : Prop :=
  forall key output k s,
    (rendered key v k s \/ exists m, v = VMap m /\ flat_entry key m k s) ->
    is_Some (flattenValue key v output !! k).

Lemma flattenMap_bound_aux m :
  Forall (fun kv => bound (snd kv)) m ->
  forall prefix output k s,
    flat_entry prefix m k s ->
    is_Some (flattenMap prefix m output !! k).
Proof.
  induction 1 as [|[key x] rest Hx _ IH]; intros prefix output k s
    (path & v & Hr & Hv).
  { inversion Hr as [? ? ? Hin|? ? ? ? ? Hin]; destruct Hin. }
  simpl in *. apply reaches_cons in Hr as [[-> ->]|[(m' & path' & -> & -> & Hr)|Hr]].
  - apply flattenMap_mono. eapply Hx. left. exact Hv.
  - apply flattenMap_mono. eapply Hx. right. exists m'. split; [done|].
    exists path', v. split; [done|exact Hv].
  - eapply IH. exists path, v. split; [done|exact Hv].
Qed.

Lemma flattenValue_bound v : bound v.
Proof.
  induction v as [v Hleaf|m IH] using value_map_ind;
    intros key output k s [Hv|(m' & Heq & Hflat)].
  - destruct v; simpl in *; try done;
      try (destruct Hv as [-> _]; rewrite lookup_insert_eq; eauto).
    destruct Hv as (j & e & Hj & -> & _).
    replace (Z.of_nat j) with (0 + Z.of_nat j) by lia.
    by eapply rangeSlice_bound.
  - by destruct (Hleaf m' Heq).
  - done.
  - injection Heq as <-. rewrite flattenValue_VMap.
    by eapply flattenMap_bound_aux.
Qed.

Lemma flattenMap_bound m prefix output k s :
  flat_entry prefix m k s -> is_Some (flattenMap prefix m output !! k).
Proof.
  apply flattenMap_bound_aux. apply Forall_forall. intros kv _.
  apply flattenValue_bound.
Qed.


(** The data map of a message whose [Data] is the map [m]. *)
Lemma v1Data_of_map (this : FcmV1.FcmClient) m :
  Data (FcmV1.Message this) = VMap m ->
  FcmV1.V1Message.data (FcmV1.message (FcmV1.convertToV1Message this))
  = FcmV1.v1Data_of (VMap m) /\
  FcmV1.V1Android.data
    (FcmV1.V1Message.android (FcmV1.message (FcmV1.convertToV1Message this)))
  = FcmV1.v1Data_of (VMap m).
Proof.
  intros Hdata. unfold FcmV1.convertToV1Message. simpl. by rewrite Hdata.
Qed.

Lemma v1Data_of_entries m :
  let d := FcmV1.v1Data_of (VMap m) in
  d !! "data"
  = Some (match Marshal (VMap m) with Some text => text | None => "{}" end) /\
  (forall k s, k <> "data" -> d !! k = Some s -> flat_entry "" m k s) /\
  (forall k s, k <> "data" -> flat_entry "" m k s ->
               exists s', d !! k = Some s' /\ flat_entry "" m k s').
Proof.
  unfold FcmV1.v1Data_of. cbn zeta. split; [|split].
  - by rewrite lookup_insert_eq.
  - intros k s Hk Hlook. rewrite lookup_insert_ne in Hlook by done.
    apply flattenMap_lookup in Hlook as [Hlook|Hflat]; [|done].
    by rewrite lookup_empty in Hlook.
  - intros k s Hk Hflat. rewrite lookup_insert_ne by done.
    destruct (flattenMap_bound m "" ∅ k s Hflat) as [s' Hs'].
    exists s'. split; [done|].
    apply flattenMap_lookup in Hs' as [Hs'|Hs']; [|done].
    by rewrite lookup_empty in Hs'.
Qed.

End Flatten.




(** * Further properties

    What the code does beyond the statements above: chains of builder calls,
    the request that is sent, failures of a send, the classification of what
    a send returns, the v1 path of [src/fcm.go], the loop of [flattenMap],
    and the legacy wire format. *)

Ltac split_ifs :=
  repeat match goal with
         | |- context [if ?c then _ else _] => destruct c
         end.

Ltac overlap H :=
  first
    [ solve [exfalso; apply (H fData); simpl; tauto]
    | solve [exfalso; apply (H fTo); simpl; tauto]
    | solve [exfalso; apply (H fRegistrationIds); simpl; tauto]
    | solve [exfalso; apply (H fCollapseKey); simpl; tauto]
    | solve [exfalso; apply (H fPriority); simpl; tauto]
    | solve [exfalso; apply (H fNotification); simpl; tauto]
    | solve [exfalso; apply (H fContentAvailable); simpl; tauto]
    | solve [exfalso; apply (H fDelayWhileIdle); simpl; tauto]
    | solve [exfalso; apply (H fTimeToLive); simpl; tauto]
    | solve [exfalso; apply (H fRestrictedPackageName); simpl; tauto]
    | solve [exfalso; apply (H fDryRun); simpl; tauto]
    | solve [exfalso; apply (H fCondition); simpl; tauto] ].

Ltac missing_at H f :=
  solve [exfalso; pose proof (H f) as Hf; simpl in Hf; intuition discriminate].

Ltac missing H :=
  first
    [ missing_at H fData | missing_at H fTo | missing_at H fRegistrationIds
    | missing_at H fCollapseKey | missing_at H fPriority
    | missing_at H fNotification | missing_at H fContentAvailable
    | missing_at H fDelayWhileIdle | missing_at H fTimeToLive
    | missing_at H fRestrictedPackageName | missing_at H fDryRun
    | missing_at H fCondition ].

Section Chains.
Context `{GoLib}.

Lemma chain_snoc_v1 calls c (this : FcmV1.FcmClient) :
  FcmV1.chain (calls ++ [c]) this = FcmV1.apply_call c (FcmV1.chain calls this).
Proof. unfold FcmV1.chain. by rewrite fold_left_app. Qed.

Lemma chain_snoc_go calls c (this : FcmGo.FcmClient) :
  FcmGo.chain (calls ++ [c]) this = FcmGo.apply_call c (FcmGo.chain calls this).
Proof. unfold FcmGo.chain. by rewrite fold_left_app. Qed.

(** A call of [SetNotificationPayload] with a pointer that is not nil
    returns the client that [apply_call] gives. *)
Lemma SetNotificationPayload_returns payload :
  (forall this : FcmV1.FcmClient,
     FcmV1.SetNotificationPayload (Some payload) this
     = Completes (FcmV1.apply_call (Call_SetNotificationPayload payload) this)) /\
  (forall this : FcmGo.FcmClient,
     FcmGo.SetNotificationPayload (Some payload) this
     = Completes (FcmGo.apply_call (Call_SetNotificationPayload payload) this)).
Proof. split; reflexivity. Qed.

(** X1.  Whatever chain of builder calls follows [NewFcmClient], in either
    file: the stored time to live is at most [MAX_TTL], the stored priority
    is empty, "high" or "normal", and the API key is the one given to
    [NewFcmClient].  In [src/unnamed/part_000] the v1 protocol is in use
    exactly when the credentials given to [NewFcmClient] have a non-empty
    project id, and the project id and the credentials stay as given; in
    [src/fcm.go] [UseV1API] stays false and [CredentialsJSON] stays empty. *)
Theorem built_clients_keep_their_bounds :
  (forall calls apiKey gcmCredentials,
     let this := FcmV1.chain calls (FcmV1.NewFcmClient apiKey gcmCredentials) in
     TimeToLive (FcmV1.Message this) <= MAX_TTL /\
     (Priority (FcmV1.Message this) = "" \/
      Priority (FcmV1.Message this) = "high" \/
      Priority (FcmV1.Message this) = "normal") /\
     FcmV1.ApiKey this = apiKey /\
     (FcmV1.UseV1Api this = true <-> FcmV1.ProjectID gcmCredentials <> "") /\
     FcmV1.V1ProjectID this = FcmV1.ProjectID gcmCredentials /\
     FcmV1.gcmCredentialsV2 this = gcmCredentials) /\
  (forall calls apiKey,
     let this := FcmGo.chain calls (FcmGo.NewFcmClient apiKey) in
     TimeToLive (FcmGo.Message this) <= MAX_TTL /\
     (Priority (FcmGo.Message this) = "" \/
      Priority (FcmGo.Message this) = "high" \/
      Priority (FcmGo.Message this) = "normal") /\
     FcmGo.ApiKey this = apiKey /\
     FcmGo.UseV1API this = false /\
     FcmGo.CredentialsJSON this = "").
Proof.
  split.
  - intros calls apiKey gcmCredentials.
    induction calls as [|c calls IH] using rev_ind; cbn zeta.
    + unfold MAX_TTL. simpl.
      destruct (String.eqb_spec (FcmV1.ProjectID gcmCredentials) ""); simpl;
        repeat split; try lia; try tauto; try done.
    + rewrite chain_snoc_v1. cbn zeta in IH.
      destruct IH as (Httl & Hprio & Hkey & Huse & Hproj & Hcred).
      destruct c; simpl;
        unfold FcmV1.SetPriority, FcmV1.SetTimeToLive, MAX_TTL, Priority_HIGH,
          Priority_NORMAL in *;
        try destruct (String.eqb_spec p "high");
        try destruct (Z.gtb_spec ttl 2419200);
        simpl; repeat split; try tauto; try lia; try apply Huse.
  - intros calls apiKey.
    induction calls as [|c calls IH] using rev_ind; cbn zeta.
    + unfold MAX_TTL. simpl. repeat split; try lia; try tauto.
    + rewrite chain_snoc_go. cbn zeta in IH.
      destruct IH as (Httl & Hprio & Hkey & Huse & Hcred).
      destruct c; simpl;
        unfold FcmGo.SetPriority, FcmGo.SetTimeToLive, MAX_TTL, Priority_HIGH,
          Priority_NORMAL in *;
        try destruct (String.eqb_spec p "high");
        try destruct (Z.gtb_spec ttl 2419200);
        simpl; repeat split; try tauto; try lia.
Qed.

(** X2.  In both files two builder calls that assign no common field of the
    message can be made in either order: the client is the same. *)
Theorem calls_on_other_fields_commute :
  (forall (a b : call) (this : FcmV1.FcmClient),
     (forall f, In f (writes a) -> In f (writes b) -> False) ->
     FcmV1.apply_call b (FcmV1.apply_call a this)
     = FcmV1.apply_call a (FcmV1.apply_call b this)) /\
  (forall (a b : call) (this : FcmGo.FcmClient),
     (forall f, In f (writes a) -> In f (writes b) -> False) ->
     FcmGo.apply_call b (FcmGo.apply_call a this)
     = FcmGo.apply_call a (FcmGo.apply_call b this)).
Proof.
  split; intros a b this Hdisj.
  - destruct a, b; try overlap Hdisj;
      unfold FcmV1.apply_call, FcmV1.SetPriority, FcmV1.SetTimeToLive;
      split_ifs; reflexivity.
  - destruct a, b; try overlap Hdisj;
      unfold FcmGo.apply_call, FcmGo.SetPriority, FcmGo.SetTimeToLive;
      split_ifs; reflexivity.
Qed.

(** X3.  In both files a builder call other than [AppendDevices] hides an
    earlier call that assigned only fields which the later call assigns
    too: the client is the same as without the earlier call. *)
Theorem later_call_overwrites :
  (forall (a b : call) (this : FcmV1.FcmClient),
     appends a = false ->
     (forall f, In f (writes b) -> In f (writes a)) ->
     FcmV1.apply_call a (FcmV1.apply_call b this) = FcmV1.apply_call a this) /\
  (forall (a b : call) (this : FcmGo.FcmClient),
     appends a = false ->
     (forall f, In f (writes b) -> In f (writes a)) ->
     FcmGo.apply_call a (FcmGo.apply_call b this) = FcmGo.apply_call a this).
Proof.
  split; intros a b this Happ Hsub.
  - destruct a; try discriminate Happ; destruct b;
      try (unfold FcmV1.apply_call, FcmV1.SetPriority, FcmV1.SetTimeToLive;
           split_ifs; reflexivity);
      missing Hsub.
  - destruct a; try discriminate Happ; destruct b;
      try (unfold FcmGo.apply_call, FcmGo.SetPriority, FcmGo.SetTimeToLive;
           split_ifs; reflexivity);
      missing Hsub.
Qed.

(** X4.  In both files [NewFcmRegIdsMsg] followed by any number of
    [AppendDevices] calls stores the first list followed by the appended
    lists, in the order of the calls, with nothing removed; the list stored
    before [NewFcmRegIdsMsg] plays no part. *)
Theorem device_lists_concatenate :
  (forall (this : FcmV1.FcmClient) list body lists,
     RegistrationIds
       (FcmV1.Message
          (FcmV1.chain (map Call_AppendDevices lists)
             (FcmV1.NewFcmRegIdsMsg list body this)))
     = (list ++ concat lists)%list) /\
  (forall (this : FcmGo.FcmClient) list body lists,
     RegistrationIds
       (FcmGo.Message
          (FcmGo.chain (map Call_AppendDevices lists)
             (FcmGo.NewFcmRegIdsMsg list body this)))
     = (list ++ concat lists)%list).
Proof.
  split; intros this list body lists.
  - assert (Hgen : forall that : FcmV1.FcmClient,
              RegistrationIds
                (FcmV1.Message (FcmV1.chain (map Call_AppendDevices lists) that))
              = (RegistrationIds (FcmV1.Message that) ++ concat lists)%list).
    { induction lists as [|l lists IH]; intros that; simpl.
      - by rewrite app_nil_r.
      - unfold FcmV1.chain in *. simpl. rewrite IH. simpl.
        by rewrite <- app_assoc. }
    by rewrite Hgen.
  - assert (Hgen : forall that : FcmGo.FcmClient,
              RegistrationIds
                (FcmGo.Message (FcmGo.chain (map Call_AppendDevices lists) that))
              = (RegistrationIds (FcmGo.Message that) ++ concat lists)%list).
    { induction lists as [|l lists IH]; intros that; simpl.
      - by rewrite app_nil_r.
      - unfold FcmGo.chain in *. simpl. rewrite IH. simpl.
        by rewrite <- app_assoc. }
    by rewrite Hgen.
Qed.

Lemma normalise_returns (w : FcmV1.World) this response body :
  FcmV1.normalise w this response body <> FcmV1.Panic.
Proof.
  unfold FcmV1.normalise, FcmV1.parseStatusBodyV1, FcmV1.parseStatusBody.
  destruct (negb _), (FcmV1.UseV1Api this); try discriminate.
  - destruct (FcmV1.json_Unmarshal_V1 w body) as [e|v1Resp]; [discriminate|].
    destruct (negb _); discriminate.
  - destruct (FcmV1.json_Unmarshal_V1 w body) as [e|v1Resp]; [discriminate|].
    destruct (negb _); discriminate.
  - destruct (FcmV1.json_Unmarshal_status w body _) as [st [e|]]; discriminate.
Qed.

(** X6.  [sendOnce] of [src/unnamed/part_000] returns the zero status,
    [Ok] = false, together with the error, when the encoding of the payload
    fails, when the token cannot be obtained, when the round trip fails and
    when the body cannot be read; what comes after the failing step plays
    no part.  It panics exactly when the payload was encoded (and, for v1,
    the token obtained) and [http.NewRequest] rejects the URL. *)
Theorem send_failures_return_the_zero_status (w : FcmV1.World)
    (this : FcmV1.FcmClient) :
  (forall e,
     FcmV1.UseV1Api this = true ->
     FcmV1.json_Marshal_V1 w (FcmV1.convertToV1Message this) = inl e ->
     FcmV1.sendOnce w this
     = FcmV1.Return FcmV1.new_FcmResponseStatus (Some e)) /\
  (forall jsonByte e,
     FcmV1.UseV1Api this = true ->
     FcmV1.json_Marshal_V1 w (FcmV1.convertToV1Message this) = inr jsonByte ->
     FcmV1.token_of w (FcmV1.gcmCredentialsV2 this) = inl e ->
     FcmV1.sendOnce w this
     = FcmV1.Return FcmV1.new_FcmResponseStatus (Some e)) /\
  (forall e,
     FcmV1.UseV1Api this = false ->
     FcmV1.json_Marshal_FcmMsg w (FcmV1.Message this) = inl e ->
     FcmV1.sendOnce w this
     = FcmV1.Return FcmV1.new_FcmResponseStatus (Some e)) /\
  (forall request e,
     FcmV1.buildRequest w this = inr request ->
     FcmV1.client_Do w request = inl e ->
     FcmV1.sendOnce w this
     = FcmV1.Return FcmV1.new_FcmResponseStatus (Some e)) /\
  (forall request response e,
     FcmV1.buildRequest w this = inr request ->
     FcmV1.client_Do w request = inr response ->
     Response.Body response = inl e ->
     FcmV1.sendOnce w this
     = FcmV1.Return FcmV1.new_FcmResponseStatus (Some e)) /\
  (FcmV1.sendOnce w this = FcmV1.Panic <->
   if FcmV1.UseV1Api this then
     (exists jsonByte token,
        FcmV1.json_Marshal_V1 w (FcmV1.convertToV1Message this) = inr jsonByte /\
        FcmV1.token_of w (FcmV1.gcmCredentialsV2 this) = inr token) /\
     FcmV1.url_ok w (FcmV1.fcm_v1_server_url (FcmV1.V1ProjectID this)) = false
   else
     (exists jsonByte,
        FcmV1.json_Marshal_FcmMsg w (FcmV1.Message this) = inr jsonByte) /\
     FcmV1.url_ok w fcm_server_url = false).
Proof.
  unfold FcmV1.sendOnce, FcmV1.exchange, FcmV1.buildRequest, FcmV1.getToken.
  split; [|split; [|split; [|split; [|split]]]].
  - intros e -> ->. reflexivity.
  - intros jsonByte e -> -> ->. reflexivity.
  - intros e -> ->. reflexivity.
  - intros request e -> ->. reflexivity.
  - intros request response e -> -> ->. reflexivity.
  - destruct (FcmV1.UseV1Api this).
    + destruct (FcmV1.json_Marshal_V1 w _) as [e|jsonByte].
      { split; [discriminate|]. intros [(? & ? & [=] & _) _]. }
      destruct (FcmV1.token_of w _) as [e|token].
      { split; [discriminate|]. intros [(? & ? & _ & [=]) _]. }
      destruct (FcmV1.url_ok w _).
      { destruct (FcmV1.client_Do w _) as [e|response].
        - split; [discriminate|]. intros [_ [=]].
        - destruct (Response.Body response).
          + split; [discriminate|]. intros [_ [=]].
          + split; [|intros [_ [=]]].
            intros Hp. by apply normalise_returns in Hp. }
      split; [eauto|done].
    + destruct (FcmV1.json_Marshal_FcmMsg w _) as [e|jsonByte].
      { split; [discriminate|]. intros [(? & [=]) _]. }
      destruct (FcmV1.url_ok w _).
      { destruct (FcmV1.client_Do w _) as [e|response].
        - split; [discriminate|]. intros [_ [=]].
        - destruct (Response.Body response).
          + split; [discriminate|]. intros [_ [=]].
          + split; [|intros [_ [=]]].
            intros Hp. by apply normalise_returns in Hp. }
      split; [eauto|done].
Qed.

End Chains.

Section Sends.
Context `{GoLib}.

Lemma v1_apply_call_keeps_client c (this : FcmV1.FcmClient) :
  FcmV1.ApiKey (FcmV1.apply_call c this) = FcmV1.ApiKey this /\
  FcmV1.UseV1Api (FcmV1.apply_call c this) = FcmV1.UseV1Api this /\
  FcmV1.V1ProjectID (FcmV1.apply_call c this) = FcmV1.V1ProjectID this /\
  FcmV1.gcmCredentialsV2 (FcmV1.apply_call c this) = FcmV1.gcmCredentialsV2 this.
Proof.
  destruct c; simpl; unfold FcmV1.SetPriority, FcmV1.SetTimeToLive;
    repeat match goal with
           | |- context [if ?c then _ else _] => destruct c
           end; done.
Qed.

Lemma v1_chain_keeps_client calls : forall this : FcmV1.FcmClient,
  FcmV1.ApiKey (FcmV1.chain calls this) = FcmV1.ApiKey this /\
  FcmV1.UseV1Api (FcmV1.chain calls this) = FcmV1.UseV1Api this /\
  FcmV1.V1ProjectID (FcmV1.chain calls this) = FcmV1.V1ProjectID this /\
  FcmV1.gcmCredentialsV2 (FcmV1.chain calls this) = FcmV1.gcmCredentialsV2 this.
Proof.
  induction calls as [|c calls IH]; intros this; [done|].
  unfold FcmV1.chain in *. simpl.
  destruct (IH (FcmV1.apply_call c this)) as (-> & -> & -> & ->).
  apply v1_apply_call_keeps_client.
Qed.

Lemma go_apply_call_keeps_client c (this : FcmGo.FcmClient) :
  FcmGo.ApiKey (FcmGo.apply_call c this) = FcmGo.ApiKey this /\
  FcmGo.UseV1API (FcmGo.apply_call c this) = FcmGo.UseV1API this /\
  FcmGo.CredentialsJSON (FcmGo.apply_call c this) = FcmGo.CredentialsJSON this.
Proof.
  destruct c; simpl; unfold FcmGo.SetPriority, FcmGo.SetTimeToLive;
    repeat match goal with
           | |- context [if ?c then _ else _] => destruct c
           end; done.
Qed.

Lemma go_chain_keeps_client calls : forall this : FcmGo.FcmClient,
  FcmGo.ApiKey (FcmGo.chain calls this) = FcmGo.ApiKey this /\
  FcmGo.UseV1API (FcmGo.chain calls this) = FcmGo.UseV1API this /\
  FcmGo.CredentialsJSON (FcmGo.chain calls this) = FcmGo.CredentialsJSON this.
Proof.
  induction calls as [|c calls IH]; intros this; [done|].
  unfold FcmGo.chain in *. simpl.
  destruct (IH (FcmGo.apply_call c this)) as (-> & -> & ->).
  apply go_apply_call_keeps_client.
Qed.

(** X5.  For a client made by [NewFcmClient] and any chain of builder
    calls, a request that [sendOnce] builds is a POST with content type
    application/json.  When the credentials have a non-empty project id it
    goes to the v1 URL of that project with the header "Bearer <token>",
    the token being the one obtained from those credentials; when the
    project id is empty it goes to the legacy URL with the header
    "key=<API key>". *)
Theorem credentials_choose_the_endpoint
    (w : FcmV1.World) calls apiKey gcmCredentials request :
  FcmV1.buildRequest w
    (FcmV1.chain calls (FcmV1.NewFcmClient apiKey gcmCredentials))
  = inr request ->
  Request.Method request = "POST" /\
  Request.Header request !! "Content-Type" = Some "application/json" /\
  (FcmV1.ProjectID gcmCredentials <> "" ->
   Request.URL request
   = "https://fcm.googleapis.com/v1/projects/"
     +:+ FcmV1.ProjectID gcmCredentials +:+ "/messages:send" /\
   exists token,
     FcmV1.token_of w gcmCredentials = inr token /\
     Request.Header request !! "Authorization" = Some ("Bearer " +:+ token)) /\
  (FcmV1.ProjectID gcmCredentials = "" ->
   Request.URL request = "https://fcm.googleapis.com/fcm/send" /\
   Request.Header request !! "Authorization" = Some ("key=" +:+ apiKey)).
Proof.
  set (this := FcmV1.chain calls (FcmV1.NewFcmClient apiKey gcmCredentials)).
  destruct (v1_chain_keeps_client calls (FcmV1.NewFcmClient apiKey gcmCredentials))
    as (Hkey & Huse & Hproj & Hcred).
  fold this in Hkey, Huse, Hproj, Hcred. simpl in Hkey, Huse, Hproj, Hcred.
  unfold FcmV1.buildRequest, FcmV1.getToken, FcmV1.apiKeyHeader.
  rewrite Huse, Hproj, Hcred, Hkey.
  destruct (String.eqb_spec (FcmV1.ProjectID gcmCredentials) "") as [He|Hne];
    simpl.
  - destruct (FcmV1.json_Marshal_FcmMsg w _) as [e|jsonByte]; [done|].
    destruct (FcmV1.url_ok w _); [|done].
    intros [= <-]. simpl. repeat split; try done.
  - destruct (FcmV1.json_Marshal_V1 w _) as [e|jsonByte]; [done|].
    destruct (FcmV1.token_of w gcmCredentials) as [e|token]; [done|].
    destruct (FcmV1.url_ok w _); [|done].
    intros [= <-]. simpl. repeat split; try done.
    exists token. done.
Qed.

Lemma IsTimeout_true_iff (st : FcmV1.FcmResponseStatus) :
  FcmV1.IsTimeout st = true <->
  500 <= FcmV1.StatusCode st \/
  (FcmV1.StatusCode st = 200 /\ transient_result (FcmV1.Results st)).
Proof.
  unfold FcmV1.IsTimeout.
  destruct (Z.geb_spec (FcmV1.StatusCode st) 500); [intuition lia|].
  destruct (Z.eqb_spec (FcmV1.StatusCode st) 200) as [->|].
  - rewrite anyRetryable_true. intuition lia.
  - intuition (try lia; try discriminate).
Qed.

Lemma go_IsTimeout_true_iff (st : FcmGo.FcmResponseStatus) :
  FcmGo.IsTimeout st = true <->
  500 <= FcmGo.StatusCode st \/
  (FcmGo.StatusCode st = 200 /\ transient_result (FcmGo.Results st)).
Proof.
  unfold FcmGo.IsTimeout.
  destruct (Z.geb_spec (FcmGo.StatusCode st) 500); [intuition lia|].
  destruct (Z.eqb_spec (FcmGo.StatusCode st) 200) as [->|].
  - rewrite anyRetryable_true. intuition lia.
  - intuition (try lia; try discriminate).
Qed.

Lemma transient_result_nil : ~ transient_result [].
Proof. intros (val & v & Hin & _). by apply elem_of_nil in Hin. Qed.

(** X7.  When the v1 protocol is in use and the body of the response does
    not decode, [sendOnce] returns the decoding error together with a status
    whose [StatusCode] is 200 whatever the status of the response was, whose
    [RetryAfter] is the header, and whose other fields are zero; [IsTimeout]
    is false on it. *)
Theorem v1_undecodable_body_reports_200
    (w : FcmV1.World) (this : FcmV1.FcmClient) response body e :
  FcmV1.UseV1Api this = true ->
  FcmV1.exchange w this = inr (response, body) ->
  FcmV1.json_Unmarshal_V1 w body = inl e ->
  FcmV1.sendOnce w this
  = FcmV1.Return
      {| FcmV1.Ok := false; FcmV1.StatusCode := 200;
         FcmV1.MulticastId := 0; FcmV1.Success := 0; FcmV1.Fail := 0;
         FcmV1.Canonical_ids := 0; FcmV1.Results := []; FcmV1.MsgId := 0;
         FcmV1.Err := "";
         FcmV1.RetryAfter := Header_Get (Response.Header response) "Retry-After" |}
      (Some e) /\
  forall st err,
    FcmV1.sendOnce w this = FcmV1.Return st err -> FcmV1.IsTimeout st = false.
Proof.
  intros Hv1 Hex Hdec.
  assert (Hsend : FcmV1.sendOnce w this
                  = FcmV1.Return
                      {| FcmV1.Ok := false; FcmV1.StatusCode := 200;
                         FcmV1.MulticastId := 0; FcmV1.Success := 0;
                         FcmV1.Fail := 0; FcmV1.Canonical_ids := 0;
                         FcmV1.Results := []; FcmV1.MsgId := 0; FcmV1.Err := "";
                         FcmV1.RetryAfter :=
                           Header_Get (Response.Header response) "Retry-After" |}
                      (Some e)).
  { rewrite (sendOnce_normalise _ _ _ _ Hex).
    unfold FcmV1.normalise, FcmV1.parseStatusBodyV1. rewrite Hv1, Hdec.
    destruct (Z.eqb_spec (Response.StatusCode response) 200) as [Hs|Hs]; simpl.
    - unfold FcmV1.set_RetryAfter, FcmV1.set_StatusCode. simpl. by rewrite Hs.
    - reflexivity. }
  split; [exact Hsend|].
  intros st err Hst. rewrite Hsend in Hst. injection Hst as <- _.
  reflexivity.
Qed.

(** X8.  For a response whose status is not 200: on the status that the
    legacy [sendOnce] of either file returns, [IsTimeout] is true exactly
    when the status of the response is at least 500; on the status that the
    v1 [sendOnce] returns, [IsTimeout] is true exactly when the body decodes
    to an error with a non-empty message whose [status] is "Unavailable" or
    "InternalServerError", whatever the status of the response. *)
Theorem retry_classification_of_failed_sends :
  (forall (w : FcmV1.World) (this : FcmV1.FcmClient) response body st err,
     FcmV1.UseV1Api this = false ->
     FcmV1.exchange w this = inr (response, body) ->
     Response.StatusCode response <> 200 ->
     FcmV1.sendOnce w this = FcmV1.Return st err ->
     (FcmV1.IsTimeout st = true <-> 500 <= Response.StatusCode response)) /\
  (forall (w : FcmGo.World) (this : FcmGo.FcmClient) response body st err,
     FcmGo.exchange w this = inr (response, body) ->
     Response.StatusCode response <> 200 ->
     FcmGo.sendOnce w this = FcmGo.Return st err ->
     (FcmGo.IsTimeout st = true <-> 500 <= Response.StatusCode response)) /\
  (forall (w : FcmV1.World) (this : FcmV1.FcmClient) response body st err,
     FcmV1.UseV1Api this = true ->
     FcmV1.exchange w this = inr (response, body) ->
     Response.StatusCode response <> 200 ->
     FcmV1.sendOnce w this = FcmV1.Return st err ->
     (FcmV1.IsTimeout st = true <->
      exists v1Resp,
        FcmV1.json_Unmarshal_V1 w body = inr v1Resp /\
        FcmV1.FcmV1Error.Message (FcmV1.Error v1Resp) <> "" /\
        (FcmV1.FcmV1Error.Status (FcmV1.Error v1Resp) = "Unavailable" \/
         FcmV1.FcmV1Error.Status (FcmV1.Error v1Resp) = "InternalServerError"))).
Proof.
  split; [|split].
  - intros w this response body st err Hlegacy Hex Hs Hsend.
    rewrite (sendOnce_normalise _ _ _ _ Hex) in Hsend.
    unfold FcmV1.normalise in Hsend. rewrite Hlegacy in Hsend.
    destruct (Z.eqb_spec (Response.StatusCode response) 200); [done|].
    simpl in Hsend. injection Hsend as <- _.
    rewrite IsTimeout_true_iff. simpl. split; [|auto].
    intros [?|[? _]]; [done|lia].
  - intros w this response body st err Hex Hs Hsend.
    rewrite (go_sendOnce_normalise _ _ _ _ Hex) in Hsend.
    unfold FcmGo.normalise in Hsend.
    destruct (Z.eqb_spec (Response.StatusCode response) 200); [done|].
    simpl in Hsend. injection Hsend as <- _.
    rewrite go_IsTimeout_true_iff. simpl. split; [|auto].
    intros [?|[? _]]; [done|lia].
  - intros w this response body st err Hv1 Hex Hs Hsend.
    rewrite (sendOnce_normalise _ _ _ _ Hex) in Hsend.
    unfold FcmV1.normalise, FcmV1.parseStatusBodyV1 in Hsend.
    rewrite Hv1 in Hsend.
    destruct (Z.eqb_spec (Response.StatusCode response) 200); [done|].
    simpl in Hsend.
    destruct (FcmV1.json_Unmarshal_V1 w body) as [e|v1Resp].
    { injection Hsend as <- _. split; [discriminate|].
      intros (? & [=] & _). }
    destruct (String.eqb_spec (FcmV1.FcmV1Error.Message (FcmV1.Error v1Resp)) "")
      as [Hm|Hm]; simpl in Hsend; injection Hsend as <- _;
      rewrite IsTimeout_true_iff; simpl.
    + split.
      * intros [?|[_ Ht]]; [lia|].
        apply transient_result_singleton in Ht as [[=] _].
      * intros (r & [= <-] & Hne & _). done.
    + split.
      * intros [?|[_ Ht]]; [lia|].
        apply transient_result_singleton in Ht as [_ Ht]. eauto.
      * intros (r & [= <-] & _ & Ht). right. split; [done|].
        apply transient_result_singleton. done.
Qed.

(** X10.  [sendViaV1] of [src/fcm.go] returns a nil status exactly when it
    returns an error, and a nil error exactly when it returns a status. *)
Theorem sendViaV1_status_or_error (w : FcmGo.V1World) (f : FcmGo.FcmClient)
    st err :
  FcmGo.sendViaV1 w f = FcmGo.Returned st err ->
  (st = None <-> err <> None) /\ (err = None <-> st <> None).
Proof.
  unfold FcmGo.sendViaV1.
  destruct (FcmGo.getToken w f) as [token [e|]|]; [intros [= <- <-]; split; split; done| |done].
  destruct (FcmGo.json_Marshal_payload w _); [intros [= <- <-]; split; split; done|].
  destruct (FcmGo.getProjectID w f); [intros [= <- <-]; split; split; done|].
  destruct (FcmGo.http_NewRequest_error w _); [intros [= <- <-]; split; split; done|].
  destruct (FcmGo.client_Do _ _) as [|response]; [intros [= <- <-]; split; split; done|].
  destruct (Response.Body response); [intros [= <- <-]; split; split; done|].
  destruct (FcmGo.json_Unmarshal_status _ _ _) as [st' [e|]];
    intros [= <- <-]; split; split; done.
Qed.

(** X11.  [sendViaV1] looks at nothing of the response but its body: two
    round trips that give the same body, or the same error, give the same
    result, whatever their status codes and headers. *)
Theorem sendViaV1_reads_the_body_only (w1 w2 : FcmGo.V1World)
    (f : FcmGo.FcmClient) :
  (forall c, FcmGo.jwt_config w1 c = FcmGo.jwt_config w2 c) ->
  (forall c, FcmGo.token_source w1 c = FcmGo.token_source w2 c) ->
  (forall p, FcmGo.json_Marshal_payload w1 p = FcmGo.json_Marshal_payload w2 p) ->
  (forall c, FcmGo.json_Unmarshal_project w1 c = FcmGo.json_Unmarshal_project w2 c) ->
  (forall u, FcmGo.http_NewRequest_error w1 u = FcmGo.http_NewRequest_error w2 u) ->
  (forall body st,
     FcmGo.json_Unmarshal_status (FcmGo.legacy w1) body st
     = FcmGo.json_Unmarshal_status (FcmGo.legacy w2) body st) ->
  (forall request,
     FcmGo.body_read (FcmGo.client_Do (FcmGo.legacy w1) request)
     = FcmGo.body_read (FcmGo.client_Do (FcmGo.legacy w2) request)) ->
  FcmGo.sendViaV1 w1 f = FcmGo.sendViaV1 w2 f.
Proof.
  intros Hjwt Htok Hmar Hproj Hurl Hdec Hbody.
  unfold FcmGo.sendViaV1, FcmGo.getToken, FcmGo.getProjectID.
  rewrite <- Hjwt, <- Htok.
  destruct (FcmGo.jwt_config w1 _); [done|].
  destruct (FcmGo.token_source w1 _) as [[token|] [e|]]; try done.
  rewrite <- Hmar. destruct (FcmGo.json_Marshal_payload w1 _); [done|].
  rewrite <- Hproj.
  destruct (FcmGo.json_Unmarshal_project w1 _) as [|projectID]; [done|].
  rewrite <- Hurl. destruct (FcmGo.http_NewRequest_error w1 _); [done|].
  match goal with
  | |- context [FcmGo.client_Do (FcmGo.legacy w1) ?r] => specialize (Hbody r)
  end.
  destruct (FcmGo.client_Do (FcmGo.legacy w1) _) as [e1|r1],
           (FcmGo.client_Do (FcmGo.legacy w2) _) as [e2|r2];
    simpl in Hbody; try discriminate.
  - by injection Hbody as ->.
  - injection Hbody as Hb. rewrite <- Hb.
    destruct (Response.Body r1); [done|]. by rewrite Hdec.
Qed.


(** X13.  In [src/fcm.go], when the token source returns a nil token
    (as it does with an error), [getToken] panics, and so do [sendViaV1] and
    [Send] of a client with [UseV1API] set: the error is not returned. *)
Theorem failed_token_exchange_panics (w : FcmGo.V1World) (f : FcmGo.FcmClient)
    err :
  FcmGo.UseV1API f = true ->
  FcmGo.jwt_config w (FcmGo.CredentialsJSON f) = None ->
  FcmGo.token_source w (FcmGo.CredentialsJSON f) = (None, err) ->
  FcmGo.getToken w f = FcmGo.Panicked /\
  FcmGo.sendViaV1 w f = FcmGo.Panicked /\
  FcmGo.Send w f = FcmGo.Panicked.
Proof.
  intros Huse Hjwt Htok.
  assert (Hget : FcmGo.getToken w f = FcmGo.Panicked).
  { unfold FcmGo.getToken. by rewrite Hjwt, Htok. }
  split; [done|]. unfold FcmGo.Send, FcmGo.sendViaV1. rewrite Huse, Hget. done.
Qed.

(** X14.  In [src/fcm.go], [Send] of a client made by [NewFcmClient] and
    any chain of builder calls is [sendOnce]: the v1 path is not taken. *)
Theorem built_go_clients_send_legacy (w : FcmGo.V1World) calls apiKey :
  FcmGo.Send w (FcmGo.chain calls (FcmGo.NewFcmClient apiKey))
  = match FcmGo.sendOnce (FcmGo.legacy w)
            (FcmGo.chain calls (FcmGo.NewFcmClient apiKey)) with
    | FcmGo.Return st err => FcmGo.Returned (Some st) err
    | FcmGo.Panic => FcmGo.Panicked
    end.
Proof.
  unfold FcmGo.Send.
  destruct (go_chain_keeps_client calls (FcmGo.NewFcmClient apiKey))
    as (_ & -> & _).
  reflexivity.
Qed.

(** X9.  With the legacy protocol in use, [sendOnce] of
    [src/unnamed/part_000] and [sendOnce] of [src/fcm.go] do the same on
    clients with the same API key and message, when their collaborators do
    the same: both panic, or both return the same error and statuses equal
    in every field but [Err]. *)
Theorem legacy_paths_agree (a : FcmV1.World) (b : FcmGo.World)
    (ca : FcmV1.FcmClient) (cb : FcmGo.FcmClient) :
  same_world a b -> same_client ca cb -> FcmV1.UseV1Api ca = false ->
  same_outcome (FcmV1.sendOnce a ca) (FcmGo.sendOnce b cb).
Proof.
  intros (Hmar & Hurl & Hdo & Hdec) (Hkey & Hmsg) Hlegacy.
  unfold FcmV1.sendOnce, FcmGo.sendOnce, FcmV1.exchange, FcmGo.exchange,
    FcmV1.buildRequest, FcmV1.apiKeyHeader, FcmGo.apiKeyHeader.
  rewrite Hlegacy, Hmsg, Hmar, Hurl, Hkey.
  assert (Hzero : same_status FcmV1.new_FcmResponseStatus
                    FcmGo.new_FcmResponseStatus).
  { repeat split. }
  destruct (FcmGo.json_Marshal_FcmMsg b _) as [e|jsonByte]; [by split|].
  destruct (FcmGo.url_ok b _); [|done].
  rewrite Hdo.
  destruct (FcmGo.client_Do b _) as [e|response]; [by split|].
  destruct (Response.Body response) as [e|body]; [by split|].
  unfold FcmV1.normalise, FcmGo.normalise, FcmV1.parseStatusBody,
    FcmGo.parseStatusBody.
  rewrite Hlegacy.
  destruct (negb _); [by split|].
  match goal with
  | |- context [FcmV1.json_Unmarshal_status a body ?sa] =>
      match goal with
      | |- context [FcmGo.json_Unmarshal_status b body ?sb] =>
          destruct (Hdec body sa sb) as [Hst Herr]; [repeat split|]
      end
  end.
  destruct (FcmV1.json_Unmarshal_status a body _) as [sa ea],
           (FcmGo.json_Unmarshal_status b body _) as [sb eb].
  simpl in Hst, Herr. subst eb.
  destruct ea; simpl; [done|].
  destruct Hst as (? & ? & ? & ? & ? & ? & ? & ? & ?).
  repeat split; done.
Qed.

(** X20.  When [parseStatusBodyV1] returns an error the status is as it
    was.  When it returns no error, the status has exactly one result
    entry, [Success] + [Fail] = 1, [MulticastId] = 0 and
    [Canonical_ids] = 0, and [Ok] is true exactly when [Fail] = 0; with
    [Ok] = true it has [StatusCode] = 200, [MsgId] = 1 and [Err] as it was,
    with [Ok] = false it has [MsgId] as it was; [RetryAfter] is as it
    was. *)
Theorem parseStatusBodyV1_is_consistent (w : FcmV1.World)
    (this : FcmV1.FcmResponseStatus) body :
  (forall st e,
     FcmV1.parseStatusBodyV1 w this body = (st, Some e) -> st = this) /\
  (forall st,
     FcmV1.parseStatusBodyV1 w this body = (st, None) ->
     length (FcmV1.Results st) = 1%nat /\
     FcmV1.Success st + FcmV1.Fail st = 1 /\
     0 <= FcmV1.Success st /\ 0 <= FcmV1.Fail st /\
     FcmV1.MulticastId st = 0 /\ FcmV1.Canonical_ids st = 0 /\
     (FcmV1.Ok st = true <-> FcmV1.Fail st = 0) /\
     (FcmV1.Ok st = true ->
      FcmV1.StatusCode st = 200 /\ FcmV1.MsgId st = 1 /\
      FcmV1.Err st = FcmV1.Err this) /\
     (FcmV1.Ok st = false -> FcmV1.MsgId st = FcmV1.MsgId this) /\
     FcmV1.RetryAfter st = FcmV1.RetryAfter this).
Proof.
  unfold FcmV1.parseStatusBodyV1.
  destruct (FcmV1.json_Unmarshal_V1 w body) as [e|v1Resp]; simpl.
  - split; [intros st e' Heq; congruence|intros st Heq; congruence].
  - destruct (negb _); simpl;
      (split; [intros st e Heq; congruence|]);
      intros st Heq; injection Heq as <-; simpl;
      repeat split; try done; try lia.
Qed.

(** X21.  When the v1 protocol is in use and a response with status 200
    carries a body that decodes to an error with a non-empty message,
    [sendOnce] returns, with a nil error, a status with [Ok] = true,
    [Fail] = 1 and [StatusCode] equal to the [code] of the error; [IsTimeout]
    is true on it exactly when that code is at least 500, or is 200 with the
    [status] "Unavailable" or "InternalServerError". *)
Theorem v1_error_body_with_status_200
    (w : FcmV1.World) (this : FcmV1.FcmClient) response body v1Resp :
  FcmV1.UseV1Api this = true ->
  FcmV1.exchange w this = inr (response, body) ->
  Response.StatusCode response = 200 ->
  FcmV1.json_Unmarshal_V1 w body = inr v1Resp ->
  FcmV1.FcmV1Error.Message (FcmV1.Error v1Resp) <> "" ->
  exists st,
    FcmV1.sendOnce w this = FcmV1.Return st None /\
    FcmV1.Ok st = true /\ FcmV1.Fail st = 1 /\ FcmV1.Success st = 0 /\
    FcmV1.StatusCode st = FcmV1.FcmV1Error.Code (FcmV1.Error v1Resp) /\
    (FcmV1.IsTimeout st = true <->
     500 <= FcmV1.FcmV1Error.Code (FcmV1.Error v1Resp) \/
     (FcmV1.FcmV1Error.Code (FcmV1.Error v1Resp) = 200 /\
      (FcmV1.FcmV1Error.Status (FcmV1.Error v1Resp) = "Unavailable" \/
       FcmV1.FcmV1Error.Status (FcmV1.Error v1Resp) = "InternalServerError"))).
Proof.
  intros Hv1 Hex Hs Hdec Hmsg.
  rewrite (sendOnce_normalise _ _ _ _ Hex).
  unfold FcmV1.normalise, FcmV1.parseStatusBodyV1.
  rewrite Hv1, Hdec, Hs. apply String.eqb_neq in Hmsg. rewrite Hmsg. simpl.
  eexists. split; [reflexivity|]. simpl. repeat split.
  - rewrite IsTimeout_true_iff. simpl.
    intros [?|[? Ht]]; [by left|right]. split; [done|].
    by apply transient_result_singleton in Ht as [_ Ht].
  - rewrite IsTimeout_true_iff. simpl.
    intros [?|[? Ht]]; [by left|right]. split; [done|].
    by apply transient_result_singleton.
Qed.

(** X23.  When the v1 protocol is in use, the response was read, its body
    decodes, and the decoded [error.message] is not empty, [sendOnce]
    returns with a nil error a status that has [Fail] = 1, [Results] equal
    to the one-element list [{"error": error.status}] and [Err] equal to
    [error.message]; and when the status of the response is not 200, that
    status has [StatusCode] = 200 and [Ok] = false. *)
Theorem v1_error_is_normalised
    (w : FcmV1.World) (this : FcmV1.FcmClient) response body v1Resp :
  FcmV1.UseV1Api this = true ->
  FcmV1.exchange w this = inr (response, body) ->
  FcmV1.json_Unmarshal_V1 w body = inr v1Resp ->
  FcmV1.FcmV1Error.Message (FcmV1.Error v1Resp) <> "" ->
  exists st,
    FcmV1.sendOnce w this = FcmV1.Return st None /\
    FcmV1.Fail st = 1 /\
    FcmV1.Results st
    = [ {[ "error" := FcmV1.FcmV1Error.Status (FcmV1.Error v1Resp) ]} ] /\
    FcmV1.Err st = FcmV1.FcmV1Error.Message (FcmV1.Error v1Resp) /\
    (Response.StatusCode response <> 200 ->
     FcmV1.StatusCode st = 200 /\ FcmV1.Ok st = false).
Proof.
  intros Hv1 Hex Hdec Hmsg.
  rewrite (sendOnce_normalise _ _ _ _ Hex).
  unfold FcmV1.normalise, FcmV1.parseStatusBodyV1.
  rewrite Hv1, Hdec.
  apply String.eqb_neq in Hmsg. rewrite Hmsg. simpl.
  destruct (Z.eqb_spec (Response.StatusCode response) 200); simpl;
    eexists; (split; [reflexivity|]); simpl; repeat split; try done.
Qed.

End Sends.

Section FlattenLoop.
Context `{GoLib}.

Lemma flat_entry_cons prefix key x rest k s :
  flat_entry prefix ((key, x) :: rest) k s <->
  rendered (fullKey_of prefix key) x k s \/
  (exists m', x = VMap m' /\ flat_entry (fullKey_of prefix key) m' k s) \/
  flat_entry prefix rest k s.
Proof.
  unfold flat_entry. split.
  - intros (path & v & Hr & Hv).
    apply reaches_cons in Hr as [[-> ->]|[(m' & path' & -> & -> & Hr)|Hr]];
      eauto 10.
  - intros [Hv|[(m' & -> & path & v & Hr & Hv)|(path & v & Hr & Hv)]].
    + exists [key], x. split; [|done]. apply reaches_cons. auto.
    + exists (key :: path), v. split; [|done]. apply reaches_cons. eauto 10.
    + exists path, v. split; [|done]. apply reaches_cons. auto.
Qed.

Lemma flat_entry_nil prefix k s : ~ flat_entry prefix [] k s.
Proof.
  intros (path & v & Hr & _). inversion Hr as [? ? ? Hin|? ? ? ? ? Hin];
    destruct Hin.
Qed.

(** *** An entry given by a path replaces what the output held *)

Definition overrides (v : value) : Prop :=
  forall key output k s,
    (rendered key v k s \/ exists m, v = VMap m /\ flat_entry key m k s) ->
    exists s', flattenValue key v output !! k = Some s' /\
               (rendered key v k s' \/
                exists m, v = VMap m /\ flat_entry key m k s').

Lemma rangeSlice_overrides key l : forall i output (j : nat) elem,
  l !! j = Some elem ->
  exists (j' : nat) elem',
    l !! j' = Some elem' /\
    key +:+ "." +:+ itoa (i + Z.of_nat j') = key +:+ "." +:+ itoa (i + Z.of_nat j) /\
    rangeSlice key i l output !! (key +:+ "." +:+ itoa (i + Z.of_nat j))
    = Some (Sprint elem').
Proof.
  induction l as [|e rest IH]; intros i output j elem Hj; [done|].
  destruct j as [|j]; simpl.
  - destruct (rangeSlice_mono key rest (i + 1)
                (<[key +:+ "." +:+ itoa i := Sprint e]> output)
                (key +:+ "." +:+ itoa (i + Z.of_nat 0))) as [s Hs].
    { simpl. rewrite Z.add_0_r, lookup_insert_eq. eauto. }
    destruct (rangeSlice_lookup key rest _ _ _ s Hs)
      as [Hin|(j' & e' & Hj' & Hk & ->)].
    + simpl in Hin. rewrite Z.add_0_r in Hin. rewrite lookup_insert_eq in Hin.
      injection Hin as <-. exists 0%nat, e. done.
    + exists (S j'), e'. split; [done|]. split; [|done].
      rewrite Hk. do 3 f_equal. lia.
  - simpl in Hj.
    destruct (IH (i + 1) (<[key +:+ "." +:+ itoa i := Sprint e]> output) j elem Hj)
      as (j' & e' & Hj' & Hk & Hres).
    replace (i + Z.of_nat (S j)) with (i + 1 + Z.of_nat j) by lia.
    exists (S j'), e'. split; [done|]. split; [|done].
    rewrite <- Hk. do 3 f_equal. lia.
Qed.

Lemma flattenMap_overrides_aux m :
  Forall (fun kv => overrides (snd kv)) m ->
  forall prefix output k s,
    flat_entry prefix m k s ->
    exists s', flattenMap prefix m output !! k = Some s' /\
               flat_entry prefix m k s'.
Proof.
  induction 1 as [|[key x] rest Hx _ IH]; intros prefix output k s Hflat.
  { by apply flat_entry_nil in Hflat. }
  simpl in *.
  assert (Hhead :
    (rendered (fullKey_of prefix key) x k s \/
     exists m, x = VMap m /\ flat_entry (fullKey_of prefix key) m k s) ->
    exists s', flattenMap prefix rest
                 (flattenValue (fullKey_of prefix key) x output) !! k = Some s' /\
               flat_entry prefix ((key, x) :: rest) k s').
  { intros Hprod.
    destruct (Hx _ output _ _ Hprod) as (s1 & Hs1 & Hprod1).
    destruct (flattenMap_mono rest prefix _ k (mk_is_Some _ _ Hs1)) as [s2 Hs2].
    exists s2. split; [done|]. apply flat_entry_cons.
    apply flattenMap_lookup in Hs2 as [Hs2|Hs2]; [|auto].
    rewrite Hs1 in Hs2. injection Hs2 as <-. tauto. }
  apply flat_entry_cons in Hflat as [Hv|[Hm|Hrest]]; [by apply Hhead; left|by apply Hhead; right|].
  destruct (IH prefix (flattenValue (fullKey_of prefix key) x output) k s Hrest)
    as (s' & Hs' & Hflat').
  exists s'. split; [done|]. apply flat_entry_cons. auto.
Qed.

Lemma flattenValue_overrides v : overrides v.
Proof.
  induction v as [v Hleaf|m IH] using value_map_ind;
    intros key output k s [Hv|(m' & Heq & Hflat)].
  - destruct v; simpl in *; try done;
      try (destruct Hv as [-> _]; rewrite lookup_insert_eq; eauto).
    destruct Hv as (j & e & Hj & -> & _).
    destruct (rangeSlice_overrides key l 0 output j e Hj)
      as (j' & e' & Hj' & Hk & Hres).
    rewrite !Z.add_0_l in *. exists (Sprint e'). split; [done|].
    left. exists j', e'. done.
  - by destruct (Hleaf m' Heq).
  - done.
  - injection Heq as <-. rewrite flattenValue_VMap.
    destruct (flattenMap_overrides_aux m IH key output k s Hflat)
      as (s' & Hs' & Hflat').
    exists s'. split; [done|]. right. eauto.
Qed.

Lemma flattenMap_overrides m prefix output k s :
  flat_entry prefix m k s ->
  exists s', flattenMap prefix m output !! k = Some s' /\
             flat_entry prefix m k s'.
Proof.
  apply flattenMap_overrides_aux. apply Forall_forall. intros kv _.
  apply flattenValue_overrides.
Qed.

(** X15.  [flattenMap] takes no key away from the output map; it leaves
    the binding of a key that no path of the input gives as it was; and a
    key that some path gives is bound, after the call, to what a path gives
    for it, whatever the output held there. *)
Theorem flattenMap_adds_and_replaces m prefix (output : gmap string string) k :
  (is_Some (output !! k) -> is_Some (flattenMap prefix m output !! k)) /\
  ((forall s, ~ flat_entry prefix m k s) ->
   flattenMap prefix m output !! k = output !! k) /\
  (forall s, flat_entry prefix m k s ->
             exists s', flattenMap prefix m output !! k = Some s' /\
                        flat_entry prefix m k s').
Proof.
  split; [apply flattenMap_mono|]. split; [|apply flattenMap_overrides].
  intros Hnone.
  destruct (flattenMap prefix m output !! k) as [s|] eqn:Hres.
  - apply flattenMap_lookup in Hres as [Hout|Hflat];
      [done|by destruct (Hnone s)].
  - destruct (output !! k) as [s|] eqn:Hout; [|done].
    destruct (flattenMap_mono m prefix output k (mk_is_Some _ _ Hout)) as [s' Hs'].
    by rewrite Hs' in Hres.
Qed.

(** *** The order of iteration *)

Lemma reaches_perm m m' path v :
  Permutation m m' -> reaches m path v -> reaches m' path v.
Proof.
  intros Hp Hr. inversion Hr as [? ? ? Hin|? ? ? ? ? Hin Hsub]; subst.
  - constructor. by eapply Permutation_in.
  - econstructor; [by eapply Permutation_in|done].
Qed.

Lemma reorder_flat_entry m m' :
  reorder m m' ->
  forall prefix k s, flat_entry prefix m k s <-> flat_entry prefix m' k s.
Proof.
  induction 1 as [m m' Hp|key a b rest _ IH|m1 m2 m3 _ IH1 _ IH2];
    intros prefix k s.
  - unfold flat_entry. split; intros (path & v & Hr & Hv); exists path, v;
      (split; [|done]).
    + by eapply reaches_perm.
    + eapply reaches_perm; [|done]. by symmetry.
  - rewrite !flat_entry_cons. simpl.
    split; (intros [[]|[(m' & [= <-] & Hflat)|Hrest]]; [|by auto]);
      right; left; eexists; (split; [reflexivity|]); by apply IH.
  - by rewrite IH1, IH2.
Qed.

(** X16.  When no two paths of the input give different values for one
    key, [flattenMap] yields the same map in whatever order the entries are
    visited, at any depth of nesting. *)
Theorem flattenMap_in_any_order m m' prefix (output : gmap string string) :
  reorder m m' ->
  (forall k s s', flat_entry prefix m k s -> flat_entry prefix m k s' -> s = s') ->
  flattenMap prefix m output = flattenMap prefix m' output.
Proof.
  intros Hre Hfun. apply map_eq. intros k.
  pose proof (reorder_flat_entry m m' Hre prefix k) as Heq.
  destruct (flattenMap prefix m output !! k) as [s|] eqn:H1.
  - destruct (flattenMap_lookup _ _ _ _ _ H1) as [Hout|Hflat].
    + destruct (flattenMap_mono m' prefix output k (mk_is_Some _ _ Hout))
        as [s2 H2].
      rewrite H2. f_equal.
      destruct (flattenMap_lookup _ _ _ _ _ H2) as [Hout2|Hflat2]; [congruence|].
      apply Heq in Hflat2.
      destruct (flattenMap_overrides m prefix output k s2 Hflat2)
        as (s' & Hs' & Hflat').
      rewrite H1 in Hs'. injection Hs' as <-. by eapply Hfun.
    + destruct (flattenMap_overrides m' prefix output k s (proj1 (Heq s) Hflat))
        as (s' & Hs' & Hflat').
      rewrite Hs'. f_equal. apply Heq in Hflat'. by eapply Hfun.
  - destruct (flattenMap prefix m' output !! k) as [s2|] eqn:H2; [|done].
    destruct (flattenMap_lookup _ _ _ _ _ H2) as [Hout2|Hflat2].
    + destruct (flattenMap_mono m prefix output k (mk_is_Some _ _ Hout2))
        as [s1 Hs1]. congruence.
    + apply Heq in Hflat2.
      destruct (flattenMap_bound m prefix output k s2 Hflat2) as [s1 Hs1].
      congruence.
Qed.

(** *** Keys below a prefix *)

Lemma reaches_nonempty m path v : reaches m path v -> path <> [].
Proof. by inversion 1. Qed.

(** X17.  Called with a non-empty prefix, [flattenMap] adds bindings only
    at keys of the form [prefix.rest]: every binding of the result is a
    binding of the output it was given or has such a key. *)
Theorem nested_keys_extend_the_prefix m prefix (output : gmap string string) k s :
  prefix <> "" ->
  flattenMap prefix m output !! k = Some s ->
  output !! k = Some s \/ exists rest, k = prefix +:+ "." +:+ rest.
Proof.
  intros Hne Hres.
  apply flattenMap_lookup in Hres as [Hout|(path & v & Hr & Hv)]; [by left|].
  right. apply reaches_nonempty in Hr.
  destruct path as [|key path]; [done|].
  rewrite (dotted_from_nonempty _ _ Hne) in Hv.
  change (dotted (prefix :: key :: path))
    with (prefix +:+ "." +:+ dotted (key :: path)) in Hv.
  destruct v; simpl in Hv; try done;
    try (destruct Hv as [-> _]; eauto).
  destruct Hv as (j & e & _ & -> & _).
  rewrite !append_assoc. eauto.
Qed.

End FlattenLoop.

Section Wire.
Context `{GoLib}.

Lemma In_opt_string k v name x :
  In (k, v) (opt_string name x) <-> k = name /\ x <> "" /\ v = json_string x.
Proof.
  unfold opt_string. destruct (String.eqb_spec x ""); simpl.
  - tauto.
  - split; [intros [[= <- <-]|[]]; done|intros (-> & _ & ->); auto].
Qed.

Lemma In_opt_bool k v name b :
  In (k, v) (opt_bool name b) <-> k = name /\ b = true /\ v = "true".
Proof.
  unfold opt_bool. destruct b; simpl.
  - split; [intros [[= <- <-]|[]]; done|intros (-> & _ & ->); auto].
  - split; [done|intros (_ & [=] & _)].
Qed.

Lemma In_opt_int k v name z :
  In (k, v) (opt_int name z) <-> k = name /\ z <> 0 /\ v = itoa z.
Proof.
  unfold opt_int. destruct (Z.eqb_spec z 0); simpl.
  - tauto.
  - split; [intros [[= <- <-]|[]]; done|intros (-> & _ & ->); auto].
Qed.

Lemma In_opt_strings k v name l :
  In (k, v) (opt_strings name l) <->
  k = name /\ l <> [] /\ v = "[" +:+ join "," (map json_string l) +:+ "]".
Proof.
  unfold opt_strings. destruct l; simpl.
  - tauto.
  - split; [intros [[= <- <-]|[]]; done|intros (-> & _ & ->); auto].
Qed.

Lemma In_opt_data k v d data :
  opt_data d = Some data ->
  In (k, v) data <-> k = "data" /\ d <> VNil /\ Marshal d = Some v.
Proof.
  unfold opt_data.
  assert (Hnil : d = VNil \/ d <> VNil) by (destruct d; auto; right; discriminate).
  destruct Hnil as [->|Hd].
  { intros [= <-]. simpl. split; [done|]. intros (_ & ? & _). done. }
  assert (Hopt : match d with
                 | VNil => Some []
                 | _ => match Marshal d with
                        | Some text => Some [("data", text)]
                        | None => None
                        end
                 end
                 = match Marshal d with
                   | Some text => Some [("data", text)]
                   | None => None
                   end).
  { by destruct d. }
  rewrite Hopt. destruct (Marshal d) as [text|]; [|done].
  intros [= <-]. simpl. split.
  - intros [[= <- <-]|[]]. done.
  - intros (-> & _ & [= ->]). auto.
Qed.

Lemma opt_data_None d : opt_data d = None <-> Marshal d = None.
Proof.
  unfold opt_data. destruct d; simpl; try done;
    try (match goal with
         | |- context [match ?x with _ => _ end] => destruct x
         end; done).
Qed.

Lemma In_named (k v name x : string) l :
  In (k, v) ((name, x) :: l) <-> (k = name /\ v = x) \/ In (k, v) l.
Proof.
  simpl. split; [intros [[= <- <-]|]; auto|intros [[-> ->]|]; auto].
Qed.

Ltac names :=
  repeat first
    [ rewrite in_app_iff | rewrite In_named | rewrite In_opt_string
    | rewrite In_opt_bool | rewrite In_opt_int | rewrite In_opt_strings ];
  intuition (try discriminate; try congruence).



(** X19.  The v1 payload is built from the data, the target, the collapse
    key, the priority, the notification, the time to live and the restricted
    package name only: clients that agree on these give the same payload.
    So [AppendDevices], [SetContentAvailable], [SetDelayWhileIdle],
    [SetDryRun] and [SetCondition] have no effect on what a v1 send
    carries. *)
Theorem v1_payload_ignores_legacy_only_fields :
  (forall this that : FcmV1.FcmClient,
     Data (FcmV1.Message this) = Data (FcmV1.Message that) ->
     To (FcmV1.Message this) = To (FcmV1.Message that) ->
     CollapseKey (FcmV1.Message this) = CollapseKey (FcmV1.Message that) ->
     Priority (FcmV1.Message this) = Priority (FcmV1.Message that) ->
     Notification (FcmV1.Message this) = Notification (FcmV1.Message that) ->
     TimeToLive (FcmV1.Message this) = TimeToLive (FcmV1.Message that) ->
     RestrictedPackageName (FcmV1.Message this)
     = RestrictedPackageName (FcmV1.Message that) ->
     FcmV1.convertToV1Message this = FcmV1.convertToV1Message that) /\
  (forall (c : call) (this : FcmV1.FcmClient),
     (forall f, In f (writes c) ->
                In f [fRegistrationIds; fContentAvailable; fDelayWhileIdle;
                      fDryRun; fCondition]) ->
     FcmV1.convertToV1Message (FcmV1.apply_call c this)
     = FcmV1.convertToV1Message this).
Proof.
  assert (Hagree : forall this that : FcmV1.FcmClient,
     Data (FcmV1.Message this) = Data (FcmV1.Message that) ->
     To (FcmV1.Message this) = To (FcmV1.Message that) ->
     CollapseKey (FcmV1.Message this) = CollapseKey (FcmV1.Message that) ->
     Priority (FcmV1.Message this) = Priority (FcmV1.Message that) ->
     Notification (FcmV1.Message this) = Notification (FcmV1.Message that) ->
     TimeToLive (FcmV1.Message this) = TimeToLive (FcmV1.Message that) ->
     RestrictedPackageName (FcmV1.Message this)
     = RestrictedPackageName (FcmV1.Message that) ->
     FcmV1.convertToV1Message this = FcmV1.convertToV1Message that).
  { intros this that Hd Ht Hc Hp Hn Hl Hr. unfold FcmV1.convertToV1Message.
    by rewrite Hd, Ht, Hc, Hp, Hn, Hl, Hr. }
  split; [exact Hagree|].
  intros c this Hsub.
  destruct c; try (apply Hagree; reflexivity); exfalso.
  all: first
    [ destruct (Hsub fData) as [|[|[|[|[|[]]]]]]; [simpl; tauto|discriminate..]
    | destruct (Hsub fPriority) as [|[|[|[|[|[]]]]]]; [simpl; tauto|discriminate..]
    | destruct (Hsub fCollapseKey) as [|[|[|[|[|[]]]]]]; [simpl; tauto|discriminate..]
    | destruct (Hsub fNotification) as [|[|[|[|[|[]]]]]]; [simpl; tauto|discriminate..]
    | destruct (Hsub fTimeToLive) as [|[|[|[|[|[]]]]]]; [simpl; tauto|discriminate..]
    | destruct (Hsub fRestrictedPackageName) as [|[|[|[|[|[]]]]]];
        [simpl; tauto|discriminate..] ].
Qed.

End Wire.

(** ** The badge *)

Lemma digits_uint_acc d : forall p : positive,
  digits (NilEmpty.string_of_uint d) (Z.pos p)
  = Some (Z.pos (Pos.of_uint_acc d p)).
Proof.
  induction d; intros p; simpl; try reflexivity;
    unfold digit_of; simpl; rewrite <- IHd; f_equal; lia.
Qed.

Lemma digits_uint d :
  digits (NilEmpty.string_of_uint d) 0 = Some (Z.of_N (Pos.of_uint d)).
Proof.
  induction d; simpl; try reflexivity; unfold digit_of; simpl;
    try exact IHd; apply digits_uint_acc.
Qed.

Lemma digits_to_uint p :
  digits (NilEmpty.string_of_uint (Pos.to_uint p)) 0 = Some (Z.pos p).
Proof. by rewrite digits_uint, DecimalPos.Unsigned.of_to. Qed.

Lemma string_of_to_uint p :
  NilZero.string_of_uint (Pos.to_uint p)
  = NilEmpty.string_of_uint (Pos.to_uint p) /\
  exists a rest,
    NilEmpty.string_of_uint (Pos.to_uint p) = String a rest /\
    Ascii.eqb a "-" = false /\ Ascii.eqb a "+" = false.
Proof.
  pose proof (DecimalPos.Unsigned.to_uint_nonnil p) as Hnil.
  destruct (Pos.to_uint p); [done|..]; (split; [reflexivity|]); simpl; eauto.
Qed.

Lemma Atoi_itoa z :
  - 2 ^ 63 <= z <= 2 ^ 63 - 1 -> Atoi (itoa z) = inr z.
Proof.
  intros Hrange. unfold itoa. destruct z as [|p|p]; simpl.
  - reflexivity.
  - destruct (string_of_to_uint p) as (-> & a & rest & Heq & Hm & Hp).
    pose proof (digits_to_uint p) as Hd. rewrite Heq in *.
    unfold Atoi. rewrite Hm, Hp, Hd.
    destruct (Z.leb_spec (- 2 ^ 63) (Z.pos p)); [|lia].
    destruct (Z.leb_spec (Z.pos p) (2 ^ 63 - 1)); [done|lia].
  - destruct (string_of_to_uint p) as (-> & a & rest & Heq & Hm & Hp).
    pose proof (digits_to_uint p) as Hd.
    unfold Atoi. simpl. rewrite Heq. rewrite Heq in Hd. rewrite Hd.
    change (- Z.pos p) with (Z.neg p).
    destruct (Z.leb_spec (- 2 ^ 63) (Z.neg p)); [|lia].
    destruct (Z.leb_spec (Z.neg p) (2 ^ 63 - 1)); [done|lia].
Qed.

Section Badge.
Context `{GoLib}.

(** X22.  A badge that is the decimal text of a number in the range of
    [int], as [strconv.Itoa] writes it, is carried by the v1 payload as that
    number: [notification_count] is the number. *)
Theorem badge_written_by_Itoa_is_read_back (this : FcmV1.FcmClient) n :
  - 2 ^ 63 <= n <= 2 ^ 63 - 1 ->
  Badge (Notification (FcmV1.Message this)) = itoa n ->
  FcmV1.V1AndroidNotification.notification_count
    (FcmV1.V1Android.notification
       (FcmV1.V1Message.android (FcmV1.message (FcmV1.convertToV1Message this))))
  = n.
Proof.
  intros Hrange Hbadge. unfold FcmV1.convertToV1Message. simpl.
  rewrite Hbadge, (Atoi_itoa n Hrange).
  destruct (String.eqb_spec (itoa n) "") as [He|]; [|done].
  pose proof (Atoi_itoa n Hrange) as Ha. rewrite He in Ha. discriminate.
Qed.

End Badge.

(** ** The further properties at concrete inputs *)

#[local] Existing Instance Examples.lib.

Lemma calls_on_other_fields_commute_witness :
  FcmV1.apply_call (Call_SetCollapseKey "k")
    (FcmV1.apply_call (Call_SetPriority "high") Examples.v1_client)
  = FcmV1.apply_call (Call_SetPriority "high")
      (FcmV1.apply_call (Call_SetCollapseKey "k") Examples.v1_client).
Proof.
  apply (proj1 (@calls_on_other_fields_commute Examples.lib)).
  simpl. intros f [<-|[]] [Heq|[]]. discriminate Heq.
Defined.

Lemma later_call_overwrites_witness :
  FcmV1.apply_call (Call_SetPriority "high")
    (FcmV1.apply_call (Call_SetPriority "normal") Examples.v1_client)
  = FcmV1.apply_call (Call_SetPriority "high") Examples.v1_client.
Proof.
  apply (proj1 (@later_call_overwrites Examples.lib)).
  - reflexivity.
  - simpl. intros f Hf. exact Hf.
Defined.

Lemma credentials_choose_the_endpoint_witness :
  exists request,
    FcmV1.buildRequest (Examples.world (Examples.answer 200 Examples.body_sent))
      (FcmV1.chain [Call_SetPriority "high"]
         (FcmV1.NewFcmClient "k" Examples.credentials))
    = inr request /\
    Request.URL request
    = "https://fcm.googleapis.com/v1/projects/p/messages:send".
Proof.
  eexists. split; [reflexivity|].
  refine (proj1 (proj1 (proj2 (proj2
            (@credentials_choose_the_endpoint Examples.lib
               (Examples.world (Examples.answer 200 Examples.body_sent))
               [Call_SetPriority "high"] "k" Examples.credentials _ _))) _)).
  - reflexivity.
  - simpl. discriminate.
Defined.

Lemma send_failures_return_the_zero_status_witness :
  FcmV1.sendOnce Examples.world_no_payload Examples.v1_client
  = FcmV1.Return FcmV1.new_FcmResponseStatus (Some "json: unsupported value").
Proof.
  apply (proj1 (@send_failures_return_the_zero_status Examples.lib
                  Examples.world_no_payload Examples.v1_client)).
  - reflexivity.
  - reflexivity.
Defined.

Lemma v1_undecodable_body_reports_200_witness :
  FcmV1.sendOnce
    (Examples.world (Examples.answer_with 503 "120" "<html>")) Examples.v1_client
  = FcmV1.Return
      {| FcmV1.Ok := false; FcmV1.StatusCode := 200;
         FcmV1.MulticastId := 0; FcmV1.Success := 0; FcmV1.Fail := 0;
         FcmV1.Canonical_ids := 0; FcmV1.Results := []; FcmV1.MsgId := 0;
         FcmV1.Err := ""; FcmV1.RetryAfter := "120" |}
      (Some "unexpected end of JSON input").
Proof.
  apply (proj1 (@v1_undecodable_body_reports_200 Examples.lib
                  (Examples.world (Examples.answer_with 503 "120" "<html>"))
                  Examples.v1_client
                  (Examples.answer_with 503 "120" "<html>") "<html>"
                  "unexpected end of JSON input" eq_refl eq_refl eq_refl)).
Defined.

Lemma retry_classification_of_failed_sends_witness :
  FcmV1.IsTimeout
    {| FcmV1.Ok := false; FcmV1.StatusCode := 200;
       FcmV1.MulticastId := 0; FcmV1.Success := 0; FcmV1.Fail := 1;
       FcmV1.Canonical_ids := 0;
       FcmV1.Results := [ {[ "error" := "NOT_FOUND" ]} ]; FcmV1.MsgId := 0;
       FcmV1.Err := "Requested entity was not found.";
       FcmV1.RetryAfter := "" |} = true <->
  exists v1Resp,
    Examples.unmarshal_V1 Examples.body_not_found = inr v1Resp /\
    FcmV1.FcmV1Error.Message (FcmV1.Error v1Resp) <> "" /\
    (FcmV1.FcmV1Error.Status (FcmV1.Error v1Resp) = "Unavailable" \/
     FcmV1.FcmV1Error.Status (FcmV1.Error v1Resp) = "InternalServerError").
Proof.
  apply (proj2 (proj2 (@retry_classification_of_failed_sends Examples.lib))
           (Examples.world (Examples.answer 503 Examples.body_not_found))
           Examples.v1_client
           (Examples.answer 503 Examples.body_not_found)
           Examples.body_not_found _ None).
  - reflexivity.
  - reflexivity.
  - simpl. lia.
  - reflexivity.
Defined.

Lemma legacy_paths_agree_witness :
  same_outcome
    (FcmV1.sendOnce (Examples.world (Examples.answer 200 Examples.body_failure))
       Examples.legacy_client)
    (FcmGo.sendOnce (Examples.go_world (Examples.answer 200 Examples.body_failure))
       Examples.go_client).
Proof.
  apply (@legacy_paths_agree Examples.lib).
  - split; [reflexivity|]. split; [reflexivity|]. split; [reflexivity|].
    intros body sa sb Hs. simpl.
    unfold Examples.unmarshal_status, Examples.go_unmarshal_status.
    destruct (String.eqb body Examples.body_failure); simpl; [|auto].
    unfold same_status in *. simpl. intuition.
  - split; reflexivity.
  - reflexivity.
Defined.

Lemma sendViaV1_status_or_error_witness :
  (@None FcmGo.FcmResponseStatus = None <->
   Some "unexpected end of JSON input" <> None) /\
  (Some "unexpected end of JSON input" = None <->
   @None FcmGo.FcmResponseStatus <> None).
Proof.
  apply (@sendViaV1_status_or_error Examples.lib
           (Examples.go_v1_world (Examples.answer 200 "<html>"))
           Examples.go_v1_client).
  reflexivity.
Defined.

Lemma sendViaV1_reads_the_body_only_witness :
  FcmGo.sendViaV1 (Examples.go_v1_world (Examples.answer 200 Examples.body_failure))
    Examples.go_v1_client
  = FcmGo.sendViaV1
      (Examples.go_v1_world (Examples.answer_with 503 "120" Examples.body_failure))
      Examples.go_v1_client.
Proof.
  apply (@sendViaV1_reads_the_body_only Examples.lib); intros; reflexivity.
Defined.


Lemma failed_token_exchange_panics_witness :
  FcmGo.Send
    (Examples.go_v1_world_no_token (Examples.answer 200 Examples.body_failure))
    Examples.go_v1_client
  = FcmGo.Panicked.
Proof.
  apply (@failed_token_exchange_panics Examples.lib
           (Examples.go_v1_world_no_token
              (Examples.answer 200 Examples.body_failure))
           Examples.go_v1_client (Some "oauth2: cannot fetch token")).
  - reflexivity.
  - reflexivity.
  - reflexivity.
Defined.

Lemma flattenMap_adds_and_replaces_witness :
  is_Some (@flattenMap Examples.lib "" Examples.tree_bc {[ "z" := "0" ]} !! "z").
Proof.
  apply (proj1 (@flattenMap_adds_and_replaces Examples.lib Examples.tree_bc ""
                  {[ "z" := "0" ]} "z")).
  exists "0". reflexivity.
Defined.

(** The entries that the paths of [{"a": {"b": 1, "c": [10, 20]}}] give. *)
Lemma tree_bc_entries k s :
  @flat_entry Examples.lib "" Examples.tree_bc k s ->
  (k = "a.b" /\ s = "1") \/ (k = "a.c.0" /\ s = "10") \/
  (k = "a.c.1" /\ s = "20").
Proof.
  unfold Examples.tree_bc. rewrite flat_entry_cons.
  intros [[]|[(m' & [= <-] & Hin)|Hnil]]; [|by apply flat_entry_nil in Hnil].
  apply flat_entry_cons in Hin as [[-> ->]|[(? & [=] & _)|Hin]]; [auto|].
  apply flat_entry_cons in Hin as [(i & e & Hi & -> & ->)|[(? & [=] & _)|Hnil]];
    [|by apply flat_entry_nil in Hnil].
  destruct i as [|[|i]]; simpl in Hi; [| |done];
    injection Hi as <-; auto.
Qed.

Lemma flattenMap_in_any_order_witness :
  @flattenMap Examples.lib "" Examples.tree_bc ∅
  = flattenMap "" Examples.tree_cb ∅.
Proof.
  apply (@flattenMap_in_any_order Examples.lib).
  - apply reorder_nested. apply reorder_perm. apply perm_swap.
  - intros k s s' H1 H2.
    apply tree_bc_entries in H1. apply tree_bc_entries in H2.
    destruct H1 as [[-> ->]|[[-> ->]|[-> ->]]],
             H2 as [[Hk ->]|[[Hk ->]|[Hk ->]]];
      first [reflexivity|discriminate Hk].
Defined.

Lemma nested_keys_extend_the_prefix_witness :
  (∅ : gmap string string) !! "a.b" = Some "1" \/
  exists rest, "a.b" = "a" +:+ "." +:+ rest.
Proof.
  apply (@nested_keys_extend_the_prefix Examples.lib
           [("b", @VFloat Examples.lib Examples.F1)] "a" ∅ "a.b" "1").
  - discriminate.
  - reflexivity.
Defined.


Lemma v1_payload_ignores_legacy_only_fields_witness :
  FcmV1.convertToV1Message
    (FcmV1.apply_call (Call_SetDryRun true) Examples.v1_client)
  = FcmV1.convertToV1Message Examples.v1_client.
Proof.
  apply (proj2 (@v1_payload_ignores_legacy_only_fields Examples.lib)).
  simpl. intros f [<-|[]]. tauto.
Defined.

Lemma parseStatusBodyV1_is_consistent_witness :
  exists st,
    FcmV1.parseStatusBodyV1
      (Examples.world (Examples.answer 200 Examples.body_sent))
      FcmV1.new_FcmResponseStatus Examples.body_sent
    = (st, None) /\
    FcmV1.Success st + FcmV1.Fail st = 1.
Proof.
  eexists. split; [reflexivity|].
  refine (proj1 (proj2
            (proj2 (@parseStatusBodyV1_is_consistent Examples.lib
                      (Examples.world (Examples.answer 200 Examples.body_sent))
                      FcmV1.new_FcmResponseStatus Examples.body_sent)
               _ _))).
  reflexivity.
Defined.

Lemma v1_error_body_with_status_200_witness :
  exists st,
    FcmV1.sendOnce (Examples.world (Examples.answer 200 Examples.body_not_found))
      Examples.v1_client
    = FcmV1.Return st None /\
    FcmV1.Ok st = true /\ FcmV1.Fail st = 1 /\ FcmV1.Success st = 0 /\
    FcmV1.StatusCode st = 404 /\
    (FcmV1.IsTimeout st = true <->
     500 <= 404 \/
     (404 = 200 /\ ("NOT_FOUND" = "Unavailable" \/
                    "NOT_FOUND" = "InternalServerError"))).
Proof.
  apply (@v1_error_body_with_status_200 Examples.lib
           (Examples.world (Examples.answer 200 Examples.body_not_found))
           Examples.v1_client
           (Examples.answer 200 Examples.body_not_found)
           Examples.body_not_found
           {| FcmV1.Name := "";
              FcmV1.Error :=
                {| FcmV1.FcmV1Error.Code := 404;
                   FcmV1.FcmV1Error.Message := "Requested entity was not found.";
                   FcmV1.FcmV1Error.Status := "NOT_FOUND";
                   FcmV1.FcmV1Error.Details := [] |} |}).
  - reflexivity.
  - reflexivity.
  - reflexivity.
  - reflexivity.
  - simpl. discriminate.
Defined.

Lemma badge_written_by_Itoa_is_read_back_witness :
  FcmV1.V1AndroidNotification.notification_count
    (FcmV1.V1Android.notification
       (FcmV1.V1Message.android
          (FcmV1.message (FcmV1.convertToV1Message (Examples.notified VNil)))))
  = 3.
Proof.
  apply (@badge_written_by_Itoa_is_read_back Examples.lib
           (Examples.notified VNil) 3).
  - lia.
  - reflexivity.
Defined.

Lemma v1_error_is_normalised_witness :
  exists st,
    FcmV1.sendOnce (Examples.world (Examples.answer 404 Examples.body_not_found))
      Examples.v1_client
    = FcmV1.Return st None /\
    FcmV1.Fail st = 1 /\
    FcmV1.Results st = [ {[ "error" := "NOT_FOUND" ]} ] /\
    FcmV1.Err st = "Requested entity was not found." /\
    (404 <> 200 -> FcmV1.StatusCode st = 200 /\ FcmV1.Ok st = false).
Proof.
  apply (@v1_error_is_normalised Examples.lib
           (Examples.world (Examples.answer 404 Examples.body_not_found))
           Examples.v1_client
           (Examples.answer 404 Examples.body_not_found)
           Examples.body_not_found
           {| FcmV1.Name := "";
              FcmV1.Error :=
                {| FcmV1.FcmV1Error.Code := 404;
                   FcmV1.FcmV1Error.Message := "Requested entity was not found.";
                   FcmV1.FcmV1Error.Status := "NOT_FOUND";
                   FcmV1.FcmV1Error.Details := [] |} |}).
  - reflexivity.
  - reflexivity.
  - reflexivity.
  - simpl. discriminate.
Defined.
